(** * Fashion Product Analytics Dashboard (src/main.py)

    A shallow embedding of the data-processing core of the dashboard: the
    loader/cleaner [load_and_process_data], the sidebar filters
    [create_filters], the filter engine [apply_filters], the scalar summary
    [create_overview_metrics], the tables that [create_visualizations]
    prepares for its charts and the control flow of [main].

    The pandas primitives the program calls are modelled in [Module Pandas]
    with the behaviour the program relies on: a frame is an ordered list of
    rows, each row a finite map from column name to cell, together with the
    ordered list of its column labels and their dtypes.  Exceptions are
    explicit ([result]), the calls to the user interface are a trace ([ui]),
    and [Module Store] gives the filter engine over frames held by
    reference.  What the model leaves open of the libraries, the float64
    arithmetic of a mean and the text of two exceptions, is a parameter
    ([library]). *)

From stdpp Require Import base option list numbers strings pretty gmap sorting.
From Stdlib Require Import QArith Qcanon Ascii.

Local Open Scope string_scope.
Local Open Scope list_scope.
Local Open Scope nat_scope.

(** ** Python values and exceptions *)

(** The exceptions the modelled code can raise. *)
Inductive exn :=
  | KeyError (key : string)
  | TypeError (msg : string)
  | AttributeError (msg : string)
  | ParseError (msg : string)
  | StreamlitAPIException (msg : string).

(** Outcome of a computation that may raise. *)
Inductive result (A : Type) :=
  | Ok (a : A)
  | Raise (e : exn).
Arguments Ok {A} a.
Arguments Raise {A} e.

Global Instance result_ret : MRet result := λ A a, Ok a.
Global Instance result_bind : MBind result := λ A B k m,
  match m with
  | Ok a => k a
  | Raise e => Raise e
  end.

(** [str(e)] for an exception. *)
Definition exn_str (e : exn) : string :=
  match e with
  | KeyError k => ("'" ++ k ++ "'")%string
  | TypeError m => m
  | AttributeError m => m
  | ParseError m => m
  | StreamlitAPIException m => m
  end.

(** A Python number given to a widget: the slider tells an [int] from a
    [float]. *)
Inductive number :=
  | PyInt (z : Z)
  | PyFloat (x : Qc).

Definition number_value (n : number) : Qc :=
  match n with
  | PyInt z => Qc_of_Z z
  | PyFloat x => x
  end.

Definition is_float (n : number) : bool :=
  match n with PyFloat _ => true | PyInt _ => false end.

(** ** The pandas fragment used by the program *)
Module Pandas.

(** A cell of a frame.  A finite float64 is represented by the rational it
    denotes ([Qc], so that equal numbers are equal terms); [NaN] is the
    missing value; the infinities are not represented. *)
Inductive cell :=
  | Str (s : string)
  | Num (x : Qc)
  | NaN.

Global Instance cell_eq_dec : EqDecision cell.
Proof. solve_decision. Defined.

Inductive dtype := float64 | object.

Global Instance dtype_eq_dec : EqDecision dtype.
Proof. solve_decision. Defined.

(** A column taken out of a frame. *)
Record Series := mkSeries { s_dtype : dtype; s_values : list cell }.

(** A frame: column labels with their dtype, in order, and the rows. *)
Record DataFrame := mkDF {
  columns : list (string * dtype);
  rows : list (gmap string cell)
}.

Definition num (z : Z) : cell := Num (Qc_of_Z z).

(** [pd.isna] on a cell. *)
Definition isna (c : cell) : bool :=
  match c with NaN => true | _ => false end.

Definition is_str (c : cell) : bool :=
  match c with Str _ => true | _ => false end.

Definition is_num (c : cell) : bool :=
  match c with Num _ => true | _ => false end.

(** [c in df.columns] *)
Definition has_column (df : DataFrame) (c : string) : bool :=
  bool_decide (c ∈ (columns df).*1).

Definition col_dtype (df : DataFrame) (c : string) : option dtype :=
  snd <$> find (λ p, bool_decide (p.1 = c)) (columns df).

(** The value of column [c] in row [r]. *)
Definition at_col (c : string) (r : gmap string cell) : cell :=
  default NaN (r !! c).

(** [len(df)] *)
Definition len (df : DataFrame) : nat := length (rows df).

(** [df[c]]: raises [KeyError] when the label is absent. *)
Definition getitem (df : DataFrame) (c : string) : result Series :=
  match col_dtype df c with
  | Some d => Ok (mkSeries d (at_col c <$> rows df))
  | None => Raise (KeyError c)
  end.

(** Selection of the rows of [l] at which the mask is true. *)
Fixpoint select {A} (mask : list bool) (l : list A) : list A :=
  match mask, l with
  | b :: mask, x :: l => if b then x :: select mask l else select mask l
  | _, _ => []
  end.

(** [df[mask]]: a new frame with the rows at which the boolean mask
    holds, in their order; labels and dtypes are kept. *)
Definition getitem_mask (df : DataFrame) (mask : list bool) : DataFrame :=
  mkDF (columns df) (select mask (rows df)).

(** [df.copy()] *)
Definition copy (df : DataFrame) : DataFrame :=
  mkDF (columns df) (rows df).

(** *** Element-wise comparisons *)

(** [==] between a cell and a scalar: a missing value equals nothing. *)
Definition cell_eq (c v : cell) : bool :=
  if isna c then false else bool_decide (c = v).

(** [series == v] *)
Definition series_eq (s : Series) (v : cell) : list bool :=
  (λ c, cell_eq c v) <$> s_values s.

(** [>=] between a cell and a float: false on a missing value, a
    [TypeError] on a string. *)
Definition cell_ge (c : cell) (x : Qc) : result bool :=
  match c with
  | Num y => Ok (bool_decide (x ≤ y)%Qc)
  | NaN => Ok false
  | Str _ => Raise (TypeError "'>=' not supported between instances of 'str' and 'float'")
  end.

Definition cell_le (c : cell) (x : Qc) : result bool :=
  match c with
  | Num y => Ok (bool_decide (y ≤ x)%Qc)
  | NaN => Ok false
  | Str _ => Raise (TypeError "'<=' not supported between instances of 'str' and 'float'")
  end.

(** [series >= x] and [series <= x] *)
Definition series_ge (s : Series) (x : Qc) : result (list bool) :=
  mapM (λ c, cell_ge c x) (s_values s).

Definition series_le (s : Series) (x : Qc) : result (list bool) :=
  mapM (λ c, cell_le c x) (s_values s).

(** [mask1 & mask2] *)
Definition mask_and (m1 m2 : list bool) : list bool := zip_with andb m1 m2.

(** [series.isin(values)]: membership, a missing value being a member
    when the values hold a missing value. *)
Definition isin (s : Series) (vs : list cell) : list bool :=
  (λ c, bool_decide (c ∈ vs)) <$> s_values s.

(** *** Cleaning primitives *)

(** [series.fillna(fill)] with a string: every missing entry is replaced;
    a float64 column in which an entry was replaced becomes object. *)
Definition fillna (s : Series) (fill : string) : Series :=
  mkSeries
    (match s_dtype s with
     | object => object
     | float64 => if existsb isna (s_values s) then object else float64
     end)
    ((λ c, if isna c then Str fill else c) <$> s_values s).

(** [pd.to_numeric(series, errors='coerce')]: a string that the float
    parser [parse] rejects becomes missing; the result is float64. *)
Definition to_numeric (parse : string → option Qc) (s : Series) : Series :=
  mkSeries float64
    ((λ c, match c with
           | Str x => from_option Num NaN (parse x)
           | _ => c
           end) <$> s_values s).

Fixpoint set_dtype (c : string) (d : dtype)
    (cols : list (string * dtype)) : list (string * dtype) :=
  match cols with
  | [] => [(c, d)]
  | (c', d') :: cols =>
      if bool_decide (c' = c) then (c, d) :: cols
      else (c', d') :: set_dtype c d cols
  end.

(** [df[c] = series]: the column is replaced in place (appended when the
    label is new); the series comes from the same frame, row by row. *)
Definition setitem (df : DataFrame) (c : string) (s : Series) : DataFrame :=
  mkDF (set_dtype c (s_dtype s) (columns df))
       (zip_with (λ r v, <[c:=v]> r) (rows df) (s_values s)).

(** *** Reductions *)

(** The numbers of a column; a string in it is a [TypeError]. *)
Fixpoint numbers (l : list cell) : result (list Qc) :=
  match l with
  | [] => Ok []
  | Str _ :: _ => Raise (TypeError "could not convert string to numeric")
  | Num x :: l => xs ← numbers l; Ok (x :: xs)
  | NaN :: l => numbers l
  end.

Definition Qc_sum (xs : list Qc) : Qc := foldr Qcplus (Qc_of_Z 0) xs.

(** [series.mean()]: missing when the column holds no number; otherwise
    the float64 that the library computes from the column, the sum of its
    numbers (in the library's order of additions, each rounded) divided by
    their count.  This arithmetic is the parameter [float_mean]; a result
    that overflows is outside the model. *)
Definition mean (float_mean : list cell → Qc) (s : Series) : result cell :=
  xs ← numbers (s_values s);
  Ok (match xs with
      | [] => NaN
      | _ => Num (float_mean (s_values s))
      end).

(** The mean in exact arithmetic. *)
Definition exact_mean (l : list cell) : Qc :=
  match numbers l with
  | Ok xs => (Qc_sum xs / Qc_of_Z (Z.of_nat (length xs)))%Qc
  | Raise _ => Qc_of_Z 0
  end.

Definition Qc_min (x y : Qc) : Qc := if bool_decide (x ≤ y)%Qc then x else y.
Definition Qc_max (x y : Qc) : Qc := if bool_decide (x ≤ y)%Qc then y else x.

(** [series.min()], [series.max()]: over the non-missing values. *)
Definition series_min (s : Series) : result cell :=
  xs ← numbers (s_values s);
  Ok (match xs with
      | [] => NaN
      | x :: xs => Num (foldr Qc_min x xs)
      end).

Definition series_max (s : Series) : result cell :=
  xs ← numbers (s_values s);
  Ok (match xs with
      | [] => NaN
      | x :: xs => Num (foldr Qc_max x xs)
      end).

(** [series.isna().all()] *)
Definition isna_all (s : Series) : bool := forallb isna (s_values s).

(** [series.unique().tolist()]: the distinct values in order of first
    appearance. *)
Definition unique (s : Series) : list cell :=
  reverse (remove_dups (reverse (s_values s))).

(** [series.nunique()]: the number of distinct non-missing values. *)
Definition nunique (s : Series) : nat :=
  length (remove_dups (filter (λ c, isna c = false) (s_values s))).

(** *** String methods *)

Definition lower_ascii (a : ascii) : ascii :=
  let n := nat_of_ascii a in
  if (65 <=? n)%nat && (n <=? 90)%nat then ascii_of_nat (n + 32) else a.

Fixpoint lower (s : string) : string :=
  match s with
  | EmptyString => EmptyString
  | String a s => String (lower_ascii a) (lower s)
  end.

Fixpoint substring_of (pat s : string) : bool :=
  String.prefix pat s ||
  match s with
  | EmptyString => false
  | String _ s => substring_of pat s
  end.

(** Case folding of a text that is searched without regard to case for a
    pattern of ASCII letters: besides the capital ASCII letters, the four
    letters that the regular-expression engine takes for an ASCII letter,
    given by their UTF-8 bytes: U+0130 and U+0131 for [i], U+017F for [s],
    U+212A for [k]. *)
Fixpoint casefold (s : string) : string :=
  match s with
  | EmptyString => EmptyString
  | String a s1 =>
      let plain := String (lower_ascii a) (casefold s1) in
      match s1 with
      | EmptyString => plain
      | String b s2 =>
          let a := nat_of_ascii a in
          let b := nat_of_ascii b in
          if (a =? 196)%nat && ((b =? 176)%nat || (b =? 177)%nat)
          then String "i" (casefold s2)
          else if (a =? 197)%nat && (b =? 191)%nat
          then String "s" (casefold s2)
          else
            match s2 with
            | EmptyString => plain
            | String c s3 =>
                if (a =? 226)%nat && (b =? 132)%nat
                   && (nat_of_ascii c =? 170)%nat
                then String "k" (casefold s3)
                else plain
            end
      end
  end.

(** The [.str] accessor applies to an object column whose entries, the
    missing ones apart, are not all numbers. *)
Definition str_accessor (s : Series) : bool :=
  match s_dtype s with
  | object => existsb is_str (s_values s) || negb (existsb is_num (s_values s))
  | float64 => false
  end.

(** [series.str.contains(pat, case=False, na=False)] for a pattern of
    ASCII letters and spaces.  Where the [.str] accessor does not apply the
    call raises; an entry that is not a string counts as no match. *)
Definition str_contains (s : Series) (pat : string) : result (list bool) :=
  if str_accessor s then
    Ok ((λ c, match c with
              | Str x => substring_of (lower pat) (casefold x)
              | _ => false
              end) <$> s_values s)
  else
    Raise (AttributeError "Can only use .str accessor with string values!").

(** *** Cross-tabulation *)

(** Order of group labels: numbers ascending, then strings ascending. *)
Definition label_le (a b : cell) : Prop :=
  match a, b with
  | Num x, Num y => (x ≤ y)%Qc
  | Num _, _ => True
  | Str x, Str y => String.le x y
  | Str _, NaN => True
  | NaN, NaN => True
  | _, _ => False
  end.

Global Instance label_le_dec : RelDecision label_le.
Proof. intros [x| x|] [y|y|]; simpl; apply _. Defined.

Record Crosstab := mkCrosstab {
  ct_index : list cell;
  ct_columns : list cell;
  ct_counts : list (list nat)
}.

(** [pd.crosstab(a, b)]: the rows in which either key is missing are
    dropped; the index holds the distinct values of [a], the columns the
    distinct values of [b], both sorted; a cell counts the rows with that
    pair of keys (zero when the pair does not occur). *)
Definition crosstab (a b : Series) : Crosstab :=
  let pairs :=
    filter (λ p, isna p.1 = false ∧ isna p.2 = false)
           (zip (s_values a) (s_values b)) in
  let idx := merge_sort label_le (remove_dups (pairs.*1)) in
  let cols := merge_sort label_le (remove_dups (pairs.*2)) in
  mkCrosstab idx cols
    ((λ i, (λ j, length (filter (λ p, p = (i, j)) pairs)) <$> cols) <$> idx).

(** Sum over all cells of a cross-tabulation. *)
Definition ct_total (ct : Crosstab) : nat :=
  sum_list (sum_list <$> ct_counts ct).

End Pandas.
Import Pandas.

(** ** What the model leaves open of the libraries *)

(** The float64 arithmetic of [Series.mean] and of the mean of a group of
    [groupby], each a function of the numbers it is given, and the text of
    two exceptions: the [TypeError] of [sorted] on a list that mixes strings
    and numbers, which names the types of the two values whose comparison
    fails first, and the exception of the slider. *)
Record library := mkLibrary {
  float_mean : list cell → Qc;
  group_float_mean : list cell → Qc;
  sort_message : list cell → string;
  slider_message : number → number → number → string
}.

(** A library whose means are exact, as float64 arithmetic is on the tables
    of the scenarios; the texts are abridged. *)
Definition exact_library : library :=
  mkLibrary exact_mean exact_mean
    (λ _, "'<' not supported between instances of 'float' and 'str'")
    (λ _ _ _, "Slider value arguments must be of matching types.").

(** ** The user interface as a trace *)

(** What [st.metric] shows.  [MDollars x] stands for the text of [x] with a
    dollar sign and two decimals. *)
Inductive metric_value :=
  | MCount (n : nat)
  | MDollars (x : Qc)
  | MText (s : string).

(** The calls made to the user-interface library, in order.  Layout
    containers ([st.columns], [with col:]) are not recorded. *)
Inductive ui_event :=
  | Markdown (body : string)
  | StError (msg : string)
  | StSuccess (msg : string)
  | StInfo (msg : string)
  | StWarning (msg : string)
  | StHeader (title : string)
  | StSubheader (title : string)
  | StWrite (text : string)
  | SidebarHeader (title : string)
  | Widget (label : string)
  | Metric (label : string) (value : metric_value).

(** A computation that calls the user interface and may raise: the events
    emitted, then how it ended. *)
Definition ui (A : Type) : Type := list ui_event * result A.

Global Instance ui_ret : MRet ui := λ A a, ([], Ok a).
Global Instance ui_bind : MBind ui := λ A B k m,
  match m.2 with
  | Ok a => (m.1 ++ (k a).1, (k a).2)
  | Raise e => (m.1, Raise e)
  end.

Definition emit (e : ui_event) : ui unit := ([e], Ok ()).
Definition lift {A} (r : result A) : ui A := ([], r).

(** ** The filter set *)

(** The dictionary built by [create_filters]: one optional entry per key,
    [None] when the key is absent.  The single-choice entries hold the
    selected option, [color] the list of selected options and
    [price_range] the pair of bounds. *)
Record Filters := mkFilters {
  brand : option cell;
  category_main : option cell;
  category_sub : option cell;
  price_range : option (Qc * Qc);
  price_point : option cell;
  color : option (list cell);
  availability : option cell
}.

(** Truth value of a selected option in a condition. *)
Definition truthy (v : cell) : bool :=
  match v with
  | Str s => negb (bool_decide (s = ""))
  | Num x => negb (bool_decide (x = Qc_of_Z 0))
  | NaN => true
  end.

Definition All : cell := Str "All".

(** ** Filter engine *)

(** One single-choice filter:
    [if filters.get(key) and filters[key] != 'All':
         filtered_df = filtered_df[filtered_df[column] == filters[key]]] *)
Definition single_choice (selected : option cell) (column : string)
    (filtered_df : DataFrame) : result DataFrame :=
  match selected with
  | Some v =>
      if truthy v && bool_decide (v ≠ All) then
        col ← getitem filtered_df column;
        Ok (getitem_mask filtered_df (series_eq col v))
      else Ok filtered_df
  | None => Ok filtered_df
  end.

(** The price-range filter. *)
Definition range_filter (selected : option (Qc * Qc))
    (filtered_df : DataFrame) : result DataFrame :=
  match selected with
  | Some (min_price, max_price) =>
      if has_column filtered_df "price_amount" then
        col ← getitem filtered_df "price_amount";
        ge ← series_ge col min_price;
        col ← getitem filtered_df "price_amount";
        le ← series_le col max_price;
        Ok (getitem_mask filtered_df (mask_and ge le))
      else Ok filtered_df
  | None => Ok filtered_df
  end.

(** The multi-choice colour filter. *)
Definition multi_choice (selected : option (list cell)) (column : string)
    (filtered_df : DataFrame) : result DataFrame :=
  match selected with
  | Some vs =>
      if negb (bool_decide (vs = [])) && bool_decide (All ∉ vs) then
        col ← getitem filtered_df column;
        Ok (getitem_mask filtered_df (isin col vs))
      else Ok filtered_df
  | None => Ok filtered_df
  end.

Definition apply_filters (df : DataFrame) (filters : Filters)
    : result DataFrame :=
  let filtered_df := copy df in
  filtered_df ← single_choice (brand filters) "brand_name" filtered_df;
  filtered_df ← single_choice (category_main filters) "category_main" filtered_df;
  filtered_df ← single_choice (category_sub filters) "category_sub" filtered_df;
  filtered_df ← range_filter (price_range filters) filtered_df;
  filtered_df ← single_choice (price_point filters) "price_point" filtered_df;
  filtered_df ← multi_choice (color filters) "color" filtered_df;
  filtered_df ← single_choice (availability filters) "availability" filtered_df;
  Ok filtered_df.

(** ** Scalar summary *)

Definition create_overview_metrics (lib : library) (df : DataFrame)
    : ui unit :=
  emit (Metric "Total Products" (MCount (len df)));;
  (if has_column df "brand_name" then
     col ← lift (getitem df "brand_name");
     emit (Metric "Unique Brands" (MCount (nunique col)))
   else mret ());;
  (if has_column df "price_amount" then
     col ← lift (getitem df "price_amount");
     avg_price ← lift (mean (float_mean lib) col);
     emit (Metric "Average Price"
             (match avg_price with
              | Num x => MDollars x
              | _ => MText "N/A"
              end))
   else mret ());;
  (if has_column df "availability" then
     col ← lift (getitem df "availability");
     mask ← lift (str_contains col "in stock");
     emit (Metric "In Stock" (MCount (len (getitem_mask df mask))))
   else mret ()).

(** ** Cross-tabulation of category against price point *)

(** The table prepared by [create_visualizations] when both columns are
    present; [None] when the section is skipped. *)
Definition category_price_data (df : DataFrame) : result (option Crosstab) :=
  if has_column df "category_main" && has_column df "price_point" then
    a ← getitem df "category_main";
    b ← getitem df "price_point";
    Ok (Some (crosstab a b))
  else Ok None.

(** ** The program against its collaborators *)
Section Dashboard.

Variable lib : library.

(** An uploaded file. *)
Variable upload : Type.

(** [pd.read_csv]: the parsed frame, or the exception raised. *)
Variable read_csv : upload → result DataFrame.

(** The float parser behind [pd.to_numeric]. *)
Variable parse_float : string → option Qc.

(** The widgets: what the user has selected, given the label, the options
    and the default of the widget (for the slider: the bounds, the default
    and the step). *)
Variable selectbox : string → list cell → cell.
Variable multiselect : string → list cell → list cell → list cell.
Variable slider : string → Qc → Qc → Qc * Qc → Qc → Qc * Qc.

(** Chart and table rendering: calls into the plotting and widget
    libraries.  Of [create_visualizations] the tables it prepares are
    modelled: the cross-tabulation [category_price_data] and the aggregate
    views further down. *)
Variable create_visualizations : DataFrame → ui unit.
Variable create_data_table : DataFrame → ui unit.

(** *** Loader/cleaner *)

Definition categorical_cols : list string :=
  ["brand_name"; "category_main"; "category_sub"; "color"; "price_point";
   "availability"].

(** [for col in cols: if col in df.columns: df[col] = df[col].fillna('Unknown')] *)
Fixpoint fill_missing (cols : list string) (df : DataFrame)
    : result DataFrame :=
  match cols with
  | [] => Ok df
  | col :: cols =>
      df ← (if has_column df col then
              s ← getitem df col;
              Ok (setitem df col (fillna s "Unknown"))
            else Ok df);
      fill_missing cols df
  end.

(** The body of the [try] block. *)
Definition load_body (uploaded_file : upload) : result DataFrame :=
  df ← read_csv uploaded_file;
  df ← (if has_column df "price_amount" then
          s ← getitem df "price_amount";
          Ok (setitem df "price_amount" (to_numeric parse_float s))
        else Ok df);
  fill_missing categorical_cols df.

(** Returns the cleaned frame, or [None] after reporting the error. *)
Definition load_and_process_data (uploaded_file : upload)
    : ui (option DataFrame) :=
  match load_body uploaded_file with
  | Ok df => mret (Some df)
  | Raise e =>
      emit (StError ("Error loading data: " ++ exn_str e)%string);;
      mret None
  end.

(** *** Sidebar filters *)

(** Python's [<=] between two values of a list being sorted. *)
Definition py_le (a b : cell) : Prop :=
  match a, b with
  | Str x, Str y => String.le x y
  | Num x, Num y => (x ≤ y)%Qc
  | _, _ => False
  end.

Global Instance py_le_dec : RelDecision py_le.
Proof. intros [x|x|] [y|y|]; simpl; apply _. Defined.

(** [sorted(values)]: strings and floats cannot be compared. *)
Definition sorted (l : list cell) : result (list cell) :=
  if existsb is_str l && existsb (λ c, negb (is_str c)) l then
    Raise (TypeError (sort_message lib l))
  else Ok (merge_sort py_le l).

(** [float(x)] of a reduction of a column that is not all missing. *)
Definition float (c : cell) : result Qc :=
  match c with
  | Num x => Ok x
  | _ => Raise (TypeError "float() argument must be a number")
  end.

(** [['All'] + sorted(df[column].unique().tolist())] *)
Definition options (df : DataFrame) (column : string) : result (list cell) :=
  col ← getitem df column;
  vs ← sorted (unique col);
  Ok (All :: vs).

(** One [selectbox] entry of the dictionary. *)
Definition select_filter (df : DataFrame) (column label : string)
    : ui (option cell) :=
  if has_column df column then
    opts ← lift (options df column);
    emit (Widget label);;
    mret (Some (selectbox label opts))
  else mret None.

(** The arguments that [st.sidebar.slider] accepts: all of them [int] or
    all of them [float], the lower bound below the upper bound. *)
Definition slider_accepts (min_value max_value : number)
    (value : number * number) (step : number) : bool :=
  let args := [min_value; max_value; step; value.1; value.2] in
  (forallb is_float args || forallb (λ n, negb (is_float n)) args)
  && bool_decide (number_value min_value < number_value max_value)%Qc.

(** [st.sidebar.slider(label, min_value, max_value, value, step)]: the
    library raises on arguments it does not accept; otherwise the widget is
    shown and what the user has selected is returned. *)
Definition st_slider (label : string) (min_value max_value : number)
    (value : number * number) (step : number) : ui (Qc * Qc) :=
  if slider_accepts min_value max_value value step then
    emit (Widget label);;
    mret (slider label (number_value min_value) (number_value max_value)
            (number_value value.1, number_value value.2)
            (number_value step))
  else
    lift (Raise (StreamlitAPIException
                   (slider_message lib min_value max_value step))).

Definition create_filters (df : DataFrame) : ui Filters :=
  emit (SidebarHeader "🔍 Filters");;
  f_brand ← select_filter df "brand_name" "Brand";
  f_category_main ← select_filter df "category_main" "Main Category";
  f_category_sub ← select_filter df "category_sub" "Sub Category";
  f_price_range ←
    (if has_column df "price_amount" then
       col ← lift (getitem df "price_amount");
       price_min ← lift (if negb (isna_all col)
                         then m ← series_min col; x ← float m; Ok (PyFloat x)
                         else Ok (PyInt 0));
       price_max ← lift (if negb (isna_all col)
                         then m ← series_max col; x ← float m; Ok (PyFloat x)
                         else Ok (PyInt 1000));
       selected ← st_slider "Price Range ($)" price_min price_max
                    (price_min, price_max) (PyFloat (Qc_of_Z 10));
       mret (Some selected)
     else mret None);
  f_price_point ← select_filter df "price_point" "Price Point";
  f_color ←
    (if has_column df "color" then
       colors ← lift (options df "color");
       emit (Widget "Colors");;
       mret (Some (multiselect "Colors" colors [All]))
     else mret None);
  f_availability ← select_filter df "availability" "Availability";
  mret (mkFilters f_brand f_category_main f_category_sub f_price_range
          f_price_point f_color f_availability).

(** *** Main application *)

(** The page header is abridged to its title. *)

Definition main (uploaded_file : option upload) : ui unit :=
  emit (Markdown "<h1>👗 Fashion Product Analytics Dashboard</h1>");;
  match uploaded_file with
  | Some uploaded_file =>
      df ← load_and_process_data uploaded_file;
      match df with
      | Some df =>
          emit (StSuccess ("Successfully loaded " ++ pretty (len df)
                           ++ " products!")%string);;
          filters ← create_filters df;
          filtered_df ← lift (apply_filters df filters);
          (if bool_decide (len filtered_df ≠ len df) then
             emit (StInfo ("Showing " ++ pretty (len filtered_df)
                           ++ " products after applying filters")%string)
           else mret ());;
          emit (StHeader "📈 Overview");;
          create_overview_metrics lib filtered_df;;
          emit (StHeader "📊 Analytics");;
          (if bool_decide (0 < len filtered_df)%nat then
             create_visualizations filtered_df
           else
             emit (StWarning "No data available with current filters. Please adjust your filters."));;
          create_data_table filtered_df
      | None => mret ()
      end
  | None =>
      emit (StInfo "👆 Please upload your fashion product CSV file to start the analysis");;
      emit (StSubheader "📋 Expected Data Structure");;
      emit (StWrite "Your CSV should contain columns like:");;
      emit (StWrite "name, brand_name, category_main, category_sub, price_amount, color, availability, price_point")
  end.

End Dashboard.

Arguments load_body {upload} read_csv parse_float uploaded_file.
Arguments load_and_process_data {upload} read_csv parse_float uploaded_file.
Arguments main lib {upload} read_csv parse_float selectbox multiselect slider
  create_visualizations create_data_table uploaded_file.

(** The widgets before any interaction: a select box shows its first
    option, the multi-select and the slider their default. *)
Definition initial_selectbox (label : string) (opts : list cell) : cell :=
  default NaN (head opts).
Definition initial_multiselect (label : string) (opts dflt : list cell)
    : list cell := dflt.
Definition initial_slider (label : string) (lo hi : Qc) (value : Qc * Qc)
    (step : Qc) : Qc * Qc := value.

(** The filter set of the first render pass. *)
Definition initial_filters (lib : library) (df : DataFrame) : ui Filters :=
  create_filters lib initial_selectbox initial_multiselect initial_slider df.

(** ** Vocabulary of the properties *)

Abbreviation row := (gmap string cell).

(** The frame with the labels of [df] and those of its rows that satisfy
    [P], in their order. *)
Definition restrict (P : row → Prop) `{!∀ r, Decision (P r)}
    (df : DataFrame) : DataFrame :=
  mkDF (columns df) (filter P (rows df)).

(** The price of the row is a number within [lo, hi], bounds included. *)
Definition price_within (lo hi : Qc) (r : row) : Prop :=
  match at_col "price_amount" r with
  | Num y => (lo ≤ y)%Qc ∧ (y ≤ hi)%Qc
  | _ => False
  end.

Global Instance price_within_dec lo hi r : Decision (price_within lo hi r).
Proof. unfold price_within. destruct (at_col _ r); apply _. Defined.

(** The price of the row is missing. *)
Definition price_missing (r : row) : Prop := at_col "price_amount" r = NaN.

(** No entry of the price column is a string: what the loader guarantees. *)
Definition numeric_prices (df : DataFrame) : Prop :=
  Forall (λ r, is_str (at_col "price_amount" r) = false) (rows df).

(** A text column: of dtype object, and holding a string whenever it holds
    a number, so that the [.str] accessor applies. *)
Definition text_column (df : DataFrame) (c : string) : Prop :=
  col_dtype df c = Some object
  ∧ ((∃ r, r ∈ rows df ∧ is_str (at_col c r) = true)
     ∨ Forall (λ r, is_num (at_col c r) = false) (rows df)).

(** A single-choice entry that is absent or set to "All". *)
Definition is_all (selected : option cell) : Prop :=
  selected = None ∨ selected = Some All.

(** A multi-choice entry that is absent or holds "All". *)
Definition has_all (selected : option (list cell)) : Prop :=
  selected = None ∨ ∃ vs, selected = Some vs ∧ All ∈ vs.

(** The bounds enclose every price of the frame. *)
Definition spans_prices (df : DataFrame) (bounds : Qc * Qc) : Prop :=
  Forall (λ r, ∀ y, at_col "price_amount" r = Num y →
               (bounds.1 ≤ y)%Qc ∧ (y ≤ bounds.2)%Qc) (rows df).

(** What each filter of [apply_filters] asks of a row. *)
Definition choice_pass (selected : option cell) (column : string)
    (r : row) : Prop :=
  match selected with
  | Some v =>
      if truthy v && bool_decide (v ≠ All)
      then cell_eq (at_col column r) v = true else True
  | None => True
  end.

Definition range_pass (present : bool) (selected : option (Qc * Qc))
    (r : row) : Prop :=
  match selected with
  | Some (lo, hi) => if present then price_within lo hi r else True
  | None => True
  end.

Definition multi_pass (selected : option (list cell)) (column : string)
    (r : row) : Prop :=
  match selected with
  | Some vs =>
      if negb (bool_decide (vs = [])) && bool_decide (All ∉ vs)
      then at_col column r ∈ vs else True
  | None => True
  end.

Global Instance choice_pass_dec sel c r : Decision (choice_pass sel c r).
Proof. unfold choice_pass. destruct sel; [case_match|]; apply _. Defined.
Global Instance range_pass_dec b sel r : Decision (range_pass b sel r).
Proof. unfold range_pass. destruct sel as [[??]|], b; apply _. Defined.
Global Instance multi_pass_dec sel c r : Decision (multi_pass sel c r).
Proof. unfold multi_pass. destruct sel; [case_match|]; apply _. Defined.

Definition passes (df : DataFrame) (filters : Filters) (r : row) : Prop :=
  choice_pass (brand filters) "brand_name" r ∧
  choice_pass (category_main filters) "category_main" r ∧
  choice_pass (category_sub filters) "category_sub" r ∧
  range_pass (has_column df "price_amount") (price_range filters) r ∧
  choice_pass (price_point filters) "price_point" r ∧
  multi_pass (color filters) "color" r ∧
  choice_pass (availability filters) "availability" r.

Global Instance passes_dec df f r : Decision (passes df f r).
Proof. unfold passes. apply _. Defined.

(** A single-choice entry that selects a value. *)
Definition choice_active (selected : option cell) : Prop :=
  ∃ v, selected = Some v ∧ truthy v = true ∧ v ≠ All.

(** A multi-choice entry that selects values. *)
Definition multi_active (selected : option (list cell)) : Prop :=
  ∃ vs, selected = Some vs ∧ vs ≠ [] ∧ All ∉ vs.

(** The masks of the two comparisons on a column without strings. *)
Definition ge_bound (x : Qc) (c : cell) : bool :=
  match c with Num y => bool_decide (x ≤ y)%Qc | _ => false end.
Definition le_bound (x : Qc) (c : cell) : bool :=
  match c with Num y => bool_decide (y ≤ x)%Qc | _ => false end.

(** Every active choice filter names a column of the frame, and the price
    column holds no string when a range is set: neither a [KeyError] nor a
    [TypeError]. *)
Definition applicable (df : DataFrame) (filters : Filters) : Prop :=
  (choice_active (brand filters) → has_column df "brand_name" = true) ∧
  (choice_active (category_main filters) → has_column df "category_main" = true) ∧
  (choice_active (category_sub filters) → has_column df "category_sub" = true) ∧
  (is_Some (price_range filters) → numeric_prices df) ∧
  (choice_active (price_point filters) → has_column df "price_point" = true) ∧
  (multi_active (color filters) → has_column df "color" = true) ∧
  (choice_active (availability filters) → has_column df "availability" = true).

(** The filter set without its price range. *)
Definition without_range (filters : Filters) : Filters :=
  mkFilters (brand filters) (category_main filters) (category_sub filters)
    None (price_point filters) (color filters) (availability filters).

(** Every single choice is "All" (or absent). *)
Definition no_single_choice (filters : Filters) : Prop :=
  is_all (brand filters) ∧ is_all (category_main filters) ∧
  is_all (category_sub filters) ∧ is_all (price_point filters) ∧
  is_all (availability filters).

(** Every choice is "All" (or absent) and the range, when present, spans
    the prices of the frame. *)
Definition unconstrained (df : DataFrame) (filters : Filters) : Prop :=
  no_single_choice filters ∧ has_all (color filters) ∧
  ∀ bounds, price_range filters = Some bounds → spans_prices df bounds.

(** ** Tables of the scenarios *)

(** [brand_name = [A, A, B]], [price_amount = [10, 20, 30]]. *)
Definition scenario_table : DataFrame :=
  mkDF [("brand_name", object); ("price_amount", float64)]
    [ {[ "brand_name" := Str "A"; "price_amount" := num 10 ]};
      {[ "brand_name" := Str "A"; "price_amount" := num 20 ]};
      {[ "brand_name" := Str "B"; "price_amount" := num 30 ]} ].

(** The filter set holding a price range only. *)
Definition range_only (lo hi : Qc) : Filters :=
  mkFilters None None None (Some (lo, hi)) None None None.

(** A cleaned table in which one price is missing. *)
Definition priced_row_a : row :=
  {[ "brand_name" := Str "A"; "category_main" := Str "Tops";
     "category_sub" := Str "Shirts"; "price_amount" := num 10;
     "price_point" := Str "Low"; "color" := Str "Red";
     "availability" := Str "In Stock" ]}.

Definition unpriced_row : row :=
  {[ "brand_name" := Str "B"; "category_main" := Str "Tops";
     "category_sub" := Str "Shirts"; "price_amount" := NaN;
     "price_point" := Str "Low"; "color" := Str "Blue";
     "availability" := Str "In Stock" ]}.

Definition priced_row_b : row :=
  {[ "brand_name" := Str "B"; "category_main" := Str "Shoes";
     "category_sub" := Str "Boots"; "price_amount" := num 20;
     "price_point" := Str "High"; "color" := Str "Black";
     "availability" := Str "Out of Stock" ]}.

Definition missing_price_table : DataFrame :=
  mkDF [("brand_name", object); ("category_main", object);
        ("category_sub", object); ("price_amount", float64);
        ("price_point", object); ("color", object);
        ("availability", object)]
    [priced_row_a; unpriced_row; priced_row_b].

(** The filter set of the first render pass over [missing_price_table]:
    every choice "All", the slider on the whole range of the prices. *)
Definition all_filters : Filters :=
  mkFilters (Some All) (Some All) (Some All)
    (Some (Qc_of_Z 10, Qc_of_Z 20)) (Some All) (Some [All]) (Some All).

(** A table with a [color] column, and the filter set in which every colour
    has been deselected. *)
Definition red_table : DataFrame :=
  mkDF [("name", object); ("color", object)]
    [ {[ "name" := Str "shirt"; "color" := Str "Red" ]} ].

Definition colors_only (vs : list cell) : Filters :=
  mkFilters None None None None None (Some vs) None.

(** A table without brand and without price, and a brand selection. *)
Definition names_table : DataFrame :=
  mkDF [("name", object); ("availability", object)]
    [ {[ "name" := Str "shirt"; "availability" := Str "In Stock" ]} ].

Definition brand_only (v : cell) : Filters :=
  mkFilters (Some v) None None None None None None.

(** ** Vocabulary of the loader *)

(** What the loader does to an entry of a categorical column. *)
Definition fill_cell (c : cell) : cell :=
  if isna c then Str "Unknown" else c.

(** What the loader does to a price. *)
Definition coerce (parse : string → option Qc) (c : cell) : cell :=
  match c with
  | Str x => from_option Num NaN (parse x)
  | _ => c
  end.

(** A row after the categorical columns [cols] present in the frame have
    been filled. *)
Definition fill_row (present : string → bool) (cols : list string)
    (r : row) : row :=
  foldl (λ r c, if present c then <[c := fill_cell (at_col c r)]> r else r)
        r cols.

(** A row after the loader. *)
Definition clean_row (parse : string → option Qc) (present : string → bool)
    (r : row) : row :=
  fill_row present categorical_cols
    (if present "price_amount"
     then <["price_amount" := coerce parse (at_col "price_amount" r)]> r
     else r).

(** A raw upload: a brand and an availability are missing, a price is not
    a number. *)
Definition raw_table : DataFrame :=
  mkDF [("name", object); ("brand_name", object); ("price_amount", object);
        ("availability", object)]
    [ {[ "name" := Str "shirt"; "brand_name" := Str "A";
         "price_amount" := Str "12"; "availability" := NaN ]};
      {[ "name" := Str "dress"; "brand_name" := NaN;
         "price_amount" := Str "n/a"; "availability" := Str "In Stock" ]} ].

(** A float parser for the upload above. *)
Definition parse_twelve (s : string) : option Qc :=
  if bool_decide (s = "12") then Some (Qc_of_Z 12) else None.

(** A table whose prices are all missing. *)
Definition unpriced_table : DataFrame :=
  mkDF [("name", object); ("price_amount", float64)]
    [ {[ "name" := Str "shirt"; "price_amount" := NaN ]} ].

(** A table with a missing category and a missing price point. *)
Definition category_table : DataFrame :=
  mkDF [("category_main", object); ("price_point", object)]
    [ {[ "category_main" := Str "Tops"; "price_point" := Str "Low" ]};
      {[ "category_main" := Str "Tops"; "price_point" := Str "High" ]};
      {[ "category_main" := NaN; "price_point" := Str "Low" ]};
      {[ "category_main" := Str "Shoes"; "price_point" := NaN ]};
      {[ "category_main" := Str "Tops"; "price_point" := Str "Low" ]} ].

(** ** Frames as objects *)

(** The filter engine over a store of frames: a variable holds a reference,
    [df.copy()] and [df[mask]] allocate a new frame, and nothing writes to
    an existing one. *)
Module Store.

Definition loc := positive.

Global Instance frame_inhabited : Inhabited DataFrame := populate (mkDF [] []).

(** A computation over the store that may raise. *)
Definition st (A : Type) : Type :=
  gmap loc DataFrame → result A * gmap loc DataFrame.

Global Instance st_ret : MRet st := λ A a h, (Ok a, h).
Global Instance st_bind : MBind st := λ A B k m h,
  match m h with
  | (Ok a, h') => k a h'
  | (Raise e, h') => (Raise e, h')
  end.

(** A new object holding [d]. *)
Definition alloc (d : DataFrame) : st loc := λ h,
  let l := fresh (dom h) in (Ok l, <[l := d]> h).

(** The frame a reference points to (a reference always points to an
    object of the store; the total lookup makes the function total). *)
Definition deref (l : loc) : st DataFrame := λ h, (Ok (h !!! l), h).

Definition lift {A} (r : result A) : st A := λ h, (r, h).

Definition copy (df : loc) : st loc :=
  d ← deref df; alloc (Pandas.copy d).

Definition getitem (df : loc) (c : string) : st Series :=
  d ← deref df; lift (Pandas.getitem d c).

Definition getitem_mask (df : loc) (mask : list bool) : st loc :=
  d ← deref df; alloc (Pandas.getitem_mask d mask).

Definition has_column (df : loc) (c : string) : st bool :=
  d ← deref df; mret (Pandas.has_column d c).

Definition single_choice (selected : option cell) (column : string)
    (filtered_df : loc) : st loc :=
  match selected with
  | Some v =>
      if truthy v && bool_decide (v ≠ All) then
        col ← getitem filtered_df column;
        getitem_mask filtered_df (series_eq col v)
      else mret filtered_df
  | None => mret filtered_df
  end.

Definition range_filter (selected : option (Qc * Qc))
    (filtered_df : loc) : st loc :=
  match selected with
  | Some (min_price, max_price) =>
      present ← has_column filtered_df "price_amount";
      if present : bool then
        col ← getitem filtered_df "price_amount";
        ge ← lift (series_ge col min_price);
        col ← getitem filtered_df "price_amount";
        le ← lift (series_le col max_price);
        getitem_mask filtered_df (mask_and ge le)
      else mret filtered_df
  | None => mret filtered_df
  end.

Definition multi_choice (selected : option (list cell)) (column : string)
    (filtered_df : loc) : st loc :=
  match selected with
  | Some vs =>
      if negb (bool_decide (vs = [])) && bool_decide (All ∉ vs) then
        col ← getitem filtered_df column;
        getitem_mask filtered_df (isin col vs)
      else mret filtered_df
  | None => mret filtered_df
  end.

Definition apply_filters (df : loc) (filters : Filters) : st loc :=
  filtered_df ← copy df;
  filtered_df ← single_choice (brand filters) "brand_name" filtered_df;
  filtered_df ← single_choice (category_main filters) "category_main" filtered_df;
  filtered_df ← single_choice (category_sub filters) "category_sub" filtered_df;
  filtered_df ← range_filter (price_range filters) filtered_df;
  filtered_df ← single_choice (price_point filters) "price_point" filtered_df;
  filtered_df ← multi_choice (color filters) "color" filtered_df;
  filtered_df ← single_choice (availability filters) "availability" filtered_df;
  mret filtered_df.

End Store.

(** A step over the store computes what the step over frames computes, in
    a new object (or, unless [fresh], in its argument), and leaves every
    object of the store as it was. *)
Definition simulates (fresh : bool) (m : Store.loc → Store.st Store.loc)
    (p : DataFrame → result DataFrame) : Prop :=
  ∀ (h : gmap Store.loc DataFrame) l d, h !! l = Some d →
    ∃ h', h ⊆ h' ∧
      match p d with
      | Ok d' => ∃ l', m l h = (Ok l', h') ∧ h' !! l' = Some d'
                       ∧ (if fresh then h !! l' = None
                          else l' = l ∨ h !! l' = None)
      | Raise e => m l h = (Raise e, h')
      end.

(** A store with one table. *)
Definition one_table_store : gmap Store.loc DataFrame :=
  {[ 1%positive := scenario_table ]}.

(** ** Vocabulary of the further properties *)

(** The price range raises no [TypeError]: when it is set and the table has
    a [price_amount] column, no price is a string. *)
Definition runs_range (df : DataFrame) (selected : option (Qc * Qc)) : Prop :=
  is_Some selected → has_column df "price_amount" = true → numeric_prices df.

(** The engine raises nothing on the table. *)
Definition runs (df : DataFrame) (filters : Filters) : Prop :=
  (choice_active (brand filters) → has_column df "brand_name" = true) ∧
  (choice_active (category_main filters) → has_column df "category_main" = true) ∧
  (choice_active (category_sub filters) → has_column df "category_sub" = true) ∧
  runs_range df (price_range filters) ∧
  (choice_active (price_point filters) → has_column df "price_point" = true) ∧
  (multi_active (color filters) → has_column df "color" = true) ∧
  (choice_active (availability filters) → has_column df "availability" = true).



(** The [TypeError] raised by [sorted] on the distinct values of a column
    that mixes strings and numbers. *)
Definition sort_error (lib : library) (df : DataFrame) (c : string) : exn :=
  TypeError (sort_message lib (unique (mkSeries object (at_col c <$> rows df)))).

(** The bounds [create_filters] gives to the price slider. *)
Definition price_bounds (df : DataFrame) : result (number * number) :=
  col ← getitem df "price_amount";
  price_min ← (if negb (isna_all col)
               then m ← series_min col; x ← float m; Ok (PyFloat x)
               else Ok (PyInt 0));
  price_max ← (if negb (isna_all col)
               then m ← series_max col; x ← float m; Ok (PyFloat x)
               else Ok (PyInt 1000));
  Ok (price_min, price_max).

(** The step of the price slider. *)
Definition price_step : number := PyFloat (Qc_of_Z 10).

(** The price column holds two different prices. *)
Definition two_prices (df : DataFrame) : Prop :=
  ∃ r1 r2 x y, r1 ∈ rows df ∧ r2 ∈ rows df
    ∧ at_col "price_amount" r1 = Num x ∧ at_col "price_amount" r2 = Num y
    ∧ x ≠ y.

(** The entry of the price range: absent without [price_amount] column;
    otherwise what the user selects on the slider, when the slider accepts
    the bounds. *)
Definition price_range_entry (lib : library)
    (slider : string → Qc → Qc → Qc * Qc → Qc → Qc * Qc) (df : DataFrame)
    : result (option (Qc * Qc)) :=
  if has_column df "price_amount" then
    b ← price_bounds df;
    if slider_accepts b.1 b.2 b price_step then
      Ok (Some (slider "Price Range ($)" (number_value b.1)
                  (number_value b.2) (number_value b.1, number_value b.2)
                  (Qc_of_Z 10)))
    else Raise (StreamlitAPIException (slider_message lib b.1 b.2 price_step))
  else Ok None.

(** The entry of the colours. *)
Definition color_entry (lib : library)
    (multiselect : string → list cell → list cell → list cell)
    (df : DataFrame) : result (option (list cell)) :=
  if has_column df "color" then
    colors ← options lib df "color";
    Ok (Some (multiselect "Colors" colors [All]))
  else Ok None.

(** A column that holds a string and an entry that is not a string. *)
Definition mixed_column (df : DataFrame) (c : string) : Prop :=
  (∃ r, r ∈ rows df ∧ is_str (at_col c r) = true)
  ∧ (∃ r, r ∈ rows df ∧ is_str (at_col c r) = false).

(** A cleaned table whose brands are numbers, one of them having been
    missing. *)
Definition numeric_brand_table : DataFrame :=
  mkDF [("brand_name", object); ("price_amount", float64)]
    [ {[ "brand_name" := num 7; "price_amount" := num 10 ]};
      {[ "brand_name" := Str "Unknown"; "price_amount" := num 20 ]} ].

(** What the loader leaves behind: the price column, when present, is
    float64 and every row has a price that is not a string; every row has
    an entry that is not missing in each categorical column present. *)
Definition cleaned (df : DataFrame) : Prop :=
  (has_column df "price_amount" = true →
     col_dtype df "price_amount" = Some float64
     ∧ Forall (λ r : row, ∃ v, r !! "price_amount" = Some v
                               ∧ is_str v = false) (rows df))
  ∧ (∀ c, c ∈ categorical_cols → has_column df c = true →
       Forall (λ r : row, ∃ v, r !! c = Some v ∧ isna v = false) (rows df)).

(** A table whose availability is a column of numbers. *)
Definition numeric_availability_table : DataFrame :=
  mkDF [("name", object); ("availability", float64)]
    [ {[ "name" := Str "shirt"; "availability" := num 1 ]};
      {[ "name" := Str "dress"; "availability" := num 0 ]} ].

(** The filter set that selects the brand "C". *)
Definition brand_c_filters : Filters :=
  mkFilters (Some (Str "C")) None None (Some (Qc_of_Z 10, Qc_of_Z 30))
    None None None.

(** ** Aggregate views prepared by [create_visualizations] *)

(** Each view is the table handed to the plotting library; [None] when the
    guard of its chart skips it. *)

(** *** Frequency tables *)

(** Order of [value_counts]: by decreasing count. *)
Definition by_count (p q : cell * nat) : Prop := q.2 ≤ p.2.

Global Instance by_count_dec : RelDecision by_count.
Proof. intros p q. unfold by_count. apply _. Defined.

(** [series.value_counts()]: the distinct non-missing values, each with
    the number of its occurrences, by decreasing count.  The order among
    values of equal count is that of the sort of the library. *)
Definition value_counts (s : Series) : list (cell * nat) :=
  let present := filter (λ c, isna c = false) (s_values s) in
  merge_sort by_count
    ((λ v, (v, length (filter (λ c, c = v) present)))
       <$> unique (mkSeries (s_dtype s) present)).

(** [df['price_point'].value_counts()], under the guards of the price
    section. *)
Definition price_point_counts (df : DataFrame)
    : result (option (list (cell * nat))) :=
  if has_column df "price_amount" then
    prices ← getitem df "price_amount";
    if negb (isna_all prices) && has_column df "price_point" then
      col ← getitem df "price_point";
      Ok (Some (value_counts col))
    else Ok None
  else Ok None.

(** [df['brand_name'].value_counts().head(10)] *)
Definition brand_counts (df : DataFrame)
    : result (option (list (cell * nat))) :=
  if has_column df "brand_name" then
    col ← getitem df "brand_name";
    Ok (Some (take 10 (value_counts col)))
  else Ok None.

Definition category_counts (df : DataFrame)
    : result (option (list (cell * nat))) :=
  if has_column df "category_main" then
    col ← getitem df "category_main";
    Ok (Some (value_counts col))
  else Ok None.

Definition sub_category_counts (df : DataFrame)
    : result (option (list (cell * nat))) :=
  if has_column df "category_main" && has_column df "category_sub" then
    col ← getitem df "category_sub";
    Ok (Some (take 10 (value_counts col)))
  else Ok None.

Definition color_counts (df : DataFrame)
    : result (option (list (cell * nat))) :=
  if has_column df "color" then
    col ← getitem df "color";
    Ok (Some (take 10 (value_counts col)))
  else Ok None.

Definition availability_counts (df : DataFrame)
    : result (option (list (cell * nat))) :=
  if has_column df "availability" then
    col ← getitem df "availability";
    Ok (Some (value_counts col))
  else Ok None.

(** *** Grouped means *)

(** Order of [sort_values(ascending=False)]: numbers by decreasing value,
    missing values last. *)
Definition by_mean (p q : cell * cell) : Prop :=
  match q.2, p.2 with
  | Num y, Num x => (y ≤ x)%Qc
  | Num _, _ => False
  | _, _ => True
  end.

Global Instance by_mean_dec : RelDecision by_mean.
Proof.
  intros p q. unfold by_mean. destruct (q.2), (p.2); apply _.
Defined.

(** [df.groupby(key)[value].mean()]: one entry for each distinct
    non-missing key, keys sorted, with the mean of the values of the rows
    of that key. *)
Definition groupby_mean (lib : library) (df : DataFrame)
    (key value : string) : result (list (cell * cell)) :=
  keys ← getitem df key;
  _ ← getitem df value;
  mapM (λ k,
          vals ← getitem (getitem_mask df (series_eq keys k)) value;
          avg ← mean (group_float_mean lib) vals;
          Ok (k, avg))
       (merge_sort label_le
          (remove_dups (filter (λ c, isna c = false) (s_values keys)))).

(** [df.groupby('brand_name')['price_amount'].mean()
       .sort_values(ascending=False).head(10)] *)
Definition brand_avg_price (lib : library) (df : DataFrame)
    : result (option (list (cell * cell))) :=
  if has_column df "brand_name" && has_column df "price_amount" then
    means ← groupby_mean lib df "brand_name" "price_amount";
    Ok (Some (take 10 (merge_sort by_mean means)))
  else Ok None.

Definition color_price (lib : library) (df : DataFrame)
    : result (option (list (cell * cell))) :=
  if has_column df "color" && has_column df "price_amount" then
    means ← groupby_mean lib df "color" "price_amount";
    Ok (Some (take 10 (merge_sort by_mean means)))
  else Ok None.

(** *** Roll-ups over category and price point *)

(** A loop that appends to a list: the items of every iteration, in
    order; the first exception ends it. *)
Fixpoint collect {A B} (body : A → result (list B)) (l : list A)
    : result (list B) :=
  match l with
  | [] => Ok []
  | x :: l => ys ← body x; zs ← collect body l; Ok (ys ++ zs)
  end.

(** The loop nest shared by the sunburst, treemap and bubble branches:
    for each non-missing category, the rows of that category, then for
    each non-missing price point among them one item, then the items that
    close the category. *)
Definition for_category_price_point {B} (df : DataFrame)
    (item : cell → cell → DataFrame → result B)
    (close : cell → DataFrame → list B) : result (list B) :=
  categories ← getitem df "category_main";
  collect (λ category,
    if negb (isna category) then
      col ← getitem df "category_main";
      let cat_data := getitem_mask df (series_eq col category) in
      price_points ← getitem cat_data "price_point";
      items ← collect (λ price_point,
                 if negb (isna price_point) then
                   b ← item category price_point cat_data; Ok [b]
                 else Ok [])
               (unique price_points);
      Ok (items ++ close category cat_data)
    else Ok [])
    (unique categories).

(** [len(cat_data[cat_data['price_point'] == price_point])] *)
Definition count_price_point (cat_data : DataFrame) (price_point : cell)
    : result nat :=
  col ← getitem cat_data "price_point";
  Ok (len (getitem_mask cat_data (series_eq col price_point))).

Record sunburst_node := mkSunburst {
  ids : cell;
  labels : cell;
  parents : cell;
  values : nat
}.

Record treemap_row := mkTreemap {
  tm_category : cell;
  tm_price_point : cell;
  tm_count : nat;
  tm_label : string
}.

Record bubble_row := mkBubble {
  b_category : cell;
  b_price_point : cell;
  b_count : nat;
  b_avg_price : cell
}.

Section Rollups.

(** [str] of a float. *)
Variable format_float : Qc → string.

(** A value inside an f-string. *)
Definition format (c : cell) : string :=
  match c with
  | Str s => s
  | Num x => format_float x
  | NaN => "nan"
  end.

Definition sunburst_data (df : DataFrame) : result (list sunburst_node) :=
  for_category_price_point df
    (λ category price_point cat_data,
       count ← count_price_point cat_data price_point;
       Ok (mkSunburst
             (Str (format category ++ "-" ++ format price_point))
             price_point category count))
    (λ category cat_data,
       [mkSunburst category category (Str "") (len cat_data)]).

Definition treemap_data (df : DataFrame) : result (list treemap_row) :=
  for_category_price_point df
    (λ category price_point cat_data,
       count ← count_price_point cat_data price_point;
       Ok (mkTreemap category price_point count
             (format category ++ "<br>" ++ format price_point ++ "<br>("
                ++ pretty count ++ " items)")))
    (λ _ _, []).

Definition bubble_data (lib : library) (df : DataFrame)
    : result (list bubble_row) :=
  for_category_price_point df
    (λ category price_point cat_data,
       count ← count_price_point cat_data price_point;
       avg_price ←
         (if has_column df "price_amount" then
            col ← getitem cat_data "price_point";
            prices ← getitem
                       (getitem_mask cat_data (series_eq col price_point))
                       "price_amount";
            mean (float_mean lib) prices
          else Ok (num 0));
       Ok (mkBubble category price_point count avg_price))
    (λ _ _, []).

End Rollups.

(** ** Vocabulary of the aggregate views *)

(** The number of rows of [df] whose [column] holds [v]. *)
Definition occurrences (column : string) (v : cell) (df : DataFrame) : nat :=
  length (filter (λ r, at_col column r = v) (rows df)).

(** [l] is the frequency table of [column]: one entry for each value that
    occurs and is not missing, with the number of rows that hold it,
    counts decreasing. *)
Definition frequency_table (column : string) (df : DataFrame)
    (l : list (cell * nat)) : Prop :=
  NoDup l.*1
  ∧ (∀ v n, (v, n) ∈ l ↔ v ≠ NaN ∧ 0 < n ∧ n = occurrences column v df)
  ∧ StronglySorted by_count l
  ∧ sum_list l.*2
    = length (filter (λ r, at_col column r ≠ NaN) (rows df)).

(** [l] holds ten of the most frequent values of [column], or all of them
    when there are fewer: entries as in the frequency table, and a value
    that is left out occurs no more often than any value shown. *)
Definition top_ten (column : string) (df : DataFrame)
    (l : list (cell * nat)) : Prop :=
  length l ≤ 10
  ∧ NoDup l.*1
  ∧ (∀ v n, (v, n) ∈ l → v ≠ NaN ∧ 0 < n ∧ n = occurrences column v df)
  ∧ StronglySorted by_count l
  ∧ (∀ v, v ≠ NaN → 0 < occurrences column v df → v ∉ l.*1 →
       length l = 10 ∧ ∀ p, p ∈ l → occurrences column v df ≤ p.2).

(** A view is shown under its guard, with a table as described, and is
    skipped without an exception otherwise. *)
Definition shown_when {A} (guard : DataFrame → bool)
    (view : DataFrame → result (option A))
    (table : DataFrame → A → Prop) : Prop :=
  ∀ df, if guard df then ∃ l, view df = Ok (Some l) ∧ table df l
        else view df = Ok None.

(** The mean price of the rows of [df] whose [column] holds [v], as the
    library computes the mean of a group. *)
Definition group_mean (lib : library) (column : string) (v : cell)
    (df : DataFrame) : result cell :=
  mean (group_float_mean lib) (mkSeries float64
          (at_col "price_amount"
             <$> filter (λ r, at_col column r = v) (rows df))).

(** [l] holds ten of the values of [column] of highest mean price, or all
    of them when there are fewer: each with the mean price of its rows as
    the library computes it, means decreasing and missing means last, and a
    value that is left out has no higher mean than any value shown. *)
Definition top_ten_means (lib : library) (column : string) (df : DataFrame)
    (l : list (cell * cell)) : Prop :=
  length l ≤ 10
  ∧ NoDup l.*1
  ∧ (∀ v avg, (v, avg) ∈ l →
       v ≠ NaN ∧ 0 < occurrences column v df
       ∧ group_mean lib column v df = Ok avg)
  ∧ StronglySorted by_mean l
  ∧ (∀ v avg, v ≠ NaN → 0 < occurrences column v df → v ∉ l.*1 →
       group_mean lib column v df = Ok avg →
       length l = 10 ∧ ∀ p, p ∈ l → by_mean p (v, avg)).

(** The rows of one category. *)
Definition category_data (df : DataFrame) (category : cell) : DataFrame :=
  restrict (λ r, at_col "category_main" r = category) df.

(** The distinct values of [column] that are not missing, in order of
    first appearance. *)
Definition distinct_present (column : string) (df : DataFrame) : list cell :=
  filter (λ c, c ≠ NaN) (unique (mkSeries object (at_col column <$> rows df))).

(** The pairs of a category and a price point visited by the loop nest,
    in its order. *)
Definition present_pairs (df : DataFrame) : list (cell * cell) :=
  mjoin ((λ c, pair c <$> distinct_present "price_point" (category_data df c))
           <$> distinct_present "category_main" df).

(** The number of rows of category [c] and price point [p]. *)
Definition pair_count (c p : cell) (df : DataFrame) : nat :=
  length (filter (λ r, at_col "category_main" r = c
                       ∧ at_col "price_point" r = p) (rows df)).

(** The mean price of the rows of category [c] and price point [p], as the
    library computes the mean of a column. *)
Definition pair_mean (lib : library) (c p : cell) (df : DataFrame)
    : result cell :=
  mean (float_mean lib) (mkSeries float64
          (at_col "price_amount"
             <$> filter (λ r, at_col "category_main" r = c
                              ∧ at_col "price_point" r = p) (rows df))).

(** A table with categories, price points and prices, one row without a
    price point. *)
Definition joint_table : DataFrame :=
  mkDF [("category_main", object); ("price_point", object);
        ("price_amount", float64)]
    [ {[ "category_main" := Str "Tops"; "price_point" := Str "Low";
         "price_amount" := num 10 ]};
      {[ "category_main" := Str "Tops"; "price_point" := Str "High";
         "price_amount" := num 50 ]};
      {[ "category_main" := Str "Shoes"; "price_point" := NaN;
         "price_amount" := num 30 ]};
      {[ "category_main" := Str "Tops"; "price_point" := Str "Low";
         "price_amount" := num 20 ]} ].

(** * Properties *)

(** ** The result monad *)

Lemma bind_Ok {A B} (m : result A) (k : A → result B) b :
  (x ← m; k x) = Ok b ↔ ∃ a, m = Ok a ∧ k a = Ok b.
Proof.
  destruct m as [a|e]; simpl; split.
  - intros H. by exists a.
  - by intros (a' & [= ->] & H).
  - done.
  - by intros (a' & [=] & _).
Qed.

(** ** Frames *)

Lemma copy_id df : copy df = df.
Proof. by destruct df. Qed.

Lemma col_dtype_is_Some df c : is_Some (col_dtype df c) ↔ has_column df c = true.
Proof.
  unfold col_dtype, has_column. rewrite bool_decide_eq_true.
  destruct df as [cols rs]; simpl. induction cols as [|[c' d] cols IH]; simpl.
  - split; [by intros [? [=]] | by intros ?%elem_of_nil].
  - case_bool_decide as Hc; simpl in *.
    + subst c'. split; [intros _; left | by eauto].
    + rewrite IH. split; [by right | by intros [?|?]%elem_of_cons].
Qed.

Lemma getitem_has_column df c :
  has_column df c = true →
  ∃ d, getitem df c = Ok (mkSeries d (at_col c <$> rows df)).
Proof.
  intros [d Hd]%col_dtype_is_Some. exists d. unfold getitem. by rewrite Hd.
Qed.

Lemma getitem_dtype df c d :
  col_dtype df c = Some d →
  getitem df c = Ok (mkSeries d (at_col c <$> rows df)).
Proof. intros H. unfold getitem. by rewrite H. Qed.

Lemma getitem_no_column df c :
  has_column df c = false → getitem df c = Raise (KeyError c).
Proof.
  intros H. unfold getitem. destruct (col_dtype df c) eqn:Hd; [|done].
  assert (has_column df c = true) by (apply col_dtype_is_Some; eauto).
  congruence.
Qed.

Lemma select_fmap {A} (f : A → bool) (l : list A) :
  select (f <$> l) l = filter (λ x, f x = true) l.
Proof.
  induction l as [|x l IH]; [done|].
  rewrite fmap_cons, filter_cons. cbn [select]. rewrite IH.
  destruct (f x) eqn:Hf; by case_decide.
Qed.

Lemma select_fmap_fmap {A B} (g : A → B) (f : B → bool) (l : list A) :
  select (f <$> (g <$> l)) l = filter (λ x, f (g x) = true) l.
Proof. rewrite <-list_fmap_compose. apply (select_fmap (f ∘ g)). Qed.

(** ** Filter engine: what each step does *)

Lemma restrict_True (P : row → Prop) `{!∀ r, Decision (P r)} df :
  (∀ r, r ∈ rows df → P r) → restrict P df = df.
Proof.
  intros HP. destruct df as [cols rs]; unfold restrict; simpl in *. f_equal.
  induction rs as [|r rs IH]; [done|]. rewrite filter_cons.
  rewrite decide_True by (apply HP; left). f_equal. apply IH.
  intros r' Hr'. apply HP. by right.
Qed.

Lemma restrict_restrict (P Q : row → Prop)
    `{!∀ r, Decision (P r), !∀ r, Decision (Q r)} df :
  restrict Q (restrict P df) = restrict (λ r, Q r ∧ P r) df.
Proof. unfold restrict; simpl. f_equal. apply list_filter_filter. Qed.

Lemma restrict_iff (P Q : row → Prop)
    `{!∀ r, Decision (P r), !∀ r, Decision (Q r)} df :
  (∀ r, P r ↔ Q r) → restrict P df = restrict Q df.
Proof. intros HPQ. unfold restrict. f_equal. by apply list_filter_iff. Qed.

Lemma has_column_restrict (P : row → Prop) `{!∀ r, Decision (P r)} df c :
  has_column (restrict P df) c = has_column df c.
Proof. done. Qed.

Lemma numeric_prices_restrict (P : row → Prop) `{!∀ r, Decision (P r)} df :
  numeric_prices df → numeric_prices (restrict P df).
Proof.
  unfold numeric_prices, restrict; simpl. rewrite !Forall_forall.
  intros Hnum r [_ Hr]%list_elem_of_filter. by apply Hnum.
Qed.

Lemma choice_active_dec_true (v : cell) :
  truthy v && bool_decide (v ≠ All) = true ↔ truthy v = true ∧ v ≠ All.
Proof. by rewrite andb_true_iff, bool_decide_eq_true. Qed.

Lemma single_choice_cases selected column df :
  single_choice selected column df
    = Ok (restrict (choice_pass selected column) df)
  ∨ single_choice selected column df = Raise (KeyError column)
    ∧ has_column df column = false ∧ choice_active selected.
Proof.
  unfold single_choice. destruct selected as [v|].
  - destruct (truthy v && bool_decide (v ≠ All)) eqn:Hact.
    + destruct (has_column df column) eqn:Hc.
      * left. apply getitem_has_column in Hc as [d ->]. simpl. f_equal.
        unfold getitem_mask, series_eq, restrict; simpl. f_equal.
        rewrite select_fmap_fmap. apply list_filter_iff. intros r.
        unfold choice_pass. by rewrite Hact.
      * right. rewrite (getitem_no_column _ _ Hc). split; [done|].
        split; [done|]. exists v. by apply choice_active_dec_true in Hact.
    + left. f_equal. symmetry. apply restrict_True. intros r _.
      unfold choice_pass. by rewrite Hact.
  - left. f_equal. symmetry. by apply restrict_True.
Qed.

Lemma multi_choice_cases selected column df :
  multi_choice selected column df
    = Ok (restrict (multi_pass selected column) df)
  ∨ multi_choice selected column df = Raise (KeyError column)
    ∧ has_column df column = false ∧ multi_active selected.
Proof.
  unfold multi_choice. destruct selected as [vs|].
  - destruct (negb (bool_decide (vs = [])) && bool_decide (All ∉ vs)) eqn:Hact.
    + destruct (has_column df column) eqn:Hc.
      * left. apply getitem_has_column in Hc as [d ->]. simpl. f_equal.
        unfold getitem_mask, isin, restrict; simpl. f_equal.
        rewrite select_fmap_fmap. apply list_filter_iff. intros r.
        unfold multi_pass. rewrite Hact. by rewrite bool_decide_eq_true.
      * right. rewrite (getitem_no_column _ _ Hc). split; [done|].
        split; [done|]. exists vs.
        apply andb_true_iff in Hact as [H1%negb_true_iff H2].
        apply bool_decide_eq_false in H1. by apply bool_decide_eq_true in H2.
    + left. f_equal. symmetry. apply restrict_True. intros r _.
      unfold multi_pass. by rewrite Hact.
  - left. f_equal. symmetry. by apply restrict_True.
Qed.

Lemma series_ge_numeric d l x :
  Forall (λ c, is_str c = false) l →
  series_ge (mkSeries d l) x = Ok (ge_bound x <$> l).
Proof.
  unfold series_ge; simpl. induction 1 as [|c l Hc _ IH]; [done|].
  change (mapM (λ c, cell_ge c x) (c :: l))
    with (y ← cell_ge c x; k ← mapM (λ c, cell_ge c x) l; mret (y :: k)).
  rewrite IH. by destruct c.
Qed.

Lemma series_le_numeric d l x :
  Forall (λ c, is_str c = false) l →
  series_le (mkSeries d l) x = Ok (le_bound x <$> l).
Proof.
  unfold series_le; simpl. induction 1 as [|c l Hc _ IH]; [done|].
  change (mapM (λ c, cell_le c x) (c :: l))
    with (y ← cell_le c x; k ← mapM (λ c, cell_le c x) l; mret (y :: k)).
  rewrite IH. by destruct c.
Qed.

Lemma series_ge_string d l x :
  ¬ Forall (λ c, is_str c = false) l →
  ∃ e, series_ge (mkSeries d l) x = Raise e.
Proof.
  unfold series_ge; simpl. induction l as [|c l IH]; intros Hl.
  - by destruct Hl.
  - change (mapM (λ c, cell_ge c x) (c :: l))
      with (y ← cell_ge c x; k ← mapM (λ c, cell_ge c x) l; mret (y :: k)).
    destruct c as [s|y|]; simpl; [by eauto| |].
    + destruct IH as [e ->]; [|by eauto]. intros Hl'. apply Hl. by constructor.
    + destruct IH as [e ->]; [|by eauto]. intros Hl'. apply Hl. by constructor.
Qed.

Lemma mask_and_bounds lo hi (l : list row) :
  select (mask_and (ge_bound lo <$> (at_col "price_amount" <$> l))
                   (le_bound hi <$> (at_col "price_amount" <$> l))) l
  = filter (price_within lo hi) l.
Proof.
  unfold mask_and. rewrite zip_with_fmap_l, zip_with_fmap_r, zip_with_diag.
  rewrite select_fmap_fmap. apply list_filter_iff. intros r.
  unfold price_within, ge_bound, le_bound.
  destruct (at_col "price_amount" r); simpl; [done| |done].
  by rewrite andb_true_iff, !bool_decide_eq_true.
Qed.

Lemma numeric_prices_values df :
  numeric_prices df ↔
  Forall (λ c, is_str c = false) (at_col "price_amount" <$> rows df).
Proof. unfold numeric_prices. by rewrite Forall_fmap. Qed.

Lemma range_filter_cases selected df :
  range_filter selected df
    = Ok (restrict (range_pass (has_column df "price_amount") selected) df)
  ∨ (∃ e, range_filter selected df = Raise e)
    ∧ ¬ numeric_prices df ∧ is_Some selected.
Proof.
  unfold range_filter. destruct selected as [[lo hi]|].
  - destruct (has_column df "price_amount") eqn:Hc.
    + destruct (getitem_has_column _ _ Hc) as [d ->]. simpl.
      destruct (decide (numeric_prices df)) as [Hnum|Hnum].
      * left. apply numeric_prices_values in Hnum.
        rewrite series_ge_numeric, series_le_numeric by done. simpl.
        f_equal. unfold getitem_mask, restrict. f_equal.
        apply mask_and_bounds.
      * right. split; [|by eauto]. rewrite numeric_prices_values in Hnum.
        destruct (series_ge_string d _ lo Hnum) as [e ->]. by eauto.
    + left. f_equal. symmetry. by apply restrict_True.
  - left. f_equal. symmetry. by apply restrict_True.
Qed.

Lemma single_choice_Ok selected column df df' :
  single_choice selected column df = Ok df' →
  df' = restrict (choice_pass selected column) df.
Proof. destruct (single_choice_cases selected column df) as [->|[-> _]]; congruence. Qed.

Lemma multi_choice_Ok selected column df df' :
  multi_choice selected column df = Ok df' →
  df' = restrict (multi_pass selected column) df.
Proof. destruct (multi_choice_cases selected column df) as [->|[-> _]]; congruence. Qed.

Lemma range_filter_Ok selected df df' :
  range_filter selected df = Ok df' →
  df' = restrict (range_pass (has_column df "price_amount") selected) df.
Proof. destruct (range_filter_cases selected df) as [->|[[e ->] _]]; congruence. Qed.

(** The rows kept by the engine are exactly those that pass every filter,
    in their order; the labels are kept. *)
Lemma apply_filters_Ok df filters df' :
  apply_filters df filters = Ok df' → df' = restrict (passes df filters) df.
Proof.
  unfold apply_filters. rewrite copy_id. intros H.
  apply bind_Ok in H as (d1 & ->%single_choice_Ok & H).
  apply bind_Ok in H as (d2 & ->%single_choice_Ok & H).
  apply bind_Ok in H as (d3 & ->%single_choice_Ok & H).
  apply bind_Ok in H as (d4 & ->%range_filter_Ok & H).
  apply bind_Ok in H as (d5 & ->%single_choice_Ok & H).
  apply bind_Ok in H as (d6 & ->%multi_choice_Ok & H).
  apply bind_Ok in H as (d7 & ->%single_choice_Ok & H).
  injection H as <-. rewrite !restrict_restrict.
  apply restrict_iff. intros r. rewrite !has_column_restrict.
  unfold passes. tauto.
Qed.

Ltac choice_step H :=
  match goal with
  | |- context [single_choice ?s ?c ?d] =>
      let Hc := fresh "Hc" in
      let Hact := fresh "Hact" in
      destruct (single_choice_cases s c d) as [->|(_ & Hc & Hact)];
      [simpl | exfalso; exact (eq_true_false_abs _ (H Hact) Hc)]
  end.

Lemma apply_filters_applicable df filters :
  applicable df filters →
  apply_filters df filters = Ok (restrict (passes df filters) df).
Proof.
  intros (Hb & Hcm & Hcs & Hnum & Hpp & Hcol & Hav).
  assert (∃ df', apply_filters df filters = Ok df') as [df' H];
    [|by rewrite H; f_equal; apply apply_filters_Ok].
  unfold apply_filters. rewrite copy_id.
  choice_step Hb. choice_step Hcm. choice_step Hcs.
  match goal with
  | |- context [range_filter ?s ?d] =>
      destruct (range_filter_cases s d) as [->|(_ & Hn & Hsome)];
      [simpl | by destruct Hn; do 3 apply numeric_prices_restrict; apply Hnum]
  end.
  choice_step Hpp.
  match goal with
  | |- context [multi_choice ?s ?c ?d] =>
      destruct (multi_choice_cases s c d) as [->|(_ & Hc & Hact)];
      [simpl | exfalso; exact (eq_true_false_abs _ (Hcol Hact) Hc)]
  end.
  choice_step Hav. by eauto.
Qed.

(** ** Filter engine: inactive filters *)

Lemma is_all_pass selected column r :
  is_all selected → choice_pass selected column r ↔ True.
Proof. by intros [->| ->]. Qed.

Lemma is_all_inactive selected : is_all selected → ¬ choice_active selected.
Proof. intros [->| ->] (v & [= <-] & _ & Hv); done. Qed.

Lemma has_all_pass selected column r :
  has_all selected → multi_pass selected column r ↔ True.
Proof.
  intros [->|(vs & -> & Hvs)]; [done|]. unfold multi_pass.
  by rewrite (bool_decide_eq_false_2 (All ∉ vs)), andb_false_r by tauto.
Qed.

Lemma has_all_inactive selected : has_all selected → ¬ multi_active selected.
Proof.
  intros [->|(vs & -> & Hvs)] (vs' & [= <-] & _ & Hv); done.
Qed.

Lemma restrict_iff_rows (P Q : row → Prop)
    `{!∀ r, Decision (P r), !∀ r, Decision (Q r)} df :
  (∀ r, r ∈ rows df → P r ↔ Q r) → restrict P df = restrict Q df.
Proof.
  intros HPQ. unfold restrict. f_equal.
  induction (rows df) as [|r rs IH]; [done|]. rewrite !filter_cons.
  rewrite IH by (intros r' ?; apply HPQ; by right).
  assert (P r ↔ Q r) by (apply HPQ; left).
  repeat case_decide; tauto || done.
Qed.

Lemma applicable_without_range df filters :
  applicable df filters → applicable df (without_range filters).
Proof.
  intros (?&?&?&?&?&?&?). repeat split; simpl; try done.
Qed.

Lemma passes_without_range df filters lo hi r :
  price_range filters = Some (lo, hi) →
  has_column df "price_amount" = true →
  passes df filters r
  ↔ price_within lo hi r ∧ passes df (without_range filters) r.
Proof.
  intros Hr Hc. unfold passes; simpl. rewrite Hr, Hc; simpl. tauto.
Qed.

Lemma no_single_choice_passes df filters r :
  no_single_choice filters → has_all (color filters) →
  passes df filters r
  ↔ range_pass (has_column df "price_amount") (price_range filters) r.
Proof.
  intros (Hb & Hcm & Hcs & Hpp & Hav) Hcol. unfold passes.
  rewrite !is_all_pass, has_all_pass by done. tauto.
Qed.

Lemma no_single_choice_applicable df filters :
  no_single_choice filters → has_all (color filters) →
  (is_Some (price_range filters) → numeric_prices df) →
  applicable df filters.
Proof.
  intros (Hb & Hcm & Hcs & Hpp & Hav) Hcol Hnum.
  repeat split; try done; intros Hact; exfalso;
    first [ by eapply is_all_inactive in Hact
          | by eapply has_all_inactive in Hact ].
Qed.

(** ** Filter engine: the claims *)

(** C3. With a price range [lo, hi] set over a table that has a
    [price_amount] column, the engine keeps exactly the rows (in their order)
    whose price is a number [y] with [lo <= y <= hi], among the rows that
    pass the other filters; with no other filter active these are the rows of
    the input in the range.  On the prices 10, 20, 30 the range (15, 30)
    keeps exactly the rows with price 20 and 30. *)
Theorem range_filter_inclusive df filters lo hi :
  applicable df filters →
  price_range filters = Some (lo, hi) →
  has_column df "price_amount" = true →
  (∃ others, apply_filters df (without_range filters) = Ok others
     ∧ apply_filters df filters = Ok (restrict (price_within lo hi) others))
  ∧ (no_single_choice filters → has_all (color filters) →
     apply_filters df filters = Ok (restrict (price_within lo hi) df))
  ∧ apply_filters scenario_table (range_only (Qc_of_Z 15) (Qc_of_Z 30))
    = Ok (mkDF (columns scenario_table)
            [ {[ "brand_name" := Str "A"; "price_amount" := num 20 ]};
              {[ "brand_name" := Str "B"; "price_amount" := num 30 ]} ]).
Proof.
  intros Happ Hr Hc. split; [|split].
  - eexists. split.
    + by apply apply_filters_applicable, applicable_without_range.
    + rewrite (apply_filters_applicable _ _ Happ). f_equal.
      rewrite restrict_restrict. apply restrict_iff. intros r.
      by apply passes_without_range.
  - intros Hno Hcol. rewrite (apply_filters_applicable _ _ Happ). f_equal.
    apply restrict_iff. intros r. rewrite no_single_choice_passes by done.
    by rewrite Hr, Hc.
  - vm_compute. reflexivity.
Qed.

Lemma range_filter_inclusive_witness :
  apply_filters scenario_table (range_only (Qc_of_Z 15) (Qc_of_Z 30))
  = Ok (restrict (price_within (Qc_of_Z 15) (Qc_of_Z 30)) scenario_table).
Proof.
  assert (Hno : no_single_choice (range_only (Qc_of_Z 15) (Qc_of_Z 30)))
    by (repeat split; by left).
  assert (Hcol : has_all (color (range_only (Qc_of_Z 15) (Qc_of_Z 30))))
    by (by left).
  refine (proj1 (proj2 (range_filter_inclusive scenario_table
            (range_only (Qc_of_Z 15) (Qc_of_Z 30)) (Qc_of_Z 15) (Qc_of_Z 30)
            _ eq_refl eq_refl)) Hno Hcol).
  apply no_single_choice_applicable; [done|done|].
  intros _. unfold numeric_prices. simpl. by repeat constructor.
Defined.

(** C10. When a price range is set over a table that has a [price_amount]
    column, no row whose price is missing is in the result, whatever the
    bounds (and there is a result whenever the filter set is applicable). *)
Theorem range_filter_excludes_missing df filters bounds :
  price_range filters = Some bounds →
  has_column df "price_amount" = true →
  (applicable df filters → ∃ df', apply_filters df filters = Ok df')
  ∧ (∀ df', apply_filters df filters = Ok df' →
       ∀ r, price_missing r → r ∉ rows df').
Proof.
  intros Hr Hc. split.
  - intros Happ. eexists. by apply apply_filters_applicable.
  - intros df' ->%apply_filters_Ok r Hmiss [Hpass _]%list_elem_of_filter.
    destruct Hpass as (_ & _ & _ & Hrange & _).
    rewrite Hr, Hc in Hrange. destruct bounds as [lo hi]. simpl in Hrange.
    unfold price_within in Hrange. unfold price_missing in Hmiss.
    by rewrite Hmiss in Hrange.
Qed.

Lemma range_filter_excludes_missing_witness :
  apply_filters missing_price_table all_filters
  = Ok (mkDF (columns missing_price_table) [priced_row_a; priced_row_b])
  ∧ unpriced_row ∉ [priced_row_a; priced_row_b].
Proof.
  assert (Hrun : apply_filters missing_price_table all_filters
            = Ok (mkDF (columns missing_price_table)
                    [priced_row_a; priced_row_b]))
    by (vm_compute; reflexivity).
  split; [exact Hrun|].
  exact (proj2 (range_filter_excludes_missing missing_price_table all_filters
                  (Qc_of_Z 10, Qc_of_Z 20) eq_refl eq_refl)
               _ Hrun unpriced_row eq_refl).
Defined.

Lemma missing_price_table_numeric : numeric_prices missing_price_table.
Proof. unfold numeric_prices. simpl. by repeat constructor. Qed.

Lemma all_filters_unconstrained :
  unconstrained missing_price_table all_filters.
Proof.
  split; [by repeat split; right|].
  split; [right; exists [All]; split; [done|by left]|].
  intros bounds [= <-]. unfold spans_prices. simpl.
  repeat (apply Forall_cons; split); [| |  |by apply Forall_nil];
    intros y Hy; vm_compute in Hy; try discriminate;
    injection Hy as <-; split; by apply (bool_decide_unpack _).
Qed.

(** C1, as stated, fails: over a cleaned table in which a price is missing
    (the loader returns it as it is), the filter set of the first render
    pass (every choice "All", the range on the whole span of the prices)
    drops the row without price. *)
Lemma unconstrained_filters_drop_missing_price :
  load_and_process_data (λ _ : unit, Ok missing_price_table) parse_twelve ()
    = ([], Ok (Some missing_price_table))
  ∧ (∀ lib, (initial_filters lib missing_price_table).2 = Ok all_filters)
  ∧ unconstrained missing_price_table all_filters
  ∧ apply_filters missing_price_table all_filters
    = Ok (mkDF (columns missing_price_table) [priced_row_a; priced_row_b])
  ∧ apply_filters missing_price_table all_filters ≠ Ok missing_price_table.
Proof.
  split; [vm_compute; reflexivity|].
  split; [intros lib; vm_compute; reflexivity|]. split; [|split].
  - apply all_filters_unconstrained.
  - vm_compute. reflexivity.
  - vm_compute. intros [=].
Qed.

(** C1, amended. Over a table whose price column holds no string, an
    unconstrained filter set keeps, in their order, exactly the rows whose
    price is not missing when a range is set and the table has a
    [price_amount] column; the result is the input when no range is set, or
    the table has no [price_amount] column, or no price is missing. *)
Theorem unconstrained_filters_keep_priced_rows df filters :
  numeric_prices df →
  unconstrained df filters →
  (is_Some (price_range filters) → has_column df "price_amount" = true →
   apply_filters df filters = Ok (restrict (λ r, ¬ price_missing r) df))
  ∧ (price_range filters = None ∨ has_column df "price_amount" = false
     ∨ Forall (λ r, ¬ price_missing r) (rows df) →
     apply_filters df filters = Ok df).
Proof.
  intros Hnum (Hno & Hcol & Hspan).
  assert (Happ : apply_filters df filters
                 = Ok (restrict (range_pass (has_column df "price_amount")
                                   (price_range filters)) df)).
  { rewrite apply_filters_applicable
      by (by apply no_single_choice_applicable).
    f_equal. apply restrict_iff. intros r.
    by apply no_single_choice_passes. }
  assert (Hin : ∀ bounds r, price_range filters = Some bounds → r ∈ rows df →
                price_within bounds.1 bounds.2 r ↔ ¬ price_missing r).
  { intros bounds r Hb Hr. specialize (Hspan bounds Hb).
    unfold spans_prices in Hspan. rewrite Forall_forall in Hspan.
    unfold numeric_prices in Hnum. rewrite Forall_forall in Hnum.
    specialize (Hspan r Hr). specialize (Hnum r Hr).
    unfold price_within, price_missing.
    destruct (at_col "price_amount" r) as [s|y|]; [done| |tauto].
    split; [done|]. intros _. by apply Hspan. }
  split.
  - intros [[lo hi] Hb] Hc. rewrite Happ. f_equal.
    apply restrict_iff_rows. intros r Hr. rewrite Hb, Hc. simpl.
    by apply (Hin (lo, hi)).
  - intros Hcase. rewrite Happ. f_equal. apply restrict_True. intros r Hr.
    destruct (price_range filters) as [[lo hi]|] eqn:Hb; [|done].
    destruct (has_column df "price_amount") eqn:Hc; [|done]. simpl.
    destruct Hcase as [[=]|[[=]|Hall]].
    apply (Hin (lo, hi)); [done..|].
    rewrite Forall_forall in Hall. by apply Hall.
Qed.

Lemma unconstrained_filters_keep_priced_rows_witness :
  apply_filters missing_price_table all_filters
  = Ok (restrict (λ r, ¬ price_missing r) missing_price_table).
Proof.
  refine (proj1 (unconstrained_filters_keep_priced_rows
                   missing_price_table all_filters _ _) _ eq_refl).
  - apply missing_price_table_numeric.
  - apply all_filters_unconstrained.
  - by eexists.
Defined.

(** C4, as stated, fails on the empty selection: "All" is not selected, no
    colour is a member of the selection, and yet every row is kept. *)
Lemma empty_color_selection_keeps_rows :
  (All ∉ @nil cell)
  ∧ apply_filters red_table (colors_only []) = Ok red_table
  ∧ restrict (λ r, at_col "color" r ∈ @nil cell) red_table ≠ red_table.
Proof.
  split; [by intros ?%elem_of_nil|]. split; [vm_compute; reflexivity|].
  vm_compute. intros [=].
Qed.

(** C4, amended. With a colour selection [vs] as the only active filter:
    when "All" is among the selected values, or nothing is selected, every
    row is kept; otherwise the engine keeps exactly the rows (in their order)
    whose colour is a member of the selection. *)
Theorem color_filter_members df filters vs :
  color filters = Some vs →
  no_single_choice filters →
  price_range filters = None →
  (All ∈ vs ∨ vs = [] → apply_filters df filters = Ok df)
  ∧ (All ∉ vs → vs ≠ [] → has_column df "color" = true →
     apply_filters df filters
     = Ok (restrict (λ r, at_col "color" r ∈ vs) df)).
Proof.
  intros Hvs Hno Hr.
  assert (Hpass : ∀ r, passes df filters r ↔ multi_pass (Some vs) "color" r).
  { intros r. destruct Hno as (Hb & Hcm & Hcs & Hpp & Hav). unfold passes.
    rewrite !is_all_pass, Hr, Hvs by done. simpl. tauto. }
  assert (Happ : (multi_active (Some vs) → has_column df "color" = true) →
                 apply_filters df filters
                 = Ok (restrict (multi_pass (Some vs) "color") df)).
  { intros Hcol. rewrite apply_filters_applicable; [f_equal; by apply restrict_iff|].
    destruct Hno as (Hb & Hcm & Hcs & Hpp & Hav).
    repeat split; try (by rewrite ?Hvs);
      try (intros Hact; exfalso; by eapply is_all_inactive in Hact).
    rewrite Hr. by intros [? [=]]. }
  split.
  - intros Hcase. rewrite Happ.
    + f_equal. apply restrict_True. intros r _. unfold multi_pass.
      destruct Hcase as [Hall| ->]; [|done].
      by rewrite (bool_decide_eq_false_2 (All ∉ vs)), andb_false_r by tauto.
    + intros (vs' & [= <-] & Hne & Hall). by destruct Hcase.
  - intros Hall Hne Hc. rewrite Happ by done. f_equal.
    apply restrict_iff. intros r. unfold multi_pass.
    by rewrite (bool_decide_eq_false_2 (vs = [])),
               (bool_decide_eq_true_2 (All ∉ vs)) by done.
Qed.

Lemma color_filter_members_witness :
  apply_filters red_table (colors_only [Str "Red"; All]) = Ok red_table
  ∧ apply_filters red_table (colors_only [Str "Blue"])
    = Ok (restrict (λ r, at_col "color" r ∈ [Str "Blue"]) red_table).
Proof.
  assert (Hno : ∀ vs, no_single_choice (colors_only vs))
    by (intros vs; repeat split; by left).
  split.
  - apply (proj1 (color_filter_members red_table
                    (colors_only [Str "Red"; All]) _ eq_refl (Hno _) eq_refl)).
    left. apply list_elem_of_further, list_elem_of_here.
  - apply (proj2 (color_filter_members red_table
                    (colors_only [Str "Blue"]) _ eq_refl (Hno _) eq_refl)).
    + by intros [=]%list_elem_of_singleton.
    + done.
    + reflexivity.
Defined.

(** A brand selection over a table without [brand_name] column raises
    [KeyError], whereas the price range over the same table, which has no
    [price_amount] column either, is skipped.  No filter set that
    [create_filters] builds from a table selects a value on a column that
    the table lacks: see [create_filters_runs]. *)
Lemma brand_filter_absent_column_raises :
  has_column names_table "brand_name" = false
  ∧ apply_filters names_table (brand_only (Str "Nike"))
    = Raise (KeyError "brand_name")
  ∧ has_column names_table "price_amount" = false
  ∧ apply_filters names_table (range_only (Qc_of_Z 0) (Qc_of_Z 1000))
    = Ok names_table.
Proof. repeat split; vm_compute; reflexivity. Qed.

(** ** Loader/cleaner *)

Lemma at_col_insert c c' v (r : row) :
  at_col c' (<[c := v]> r) = if decide (c = c') then v else at_col c' r.
Proof.
  unfold at_col. rewrite lookup_insert. by case_decide.
Qed.

Lemma labels_set_dtype c d cols :
  c ∈ cols.*1 → (set_dtype c d cols).*1 = cols.*1.
Proof.
  induction cols as [|[c' d'] cols IH]; simpl; [by intros ?%elem_of_nil|].
  intros Hc. case_bool_decide as Heq; simpl; [by subst|].
  f_equal. apply IH. apply elem_of_cons in Hc as [?|?]; [congruence|done].
Qed.

Lemma setitem_column df c d (g : cell → cell) :
  has_column df c = true →
  (columns (setitem df c (mkSeries d (g <$> (at_col c <$> rows df))))).*1
    = (columns df).*1
  ∧ rows (setitem df c (mkSeries d (g <$> (at_col c <$> rows df))))
    = (λ r, <[c := g (at_col c r)]> r) <$> rows df.
Proof.
  intros Hc. unfold setitem; simpl. split.
  - apply labels_set_dtype. by apply bool_decide_eq_true in Hc.
  - by rewrite <-list_fmap_compose, zip_with_fmap_r, zip_with_diag.
Qed.

Lemma has_column_labels df df' c :
  (columns df').*1 = (columns df).*1 → has_column df' c = has_column df c.
Proof. unfold has_column. by intros ->. Qed.

Lemma fill_row_ext (p q : string → bool) cols r :
  (∀ c, p c = q c) → fill_row p cols r = fill_row q cols r.
Proof.
  intros Hpq. unfold fill_row. revert r.
  induction cols as [|c cols IH]; intros r; simpl; [done|].
  by rewrite Hpq, IH.
Qed.

Lemma fill_missing_spec cols df :
  ∃ df', fill_missing cols df = Ok df'
    ∧ (columns df').*1 = (columns df).*1
    ∧ rows df' = fill_row (has_column df) cols <$> rows df.
Proof.
  revert df. induction cols as [|c cols IH]; intros df.
  - exists df. by rewrite list_fmap_id.
  - simpl. destruct (has_column df c) eqn:Hc.
    + destruct (getitem_has_column _ _ Hc) as [d ->]. simpl.
      unfold fillna at 1; simpl.
      destruct (setitem_column df c
        match d with
        | float64 =>
            if existsb isna (at_col c <$> rows df) then object else float64
        | object => object
        end fill_cell Hc) as [Hlab Hrows].
      unfold fill_cell in Hlab, Hrows.
      set (df1 := setitem _ _ _) in *.
      destruct (IH df1) as (df' & -> & Hlab' & Hrows').
      exists df'. split; [done|]. split; [congruence|].
      rewrite Hrows', Hrows, <-list_fmap_compose.
      apply list_fmap_ext. intros i r _. simpl. unfold fill_row; simpl.
      rewrite Hc. apply (fill_row_ext (has_column df1) (has_column df)).
      intros c'. by apply has_column_labels.
    + simpl. destruct (IH df) as (df' & -> & Hlab' & Hrows').
      exists df'. split; [done|]. split; [done|].
      rewrite Hrows'. apply list_fmap_ext. intros i r _.
      unfold fill_row; simpl. by rewrite Hc.
Qed.

Lemma fill_cell_idemp c : fill_cell (fill_cell c) = fill_cell c.
Proof. by destruct c. Qed.

Lemma fill_cell_not_missing c : isna (fill_cell c) = false.
Proof. by destruct c. Qed.

Lemma coerce_not_string parse c : is_str (coerce parse c) = false.
Proof. destruct c as [s|x|]; simpl; [|done..]. by destruct (parse s). Qed.

Lemma at_col_fill_row present cols c r :
  at_col c (fill_row present cols r)
  = if bool_decide (c ∈ cols) && present c
    then fill_cell (at_col c r) else at_col c r.
Proof.
  unfold fill_row. revert r.
  induction cols as [|c0 cols IH]; intros r; simpl; [done|].
  rewrite IH. clear IH.
  destruct (decide (c0 = c)) as [->|Hne].
  - rewrite (bool_decide_eq_true_2 (c ∈ c :: cols)) by left. simpl.
    destruct (present c) eqn:Hp.
    + rewrite at_col_insert, decide_True by done.
      rewrite andb_true_r, fill_cell_idemp. by case_bool_decide.
    + by rewrite andb_false_r.
  - assert (at_col c (if present c0
                      then <[c0:=fill_cell (at_col c0 r)]> r else r)
            = at_col c r) as ->.
    { destruct (present c0); [|done].
      by rewrite at_col_insert, decide_False. }
    destruct (present c); [|by rewrite !andb_false_r].
    rewrite !andb_true_r.
    rewrite (bool_decide_ext (c ∈ c0 :: cols) (c ∈ cols)); [done|].
    rewrite elem_of_cons. split; [by intros [->|?]|by right].
Qed.

Lemma price_not_categorical : "price_amount" ∉ categorical_cols.
Proof.
  apply (bool_decide_eq_false_1 ("price_amount" ∈ categorical_cols)).
  reflexivity.
Qed.

Section Loader.
Context {upload : Type}.
Variable read_csv : upload → result DataFrame.
Variable parse_float : string → option Qc.

Lemma load_body_spec u raw :
  read_csv u = Ok raw →
  ∃ df, load_body read_csv parse_float u = Ok df
    ∧ (columns df).*1 = (columns raw).*1
    ∧ rows df = clean_row parse_float (has_column raw) <$> rows raw.
Proof.
  intros Hraw. unfold load_body. rewrite Hraw. cbn -[fill_missing].
  destruct (has_column raw "price_amount") eqn:Hc.
  - destruct (getitem_has_column _ _ Hc) as [d ->]. cbn -[fill_missing].
    destruct (setitem_column raw "price_amount" float64
                (coerce parse_float) Hc) as [Hlab Hrows].
    unfold to_numeric; cbn -[fill_missing].
    unfold coerce in Hlab, Hrows.
    set (df1 := setitem _ _ _) in *.
    destruct (fill_missing_spec categorical_cols df1)
      as (df & -> & Hlab' & Hrows').
    exists df. split; [done|]. split; [congruence|].
    rewrite Hrows', Hrows, <-list_fmap_compose.
    apply list_fmap_ext. intros i r _. unfold compose, clean_row.
    rewrite Hc. apply fill_row_ext. intros c. by apply has_column_labels.
  - cbn -[fill_missing].
    destruct (fill_missing_spec categorical_cols raw)
      as (df & -> & Hlab' & Hrows').
    exists df. split; [done|]. split; [done|].
    rewrite Hrows'. apply list_fmap_ext. intros i r _.
    unfold clean_row. by rewrite Hc.
Qed.

(** C2. When the upload parses, the loader returns a table (and reports
    no error) with the labels of the parsed one, in which every entry of
    a categorical column that is present is the parsed entry, or "Unknown"
    where that was missing, so that none is missing; and no entry of
    [price_amount], when present, is a string. *)
Theorem loader_cleans u raw :
  read_csv u = Ok raw →
  ∃ df,
    load_and_process_data read_csv parse_float u = ([], Ok (Some df))
    ∧ (∀ c, has_column df c = has_column raw c)
    ∧ (∀ c, c ∈ categorical_cols → has_column df c = true →
         Forall2 (λ r0 r, at_col c r
                          = if isna (at_col c r0) then Str "Unknown"
                            else at_col c r0) (rows raw) (rows df)
         ∧ Forall (λ r, isna (at_col c r) = false) (rows df))
    ∧ (has_column df "price_amount" = true →
         Forall (λ r, is_str (at_col "price_amount" r) = false) (rows df)).
Proof.
  intros Hraw. destruct (load_body_spec u raw Hraw) as (df & Hdf & Hlab & Hrows).
  exists df. unfold load_and_process_data. rewrite Hdf.
  split; [done|]. split; [intros c; by apply has_column_labels|].
  assert (Hcat : ∀ c r, c ∈ categorical_cols → has_column raw c = true →
            at_col c (clean_row parse_float (has_column raw) r)
            = fill_cell (at_col c r)).
  { intros c r Hc Hp. unfold clean_row. rewrite at_col_fill_row.
    rewrite (bool_decide_eq_true_2 _ Hc), Hp. simpl. f_equal.
    destruct (has_column raw "price_amount"); [|done].
    rewrite at_col_insert, decide_False; [done|].
    intros <-. by apply price_not_categorical. }
  split.
  - intros c Hc Hp. rewrite (has_column_labels _ _ _ Hlab) in Hp.
    rewrite Hrows. split.
    + apply Forall2_fmap_r, Forall_Forall2_diag, Forall_forall.
      intros r _. by apply Hcat.
    + apply Forall_fmap, Forall_forall. intros r _. simpl.
      rewrite Hcat by done. apply fill_cell_not_missing.
  - intros Hp. rewrite (has_column_labels _ _ _ Hlab) in Hp.
    rewrite Hrows. apply Forall_fmap, Forall_forall. intros r _. simpl.
    unfold clean_row. rewrite at_col_fill_row, Hp.
    rewrite (bool_decide_eq_false_2 ("price_amount" ∈ categorical_cols))
      by apply price_not_categorical. simpl.
    rewrite at_col_insert, decide_True by done.
    apply coerce_not_string.
Qed.

End Loader.

Lemma loader_cleans_witness :
  ∃ df,
    load_and_process_data (λ _ : unit, Ok raw_table) parse_twelve ()
    = ([], Ok (Some df))
    ∧ rows df
      = [ {[ "name" := Str "shirt"; "brand_name" := Str "A";
             "price_amount" := num 12; "availability" := Str "Unknown" ]};
          {[ "name" := Str "dress"; "brand_name" := Str "Unknown";
             "price_amount" := NaN; "availability" := Str "In Stock" ]} ]
    ∧ Forall (λ r, isna (at_col "brand_name" r) = false) (rows df)
    ∧ Forall (λ r, is_str (at_col "price_amount" r) = false) (rows df).
Proof.
  destruct (loader_cleans (λ _ : unit, Ok raw_table) parse_twelve ()
              raw_table eq_refl) as (df & Hload & Hcols & Hcat & Hprice).
  exists df. split; [exact Hload|].
  injection Hload as <-. split; [vm_compute; reflexivity|]. split.
  - apply (Hcat "brand_name"); [|reflexivity].
    apply list_elem_of_here.
  - apply Hprice. reflexivity.
Defined.

(** ** Load errors *)

(** C8. When parsing the upload raises, the loader reports the error,
    returns no table, and [main] does nothing after the report: its trace is
    the page header and the error, whatever the widgets, the charts and the
    table rendering would do. *)
Theorem parse_failure_stops lib {upload : Type}
    (read_csv : upload → result DataFrame) parse_float
    selectbox multiselect slider create_visualizations create_data_table
    (u : upload) (e : exn) :
  read_csv u = Raise e →
  load_and_process_data read_csv parse_float u
    = ([StError ("Error loading data: " ++ exn_str e)%string], Ok None)
  ∧ main lib read_csv parse_float selectbox multiselect slider
      create_visualizations create_data_table (Some u)
    = ([Markdown "<h1>👗 Fashion Product Analytics Dashboard</h1>";
        StError ("Error loading data: " ++ exn_str e)%string], Ok ()).
Proof.
  intros He.
  assert (Hload : load_and_process_data read_csv parse_float u
            = ([StError ("Error loading data: " ++ exn_str e)%string],
               Ok None)).
  { unfold load_and_process_data, load_body. by rewrite He. }
  split; [done|]. unfold main. by rewrite Hload.
Qed.

Lemma parse_failure_stops_witness :
  main exact_library (λ _ : unit, Raise (ParseError "Error tokenizing data"))
    parse_twelve initial_selectbox initial_multiselect initial_slider
    (λ _, emit (StSubheader "charts")) (λ _, emit (StSubheader "table"))
    (Some ())
  = ([Markdown "<h1>👗 Fashion Product Analytics Dashboard</h1>";
      StError "Error loading data: Error tokenizing data"], Ok ()).
Proof.
  exact (proj2 (parse_failure_stops exact_library
                  (λ _ : unit, Raise (ParseError "Error tokenizing data"))
                  parse_twelve initial_selectbox initial_multiselect
                  initial_slider (λ _, emit (StSubheader "charts"))
                  (λ _, emit (StSubheader "table")) ()
                  (ParseError "Error tokenizing data") eq_refl)).
Defined.

(** ** Scalar summary *)

Lemma numbers_all_missing (rs : list row) :
  Forall price_missing rs → numbers (at_col "price_amount" <$> rs) = Ok [].
Proof.
  induction 1 as [|r rs Hr _ IH]; [done|].
  rewrite fmap_cons. unfold price_missing in Hr. rewrite Hr. exact IH.
Qed.

(** The [.str] accessor applies to a text column. *)
Lemma str_accessor_text df c :
  text_column df c →
  str_accessor (mkSeries object (at_col c <$> rows df)) = true.
Proof.
  intros [_ [(r & Hr & Hs)|Hnum]]; unfold str_accessor; simpl.
  - apply orb_true_iff. left. apply existsb_exists.
    exists (at_col c r). split; [|done].
    apply list_elem_of_In. by apply list_elem_of_fmap_2.
  - apply orb_true_iff. right. apply negb_true_iff.
    apply not_true_is_false. intros (v & Hv & Hn)%existsb_exists.
    apply list_elem_of_In, list_elem_of_fmap in Hv as (r & -> & Hr).
    rewrite Forall_forall in Hnum. by rewrite (Hnum r Hr) in Hn.
Qed.

(** C6, as stated, fails: over a table without [price_amount] column the
    summary shows no mean-price metric at all, hence no "N/A". *)
Lemma no_price_column_no_mean_metric :
  has_column names_table "price_amount" = false
  ∧ (∀ lib, create_overview_metrics lib names_table
      = ([Metric "Total Products" (MCount 1); Metric "In Stock" (MCount 1)],
         Ok ()))
  ∧ ∀ lib, Metric "Average Price" (MText "N/A")
           ∉ (create_overview_metrics lib names_table).1.
Proof.
  split; [reflexivity|]. split; [intros lib; vm_compute; reflexivity|].
  intros lib. vm_compute. intros Hin.
  repeat (apply elem_of_cons in Hin as [[=]|Hin]).
  by apply elem_of_nil in Hin.
Qed.

(** C6, amended. Over a table without [price_amount] column, whose
    [availability] column, when present, is a text column, the summary
    raises no exception and shows no mean-price metric; over a table in
    which every price is missing, the mean-price metric shown is "N/A". *)
Theorem summary_mean_price lib df :
  (has_column df "availability" = true → text_column df "availability") →
  (has_column df "price_amount" = false →
   (create_overview_metrics lib df).2 = Ok ()
   ∧ ∀ v, Metric "Average Price" v ∉ (create_overview_metrics lib df).1)
  ∧ (has_column df "price_amount" = true →
     Forall price_missing (rows df) →
     Metric "Average Price" (MText "N/A")
     ∈ (create_overview_metrics lib df).1).
Proof.
  intros Havail. unfold create_overview_metrics. split.
  - intros Hp. rewrite Hp.
    destruct (has_column df "brand_name") eqn:Hb;
      [destruct (getitem_has_column _ _ Hb) as [d ->]|];
      (destruct (has_column df "availability") eqn:Ha;
       [rewrite (getitem_dtype _ _ _ (proj1 (Havail eq_refl)));
        cbn -[str_contains]; unfold str_contains;
        rewrite (str_accessor_text _ _ (Havail eq_refl))|]);
      cbn; (split; [done|]); intros v Hv;
      repeat (apply elem_of_cons in Hv as [[=]|Hv]);
      by apply elem_of_nil in Hv.
  - intros Hp Hmiss. rewrite Hp.
    destruct (getitem_has_column _ _ Hp) as [d Hd].
    assert (Hmean : mean (float_mean lib)
                      (mkSeries d (at_col "price_amount" <$> rows df))
                    = Ok NaN).
    { unfold mean; simpl. by rewrite numbers_all_missing. }
    destruct (has_column df "brand_name") eqn:Hb;
      [destruct (getitem_has_column _ _ Hb) as [d' ->]|];
      rewrite Hd; cbn -[mean]; rewrite Hmean; cbn.
    + do 2 right. left.
    + right. left.
Qed.

Lemma names_table_text : text_column names_table "availability".
Proof.
  split; [reflexivity|]. left.
  exists {[ "name" := Str "shirt"; "availability" := Str "In Stock" ]}.
  split; [apply list_elem_of_here|reflexivity].
Qed.

Lemma summary_mean_price_witness :
  ((create_overview_metrics exact_library names_table).2 = Ok ()
   ∧ ∀ v, Metric "Average Price" v
          ∉ (create_overview_metrics exact_library names_table).1)
  ∧ Metric "Average Price" (MText "N/A")
    ∈ (create_overview_metrics exact_library unpriced_table).1.
Proof.
  split.
  - refine (proj1 (summary_mean_price exact_library names_table _) _);
      [intros _; exact names_table_text | reflexivity].
  - refine (proj2 (summary_mean_price exact_library unpriced_table _) _ _);
      [intros H; discriminate H | reflexivity | repeat constructor].
Defined.

(** ** Cross-tabulation *)

Section Counting.
Context {A K : Type} `{EqDecision K}.

Lemma sum_list_fmap_add (g h : K → nat) (ks : list K) :
  sum_list ((λ k, g k + h k) <$> ks)
  = sum_list (g <$> ks) + sum_list (h <$> ks).
Proof. induction ks as [|k ks IH]; csimpl; [done|]. rewrite IH. lia. Qed.

Lemma sum_list_indicator_absent (y : K) (ks : list K) :
  y ∉ ks → sum_list ((λ k, if decide (y = k) then 1 else 0) <$> ks) = 0.
Proof.
  induction ks as [|k ks IH]; csimpl; [done|].
  intros [Hne Hks]%not_elem_of_cons. rewrite decide_False by done.
  by rewrite IH.
Qed.

Lemma sum_list_indicator (y : K) (ks : list K) :
  NoDup ks → y ∈ ks →
  sum_list ((λ k, if decide (y = k) then 1 else 0) <$> ks) = 1.
Proof.
  induction 1 as [|k ks Hk Hnd IH]; csimpl; [by intros ?%elem_of_nil|].
  intros [->|Hy]%elem_of_cons.
  - rewrite decide_True by done. by rewrite sum_list_indicator_absent.
  - rewrite decide_False by (intros <-; done). by rewrite IH.
Qed.

(** Grouping a list by a key and counting each group counts the list. *)
Lemma sum_group_sizes (f : A → K) (ks : list K) (l : list A) :
  NoDup ks → (∀ x, x ∈ l → f x ∈ ks) →
  sum_list ((λ k, length (filter (λ x, f x = k) l)) <$> ks) = length l.
Proof.
  intros Hnd. induction l as [|x l IH]; intros Hl.
  - clear. induction ks as [|k ks IHks]; [done|].
    rewrite fmap_cons. exact IHks.
  - rewrite (list_fmap_ext _
      (λ k, (if decide (f x = k) then 1 else 0)
            + length (filter (λ x, f x = k) l))).
    + rewrite sum_list_fmap_add, IH by (intros ??; apply Hl; by right).
      rewrite sum_list_indicator; [done..|]. apply Hl. left.
    + intros _ k _. rewrite filter_cons. by case_decide.
Qed.
End Counting.

Lemma ct_total_crosstab a b :
  ct_total (crosstab a b)
  = length (filter (λ p : cell * cell, isna p.1 = false ∧ isna p.2 = false)
              (zip (s_values a) (s_values b))).
Proof.
  unfold ct_total, crosstab; simpl.
  set (pairs := filter _ (zip _ _)).
  set (idx := merge_sort label_le (remove_dups pairs.*1)).
  set (cols := merge_sort label_le (remove_dups pairs.*2)).
  assert (Hidx : NoDup idx ∧ ∀ p, p ∈ pairs → p.1 ∈ idx).
  { unfold idx. rewrite merge_sort_Permutation. split.
    - apply NoDup_remove_dups.
    - intros p Hp. rewrite merge_sort_Permutation, elem_of_remove_dups.
      by apply list_elem_of_fmap_2. }
  assert (Hcols : NoDup cols ∧ ∀ p, p ∈ pairs → p.2 ∈ cols).
  { unfold cols. rewrite merge_sort_Permutation. split.
    - apply NoDup_remove_dups.
    - intros p Hp. rewrite merge_sort_Permutation, elem_of_remove_dups.
      by apply list_elem_of_fmap_2. }
  destruct Hidx as [Hnd1 Hin1], Hcols as [Hnd2 Hin2].
  rewrite <-list_fmap_compose.
  rewrite (list_fmap_ext _ (λ i, length (filter (λ p, p.1 = i) pairs))).
  - by apply sum_group_sizes.
  - intros _ i _. unfold compose.
    rewrite (list_fmap_ext _
      (λ j, length (filter (λ p, p.2 = j) (filter (λ p, p.1 = i) pairs)))).
    + apply sum_group_sizes; [done|].
      intros p [_ Hp]%list_elem_of_filter. by apply Hin2.
    + intros _ j _. f_equal. rewrite list_filter_filter.
      apply list_filter_iff. intros [p1 p2]. simpl.
      split; [by intros [= -> ->] | by intros [-> ->]].
Qed.

(** C7. Over a table with [category_main] and [price_point] columns, the
    cross-tabulation is computed and the sum of its cells is the number of
    rows in which neither of the two is missing. *)
Theorem crosstab_total df :
  has_column df "category_main" = true →
  has_column df "price_point" = true →
  ∃ ct, category_price_data df = Ok (Some ct)
    ∧ ct_total ct
      = length (filter (λ r, at_col "category_main" r ≠ NaN
                             ∧ at_col "price_point" r ≠ NaN) (rows df)).
Proof.
  intros Ha Hb. unfold category_price_data. rewrite Ha, Hb. simpl.
  destruct (getitem_has_column _ _ Ha) as [da ->].
  destruct (getitem_has_column _ _ Hb) as [db ->]. simpl.
  eexists. split; [done|]. rewrite ct_total_crosstab. simpl.
  rewrite zip_with_fmap_l, zip_with_fmap_r, zip_with_diag.
  induction (rows df) as [|r rs IH]; [done|].
  rewrite fmap_cons, !filter_cons. simpl.
  destruct (at_col "category_main" r), (at_col "price_point" r); simpl;
    repeat case_decide; simpl; rewrite ?IH; try done;
    exfalso; tauto || (by intuition).
Qed.

Lemma crosstab_total_witness :
  ∃ ct, category_price_data category_table = Ok (Some ct)
        ∧ ct_counts ct = [[1; 2]] ∧ ct_total ct = 3.
Proof.
  destruct (crosstab_total category_table eq_refl eq_refl)
    as (ct & Hct & Htotal).
  exists ct. split; [exact Hct|]. injection Hct as <-.
  split; [vm_compute; reflexivity|]. rewrite Htotal. reflexivity.
Defined.

(** ** The input table is not modified *)

Lemma alloc_spec (h : gmap Store.loc DataFrame) d :
  ∃ l h', Store.alloc d h = (Ok l, h') ∧ h !! l = None
          ∧ h' !! l = Some d ∧ h ⊆ h'.
Proof.
  exists (fresh (dom h)), (<[fresh (dom h) := d]> h).
  assert (h !! fresh (dom h) = None)
    by apply not_elem_of_dom, is_fresh.
  split; [done|]. split; [done|]. split; [by rewrite lookup_insert_eq|].
  by apply insert_subseteq.
Qed.

Lemma simulates_ret : simulates false mret (λ d, Ok d).
Proof. intros h l d Hl. exists h. split; [done|]. exists l. by eauto. Qed.

Lemma simulates_bind fresh m1 p1 m2 p2 :
  simulates fresh m1 p1 → simulates false m2 p2 →
  simulates fresh (λ l, l1 ← m1 l; m2 l1) (λ d, d1 ← p1 d; p2 d1).
Proof.
  intros H1 H2 h l d Hl. destruct (H1 h l d Hl) as (h1 & Hsub1 & Hm1).
  change ((l1 ← m1 l; m2 l1) h)
    with (match m1 l h with
          | (Ok a, h') => m2 a h'
          | (Raise e, h') => (Raise e, h')
          end).
  destruct (p1 d) as [d1|e]; simpl.
  - destruct Hm1 as (l1 & -> & Hl1 & Hfresh1).
    destruct (H2 h1 l1 d1 Hl1) as (h2 & Hsub2 & Hm2).
    exists h2. split; [by etrans|].
    destruct (p2 d1) as [d2|e]; [|done].
    destruct Hm2 as (l2 & -> & Hl2 & Hfresh2).
    exists l2. split; [done|]. split; [done|].
    assert (Hweak : h1 !! l2 = None → h !! l2 = None).
    { intros Hnone. destruct (h !! l2) as [d0|] eqn:Hd0; [|done].
      by rewrite (lookup_weaken _ _ _ _ Hd0 Hsub1) in Hnone. }
    destruct Hfresh2 as [->|Hnone].
    + done.
    + destruct fresh; [by apply Hweak|]. right. by apply Hweak.
  - exists h1. by rewrite Hm1.
Qed.

Ltac store_unfold Hl :=
  match type of Hl with
  | ?h !! ?l = Some ?d =>
      assert (d = h !!! l) as -> by (symmetry; by apply lookup_total_correct)
  end;
  unfold Store.getitem, Store.getitem_mask, Store.has_column, Store.copy,
    Store.lift, Store.deref;
  unfold mbind, Store.st_bind, mret, Store.st_ret.

Lemma simulates_copy : simulates true Store.copy (λ d, Ok (copy d)).
Proof.
  intros h l d Hl. store_unfold Hl.
  destruct (alloc_spec h (copy (h !!! l))) as (l' & h' & -> & ? & ? & ?).
  exists h'. split; [done|]. exists l'. by eauto.
Qed.

Lemma simulates_single_choice selected column :
  simulates false (Store.single_choice selected column)
                  (single_choice selected column).
Proof.
  intros h l d Hl. unfold Store.single_choice, single_choice.
  destruct selected as [v|]; [|by apply simulates_ret].
  destruct (truthy v && bool_decide (v ≠ All)); [|by apply simulates_ret].
  store_unfold Hl.
  destruct (getitem (h !!! l) column) as [col|e]; simpl; [|by exists h].
  destruct (alloc_spec h (getitem_mask (h !!! l) (series_eq col v)))
    as (l' & h' & -> & ? & ? & ?).
  exists h'. split; [done|]. exists l'. by eauto.
Qed.

Lemma simulates_multi_choice selected column :
  simulates false (Store.multi_choice selected column)
                  (multi_choice selected column).
Proof.
  intros h l d Hl. unfold Store.multi_choice, multi_choice.
  destruct selected as [vs|]; [|by apply simulates_ret].
  destruct (negb (bool_decide (vs = [])) && bool_decide (All ∉ vs));
    [|by apply simulates_ret].
  store_unfold Hl.
  destruct (getitem (h !!! l) column) as [col|e]; simpl; [|by exists h].
  destruct (alloc_spec h (getitem_mask (h !!! l) (isin col vs)))
    as (l' & h' & -> & ? & ? & ?).
  exists h'. split; [done|]. exists l'. by eauto.
Qed.

Lemma simulates_range_filter selected :
  simulates false (Store.range_filter selected) (range_filter selected).
Proof.
  intros h l d Hl. unfold Store.range_filter, range_filter.
  destruct selected as [[lo hi]|]; [|by apply simulates_ret].
  store_unfold Hl.
  destruct (has_column (h !!! l) "price_amount"); [|by apply simulates_ret].
  destruct (getitem (h !!! l) "price_amount") as [col|e]; simpl;
    [|by exists h].
  destruct (series_ge col lo) as [ge|e]; simpl; [|by exists h].
  destruct (series_le col hi) as [le|e]; simpl; [|by exists h].
  destruct (alloc_spec h (getitem_mask (h !!! l) (mask_and ge le)))
    as (l' & h' & -> & ? & ? & ?).
  exists h'. split; [done|]. exists l'. by eauto.
Qed.

(** The engine over the store computes what the engine over frames
    computes, in a new object. *)
Lemma simulates_apply_filters filters :
  simulates true (λ df, Store.apply_filters df filters)
                 (λ df, apply_filters df filters).
Proof.
  refine (simulates_bind true Store.copy (λ d, Ok (copy d)) _
    (λ d0,
       d1 ← single_choice (brand filters) "brand_name" d0;
       d2 ← single_choice (category_main filters) "category_main" d1;
       d3 ← single_choice (category_sub filters) "category_sub" d2;
       d4 ← range_filter (price_range filters) d3;
       d5 ← single_choice (price_point filters) "price_point" d4;
       d6 ← multi_choice (color filters) "color" d5;
       d7 ← single_choice (availability filters) "availability" d6;
       Ok d7) simulates_copy _).
  Opaque simulates.
  repeat (eapply simulates_bind;
          [first [ apply simulates_single_choice
                 | apply simulates_range_filter
                 | apply simulates_multi_choice ]|]).
  apply simulates_ret.
  Transparent simulates.
Qed.

(** C9. Applying the engine to a table of the store leaves that table, and
    every other object of the store, as it was; the result, when there is
    one, is a new object, holding the filtered table. *)
Theorem apply_filters_preserves_input
    (h : gmap Store.loc DataFrame) df d filters r h' :
  h !! df = Some d →
  Store.apply_filters df filters h = (r, h') →
  h' !! df = Some d
  ∧ (∀ l d0, h !! l = Some d0 → h' !! l = Some d0)
  ∧ match r with
    | Ok filtered_df =>
        filtered_df ≠ df ∧ h !! filtered_df = None
        ∧ ∃ d', apply_filters d filters = Ok d'
                ∧ h' !! filtered_df = Some d'
    | Raise e => apply_filters d filters = Raise e
    end.
Proof.
  intros Hdf Hrun.
  destruct (simulates_apply_filters filters h df d Hdf) as (h1 & Hsub & Hsim).
  destruct (apply_filters d filters) as [d'|e].
  - destruct Hsim as (l' & Hrun' & Hl' & Hfresh).
    rewrite Hrun in Hrun'. injection Hrun' as -> ->.
    split; [by eapply lookup_weaken|].
    split; [intros l d0 ?; by eapply lookup_weaken|].
    split; [intros ->; congruence|]. split; [done|]. by exists d'.
  - rewrite Hrun in Hsim. injection Hsim as -> ->.
    split; [by eapply lookup_weaken|].
    split; [intros l d0 ?; by eapply lookup_weaken|]. done.
Qed.

Lemma apply_filters_preserves_input_witness :
  (Store.apply_filters 1%positive (range_only (Qc_of_Z 15) (Qc_of_Z 30))
     one_table_store).2 !! 1%positive = Some scenario_table.
Proof.
  exact (proj1 (apply_filters_preserves_input one_table_store 1%positive
                  scenario_table (range_only (Qc_of_Z 15) (Qc_of_Z 30))
                  _ _ eq_refl (surjective_pairing _))).
Defined.

(** * Further properties *)

(** ** Filter engine: when it raises *)

Lemma single_choice_absent selected column df :
  choice_active selected → has_column df column = false →
  single_choice selected column df = Raise (KeyError column).
Proof.
  intros (v & -> & Ht & Hv) Hc. unfold single_choice.
  rewrite (proj2 (choice_active_dec_true v)) by done.
  by rewrite (getitem_no_column _ _ Hc).
Qed.

Lemma multi_choice_absent selected column df :
  multi_active selected → has_column df column = false →
  multi_choice selected column df = Raise (KeyError column).
Proof.
  intros (vs & -> & Hne & Hall) Hc. unfold multi_choice.
  rewrite (bool_decide_eq_false_2 (vs = [])), (bool_decide_eq_true_2 (All ∉ vs))
    by done.
  simpl. by rewrite (getitem_no_column _ _ Hc).
Qed.

Lemma single_choice_Ok_column selected column df df' :
  single_choice selected column df = Ok df' →
  choice_active selected → has_column df column = true.
Proof.
  intros Hok Hact. destruct (has_column df column) eqn:Hc; [done|].
  by rewrite (single_choice_absent _ _ _ Hact Hc) in Hok.
Qed.

Lemma multi_choice_Ok_column selected column df df' :
  multi_choice selected column df = Ok df' →
  multi_active selected → has_column df column = true.
Proof.
  intros Hok Hact. destruct (has_column df column) eqn:Hc; [done|].
  by rewrite (multi_choice_absent _ _ _ Hact Hc) in Hok.
Qed.

Lemma range_filter_raises selected df e :
  range_filter selected df = Raise e →
  is_Some selected ∧ has_column df "price_amount" = true
  ∧ ¬ numeric_prices df.
Proof.
  intros Hr. destruct (range_filter_cases selected df)
    as [Hok|(_ & Hn & Hs)]; [congruence|].
  split; [done|]. split; [|done].
  destruct selected as [[lo hi]|]; [|by destruct Hs].
  unfold range_filter in Hr.
  by destruct (has_column df "price_amount").
Qed.

Lemma range_filter_runs selected df :
  runs_range df selected →
  range_filter selected df
  = Ok (restrict (range_pass (has_column df "price_amount") selected) df).
Proof.
  intros Hrun. destruct (range_filter_cases selected df)
    as [Hok|([e He] & Hn & Hs)]; [done|].
  destruct (range_filter_raises _ _ _ He) as (_ & Hc & _).
  destruct Hn. by apply Hrun.
Qed.

Lemma runs_range_restrict (P : row → Prop) `{!∀ r, Decision (P r)}
    df selected :
  runs_range df selected → runs_range (restrict P df) selected.
Proof.
  intros Hrun Hs Hc. apply numeric_prices_restrict. by apply Hrun.
Qed.

(** The engine returns a table exactly when every active choice names a
    column of the table; a string among the prices does no harm when no
    range is set or the table has no [price_amount] column. *)
Lemma apply_filters_runs df filters :
  runs df filters →
  apply_filters df filters = Ok (restrict (passes df filters) df).
Proof.
  intros (Hb & Hcm & Hcs & Hnum & Hpp & Hcol & Hav).
  assert (∃ df', apply_filters df filters = Ok df') as [df' H];
    [|by rewrite H; f_equal; apply apply_filters_Ok].
  unfold apply_filters. rewrite copy_id.
  choice_step Hb. choice_step Hcm. choice_step Hcs.
  rewrite range_filter_runs by (by do 3 apply runs_range_restrict).
  simpl. choice_step Hpp.
  match goal with
  | |- context [multi_choice ?s ?c ?d] =>
      destruct (multi_choice_cases s c d) as [->|(_ & Hc & Hact)];
      [simpl | exfalso; exact (eq_true_false_abs _ (Hcol Hact) Hc)]
  end.
  choice_step Hav. by eauto.
Qed.

Lemma apply_filters_Ok_runs_columns df filters df' :
  apply_filters df filters = Ok df' →
  (choice_active (brand filters) → has_column df "brand_name" = true) ∧
  (choice_active (category_main filters) → has_column df "category_main" = true) ∧
  (choice_active (category_sub filters) → has_column df "category_sub" = true) ∧
  (choice_active (price_point filters) → has_column df "price_point" = true) ∧
  (multi_active (color filters) → has_column df "color" = true) ∧
  (choice_active (availability filters) → has_column df "availability" = true).
Proof.
  unfold apply_filters. rewrite copy_id. intros H.
  apply bind_Ok in H as (d1 & H1 & H).
  pose proof (single_choice_Ok_column _ _ _ _ H1) as C1.
  apply single_choice_Ok in H1 as ->.
  apply bind_Ok in H as (d2 & H2 & H).
  pose proof (single_choice_Ok_column _ _ _ _ H2) as C2.
  apply single_choice_Ok in H2 as ->.
  apply bind_Ok in H as (d3 & H3 & H).
  pose proof (single_choice_Ok_column _ _ _ _ H3) as C3.
  apply single_choice_Ok in H3 as ->.
  apply bind_Ok in H as (d4 & ->%range_filter_Ok & H).
  apply bind_Ok in H as (d5 & H5 & H).
  pose proof (single_choice_Ok_column _ _ _ _ H5) as C5.
  apply single_choice_Ok in H5 as ->.
  apply bind_Ok in H as (d6 & H6 & H).
  pose proof (multi_choice_Ok_column _ _ _ _ H6) as C6.
  apply multi_choice_Ok in H6 as ->.
  apply bind_Ok in H as (d7 & H7 & H).
  pose proof (single_choice_Ok_column _ _ _ _ H7) as C7.
  by repeat split.
Qed.

(** X1. Filtering is idempotent: filtering the result of the engine with
    the same filter set returns that result. *)
Theorem apply_filters_idempotent df filters df' :
  apply_filters df filters = Ok df' →
  apply_filters df' filters = Ok df'.
Proof.
  intros Hok. pose proof (apply_filters_Ok_runs_columns _ _ _ Hok)
    as (Hb & Hcm & Hcs & Hpp & Hcol & Hav).
  apply apply_filters_Ok in Hok as ->.
  rewrite apply_filters_runs.
  - f_equal. apply restrict_True. intros r [Hr _]%list_elem_of_filter.
    exact Hr.
  - repeat split; try done.
    intros [[lo hi] Hs] Hc. unfold numeric_prices, restrict. simpl.
    apply Forall_forall. intros r [Hr _]%list_elem_of_filter.
    destruct Hr as (_ & _ & _ & Hrange & _).
    rewrite Hs in Hrange. simpl in Hrange.
    change (has_column df "price_amount" = true) in Hc.
    rewrite Hc in Hrange. unfold price_within in Hrange.
    by destruct (at_col "price_amount" r).
Qed.

Lemma apply_filters_idempotent_witness :
  apply_filters
    (mkDF (columns scenario_table)
       [ {[ "brand_name" := Str "A"; "price_amount" := num 20 ]};
         {[ "brand_name" := Str "B"; "price_amount" := num 30 ]} ])
    (range_only (Qc_of_Z 15) (Qc_of_Z 30))
  = Ok (mkDF (columns scenario_table)
          [ {[ "brand_name" := Str "A"; "price_amount" := num 20 ]};
            {[ "brand_name" := Str "B"; "price_amount" := num 30 ]} ]).
Proof.
  apply (apply_filters_idempotent scenario_table). vm_compute. reflexivity.
Defined.

(** X2. The engine only removes rows: the result has the column labels and
    dtypes of the input, its rows are a subsequence of the rows of the
    input (none added, none reordered), so it has at most as many rows. *)
Theorem apply_filters_subsequence df filters df' :
  apply_filters df filters = Ok df' →
  columns df' = columns df
  ∧ rows df' `sublist_of` rows df
  ∧ len df' ≤ len df.
Proof.
  intros ->%apply_filters_Ok. split; [done|].
  assert (Hsub : rows (restrict (passes df filters) df) `sublist_of` rows df)
    by apply sublist_filter.
  split; [done|]. by apply sublist_length.
Qed.

Lemma apply_filters_subsequence_witness :
  ∃ df', apply_filters missing_price_table all_filters = Ok df'
         ∧ rows df' `sublist_of` rows missing_price_table.
Proof.
  eexists. split; [vm_compute; reflexivity|].
  refine (proj1 (proj2 (apply_filters_subsequence missing_price_table
                          all_filters _ _))).
  vm_compute. reflexivity.
Defined.

(** X3. The filters combine by conjunction: a row is in the result exactly
    when it is a row of the input that passes every active filter. *)
Theorem apply_filters_conjunction df filters df' :
  apply_filters df filters = Ok df' →
  ∀ r, r ∈ rows df' ↔ r ∈ rows df ∧ passes df filters r.
Proof.
  intros ->%apply_filters_Ok r. unfold restrict; simpl.
  rewrite list_elem_of_filter. tauto.
Qed.

Lemma apply_filters_conjunction_witness :
  priced_row_a ∈ [priced_row_a; priced_row_b]
  ↔ priced_row_a ∈ rows missing_price_table
    ∧ passes missing_price_table all_filters priced_row_a.
Proof.
  apply (apply_filters_conjunction missing_price_table all_filters
           (mkDF (columns missing_price_table) [priced_row_a; priced_row_b])).
  vm_compute. reflexivity.
Defined.

(** X4. A selected option that Python holds for false, the number 0 or the
    empty string, is taken for no selection: every row is kept, whether or
    not the table has the column. *)
Theorem falsy_selection_ignored df v :
  v = num 0 ∨ v = Str "" →
  apply_filters df (brand_only v) = Ok df
  ∧ apply_filters df (mkFilters None None None None None None (Some v)) = Ok df.
Proof.
  intros Hv.
  assert (Ht : truthy v = false) by (by destruct Hv as [-> | ->]).
  unfold apply_filters, single_choice; simpl. rewrite Ht. simpl.
  by rewrite copy_id.
Qed.

Lemma falsy_selection_ignored_witness :
  apply_filters names_table (brand_only (num 0)) = Ok names_table.
Proof.
  exact (proj1 (falsy_selection_ignored names_table (num 0)
                  (or_introl eq_refl))).
Defined.

(** ** Sidebar filters *)

Lemma ui_bind_snd {A B} (m : ui A) (k : A → ui B) :
  (x ← m; k x).2 = match m.2 with Ok a => (k a).2 | Raise e => Raise e end.
Proof. unfold mbind, ui_bind. by destruct (m.2). Qed.

Lemma Qc_min_le_l x y : (Qc_min x y ≤ x)%Qc.
Proof.
  unfold Qc_min. case_bool_decide as H; [apply Qcle_refl|].
  by apply Qclt_le_weak, Qcnot_le_lt.
Qed.

Lemma Qc_min_le_r x y : (Qc_min x y ≤ y)%Qc.
Proof. unfold Qc_min. case_bool_decide as H; [done|apply Qcle_refl]. Qed.

Lemma Qc_max_le_l x y : (x ≤ Qc_max x y)%Qc.
Proof. unfold Qc_max. case_bool_decide as H; [done|apply Qcle_refl]. Qed.

Lemma Qc_max_le_r x y : (y ≤ Qc_max x y)%Qc.
Proof.
  unfold Qc_max. case_bool_decide as H; [apply Qcle_refl|].
  by apply Qclt_le_weak, Qcnot_le_lt.
Qed.

Lemma fold_Qc_min_le x xs y :
  y ∈ x :: xs → (foldr Qc_min x xs ≤ y)%Qc.
Proof.
  revert y. induction xs as [|a xs IH]; intros y Hy; simpl.
  - apply list_elem_of_singleton in Hy as ->. apply Qcle_refl.
  - apply elem_of_cons in Hy as [->|Hy].
    + eapply Qcle_trans; [apply Qc_min_le_r|]. apply IH. left.
    + apply elem_of_cons in Hy as [->|Hy]; [apply Qc_min_le_l|].
      eapply Qcle_trans; [apply Qc_min_le_r|]. apply IH. by right.
Qed.

Lemma fold_Qc_max_le x xs y :
  y ∈ x :: xs → (y ≤ foldr Qc_max x xs)%Qc.
Proof.
  revert y. induction xs as [|a xs IH]; intros y Hy; simpl.
  - apply list_elem_of_singleton in Hy as ->. apply Qcle_refl.
  - apply elem_of_cons in Hy as [->|Hy].
    + eapply Qcle_trans; [|apply Qc_max_le_r]. apply IH. left.
    + apply elem_of_cons in Hy as [->|Hy]; [apply Qc_max_le_l|].
      eapply Qcle_trans; [|apply Qc_max_le_r]. apply IH. by right.
Qed.

Lemma numbers_numeric l :
  Forall (λ c, is_str c = false) l →
  ∃ xs, numbers l = Ok xs ∧ (∀ y, Num y ∈ l → y ∈ xs)
        ∧ (xs = [] → forallb isna l = true).
Proof.
  induction 1 as [|c l Hc _ (xs & IH & Hin & Hnil)].
  - exists []. split; [done|]. split; [|done]. intros y Hy. inversion Hy.
  - destruct c as [s|x|]; [done| |]; simpl; rewrite IH; simpl.
    + exists (x :: xs). split; [done|]. split; [|done].
      intros y [[= ->]|Hy]%elem_of_cons; [left|right; by apply Hin].
    + exists xs. split; [done|]. split; [|done].
      intros y [[=]|Hy]%elem_of_cons. by apply Hin.
Qed.

Lemma forallb_isna_missing (rs : list row) :
  forallb isna (at_col "price_amount" <$> rs) = true ↔ Forall price_missing rs.
Proof.
  induction rs as [|r rs IH]; [by split; [constructor|]|].
  rewrite fmap_cons. simpl. rewrite andb_true_iff, IH, Forall_cons.
  unfold price_missing.
  destruct (at_col "price_amount" r); split; intros [? ?]; try done;
    by split.
Qed.

(** The numbers of a column are its entries that are numbers. *)
Lemma numbers_elem l xs y : numbers l = Ok xs → y ∈ xs ↔ Num y ∈ l.
Proof.
  revert xs. induction l as [|c l IH]; intros xs; simpl.
  - intros [= <-]. split; intros H; inversion H.
  - destruct c as [s|x|]; [done| |].
    + destruct (numbers l) as [xs'|] eqn:E; [|done]. simpl. intros [= <-].
      rewrite !elem_of_cons, (IH xs' eq_refl).
      split; [intros [->|?]; by eauto|intros [[= ->]|?]; by eauto].
    + intros H. rewrite elem_of_cons, (IH xs H).
      split; [by right|by intros [[=]|?]].
Qed.

Lemma fold_Qc_min_elem x xs : foldr Qc_min x xs ∈ x :: xs.
Proof.
  induction xs as [|a xs IH]; simpl; [left|].
  unfold Qc_min at 1. case_bool_decide; [right; left|].
  apply elem_of_cons in IH as [->|IH]; [left|do 2 right; done].
Qed.

Lemma fold_Qc_max_elem x xs : foldr Qc_max x xs ∈ x :: xs.
Proof.
  induction xs as [|a xs IH]; simpl; [left|].
  unfold Qc_max at 1. case_bool_decide; [|right; left].
  apply elem_of_cons in IH as [->|IH]; [left|do 2 right; done].
Qed.

(** The bounds given to the slider over a cleaned table: the integers 0
    and 1000 when every price is missing, otherwise two prices of the table
    that enclose every price. *)
Lemma price_bounds_cases df :
  has_column df "price_amount" = true → numeric_prices df →
  (Forall price_missing (rows df)
   ∧ price_bounds df = Ok (PyInt 0, PyInt 1000))
  ∨ (∃ lo hi r1 r2,
       price_bounds df = Ok (PyFloat lo, PyFloat hi)
       ∧ spans_prices df (lo, hi)
       ∧ r1 ∈ rows df ∧ at_col "price_amount" r1 = Num lo
       ∧ r2 ∈ rows df ∧ at_col "price_amount" r2 = Num hi).
Proof.
  intros Hc Hnum. unfold price_bounds.
  destruct (getitem_has_column _ _ Hc) as [d ->]. simpl.
  unfold isna_all, series_min, series_max; simpl.
  apply numeric_prices_values in Hnum.
  destruct (numbers_numeric _ Hnum) as (xs & Hxs & Hin & Hnil).
  rewrite Hxs. simpl.
  destruct (forallb isna (at_col "price_amount" <$> rows df)) eqn:Hall; simpl.
  - left. split; [by apply forallb_isna_missing|done].
  - right. destruct xs as [|x xs]; [specialize (Hnil eq_refl); congruence|].
    simpl.
    assert (Helem : ∀ y, y ∈ x :: xs →
              ∃ r, r ∈ rows df ∧ at_col "price_amount" r = Num y).
    { intros y Hy. apply (numbers_elem _ _ _ Hxs) in Hy.
      apply list_elem_of_fmap in Hy as (r & Hr & Hin'). by eauto. }
    destruct (Helem _ (fold_Qc_min_elem x xs)) as (r1 & Hr1 & Hp1).
    destruct (Helem _ (fold_Qc_max_elem x xs)) as (r2 & Hr2 & Hp2).
    exists (foldr Qc_min x xs), (foldr Qc_max x xs), r1, r2.
    split; [done|]. split; [|done].
    unfold spans_prices. apply Forall_forall. intros r Hr y Hy. simpl.
    assert (y ∈ x :: xs).
    { apply Hin. rewrite <-Hy. by apply list_elem_of_fmap_2. }
    split; [by apply fold_Qc_min_le|by apply fold_Qc_max_le].
Qed.

Lemma slider_accepts_floats lo hi :
  slider_accepts (PyFloat lo) (PyFloat hi) (PyFloat lo, PyFloat hi) price_step
  = bool_decide (lo < hi)%Qc.
Proof. done. Qed.

(** With two different prices the slider accepts its bounds. *)
Lemma price_bounds_two_prices df :
  has_column df "price_amount" = true → numeric_prices df → two_prices df →
  ∃ lo hi, price_bounds df = Ok (PyFloat lo, PyFloat hi)
    ∧ (lo < hi)%Qc ∧ spans_prices df (lo, hi).
Proof.
  intros Hc Hnum (r1 & r2 & x & y & Hr1 & Hr2 & Hx & Hy & Hxy).
  destruct (price_bounds_cases df Hc Hnum)
    as [[Hmiss _]|(lo & hi & _ & _ & Hb & Hspan & _)].
  - rewrite Forall_forall in Hmiss. specialize (Hmiss r1 Hr1).
    unfold price_missing in Hmiss. congruence.
  - exists lo, hi. split; [done|]. split; [|done].
    unfold spans_prices in Hspan. rewrite Forall_forall in Hspan.
    destruct (Hspan r1 Hr1 x Hx) as [Hx1 Hx2].
    destruct (Hspan r2 Hr2 y Hy) as [Hy1 Hy2]. simpl in *.
    apply Qcnot_le_lt. intros Hle. apply Hxy.
    assert (x = lo) as ->
      by (apply Qcle_antisym; [by eapply Qcle_trans|done]).
    apply Qcle_antisym; [done|by eapply Qcle_trans].
Qed.

(** With fewer than two different prices the slider rejects its bounds. *)
Lemma price_bounds_few_prices df :
  has_column df "price_amount" = true → numeric_prices df → ¬ two_prices df →
  ∃ b, price_bounds df = Ok b ∧ slider_accepts b.1 b.2 b price_step = false.
Proof.
  intros Hc Hnum Hfew.
  destruct (price_bounds_cases df Hc Hnum)
    as [[_ Hb]|(lo & hi & r1 & r2 & Hb & _ & Hr1 & Hp1 & Hr2 & Hp2)].
  - by eexists.
  - eexists. split; [done|]. simpl. rewrite slider_accepts_floats.
    apply bool_decide_eq_false_2. intros Hlt. apply Hfew.
    exists r1, r2, lo, hi. repeat split; try done.
    intros ->. by apply Qclt_not_eq in Hlt.
Qed.

Lemma list_elem_of_unique s x : x ∈ unique s ↔ x ∈ s_values s.
Proof.
  unfold unique. by rewrite elem_of_reverse, elem_of_remove_dups, elem_of_reverse.
Qed.

Section Sorting.
Variable lib : library.

Lemma sorted_cases l :
  sorted lib l = Ok (merge_sort py_le l)
  ∨ sorted lib l = Raise (TypeError (sort_message lib l)).
Proof. unfold sorted. case_match; by eauto. Qed.

Lemma sorted_mixed l x y :
  x ∈ l → y ∈ l → is_str x = true → is_str y = false →
  sorted lib l = Raise (TypeError (sort_message lib l)).
Proof.
  intros Hx Hy Hsx Hsy. unfold sorted.
  assert (existsb is_str l = true) as ->
    by (apply existsb_exists; exists x; by rewrite <-list_elem_of_In).
  assert (existsb (λ c, negb (is_str c)) l = true) as ->; [|done].
  apply existsb_exists. exists y. rewrite <-list_elem_of_In. by rewrite Hsy.
Qed.

Lemma options_mixed df column :
  has_column df column = true → mixed_column df column →
  options lib df column = Raise (sort_error lib df column).
Proof.
  intros Hc [(r1 & Hr1 & Hs1) (r2 & Hr2 & Hs2)]. unfold options.
  destruct (getitem_has_column _ _ Hc) as [d ->]. simpl.
  rewrite (sorted_mixed _ (at_col column r1) (at_col column r2)); try done;
    apply list_elem_of_unique; simpl; by apply list_elem_of_fmap_2.
Qed.

(** The options of a column are computed unless the column mixes strings
    and numbers. *)
Lemma options_cases df column :
  has_column df column = true →
  (∃ opts, options lib df column = Ok (All :: opts))
  ∨ (mixed_column df column
     ∧ options lib df column = Raise (sort_error lib df column)).
Proof.
  intros Hc. unfold options.
  destruct (getitem_has_column _ _ Hc) as [d Hget]. rewrite Hget. simpl.
  unfold sorted.
  destruct (existsb is_str _) eqn:Hs; [|simpl; by eauto].
  destruct (existsb (λ c, negb (is_str c)) _) eqn:Hn; [|simpl; by eauto].
  right. split; [|done].
  apply existsb_exists in Hs as (x & Hx & Hsx).
  apply existsb_exists in Hn as (y & Hy & Hsy).
  apply list_elem_of_In, list_elem_of_unique, list_elem_of_fmap in Hx
    as (r1 & -> & Hr1).
  apply list_elem_of_In, list_elem_of_unique, list_elem_of_fmap in Hy
    as (r2 & -> & Hr2).
  split; [by exists r1|]. exists r2. split; [done|].
  by apply negb_true_iff.
Qed.

End Sorting.

Section Widgets.
Variable lib : library.
Variable selectbox : string → list cell → cell.
Variable multiselect : string → list cell → list cell → list cell.
Variable slider : string → Qc → Qc → Qc * Qc → Qc → Qc * Qc.

Lemma select_filter_snd df column label :
  (select_filter lib selectbox df column label).2
  = if has_column df column
    then opts ← options lib df column; Ok (Some (selectbox label opts))
    else Ok None.
Proof.
  unfold select_filter. destruct (has_column df column); [|done].
  rewrite ui_bind_snd. unfold lift; simpl.
  by destruct (options lib df column).
Qed.

Lemma st_slider_snd label min_value max_value value step :
  (st_slider lib slider label min_value max_value value step).2
  = if slider_accepts min_value max_value value step
    then Ok (slider label (number_value min_value) (number_value max_value)
               (number_value value.1, number_value value.2)
               (number_value step))
    else Raise (StreamlitAPIException
                  (slider_message lib min_value max_value step)).
Proof. unfold st_slider. by destruct (slider_accepts _ _ _ _). Qed.

(** What [create_filters] returns, without the trace. *)
Lemma create_filters_snd df :
  (create_filters lib selectbox multiselect slider df).2
  = (f_brand ← (select_filter lib selectbox df "brand_name" "Brand").2;
     f_category_main ←
       (select_filter lib selectbox df "category_main" "Main Category").2;
     f_category_sub ←
       (select_filter lib selectbox df "category_sub" "Sub Category").2;
     f_price_range ← price_range_entry lib slider df;
     f_price_point ←
       (select_filter lib selectbox df "price_point" "Price Point").2;
     f_color ← color_entry lib multiselect df;
     f_availability ←
       (select_filter lib selectbox df "availability" "Availability").2;
     Ok (mkFilters f_brand f_category_main f_category_sub f_price_range
           f_price_point f_color f_availability)).
Proof.
  unfold create_filters. rewrite ui_bind_snd. cbn [emit snd].
  rewrite ui_bind_snd.
  destruct (select_filter _ _ df "brand_name" _).2 as [o1|]; [|done].
  rewrite ui_bind_snd.
  destruct (select_filter _ _ df "category_main" _).2 as [o2|]; [|done].
  rewrite ui_bind_snd.
  destruct (select_filter _ _ df "category_sub" _).2 as [o3|]; [|done].
  rewrite ui_bind_snd. cbn [mbind result_bind].
  assert ((if has_column df "price_amount"
           then
             col ← lift (getitem df "price_amount");
             price_min ← lift (if negb (isna_all col)
                               then m ← series_min col; x ← float m;
                                    Ok (PyFloat x)
                               else Ok (PyInt 0));
             price_max ← lift (if negb (isna_all col)
                               then m ← series_max col; x ← float m;
                                    Ok (PyFloat x)
                               else Ok (PyInt 1000));
             selected ← st_slider lib slider "Price Range ($)" price_min
                          price_max (price_min, price_max)
                          (PyFloat (Qc_of_Z 10));
             mret (Some selected)
           else mret None).2
          = price_range_entry lib slider df) as ->.
  { unfold price_range_entry.
    destruct (has_column df "price_amount"); [|done].
    unfold price_bounds. rewrite ui_bind_snd. unfold lift at 1. cbn [snd].
    destruct (getitem df "price_amount") as [col|]; [|done].
    cbn [mbind result_bind]. rewrite ui_bind_snd. unfold lift at 1. cbn [snd].
    destruct (if negb (isna_all col) then _ else _) as [lo|]; [|done].
    cbn [mbind result_bind]. rewrite ui_bind_snd. unfold lift at 1. cbn [snd].
    destruct (if negb (isna_all col) then _ else _) as [hi|]; [|done].
    cbn [mbind result_bind]. rewrite ui_bind_snd, st_slider_snd.
    cbn [fst snd]. by destruct (slider_accepts _ _ _ _). }
  destruct (price_range_entry lib slider df) as [o4|]; [|done].
  rewrite ui_bind_snd.
  destruct (select_filter _ _ df "price_point" _).2 as [o5|]; [|done].
  cbn [mbind result_bind]. rewrite ui_bind_snd.
  assert ((if has_column df "color"
           then
             colors ← lift (options lib df "color");
             emit (Widget "Colors");;
             mret (Some (multiselect "Colors" colors [All]))
           else mret None).2
          = color_entry lib multiselect df) as ->.
  { unfold color_entry. destruct (has_column df "color"); [|done].
    rewrite ui_bind_snd. unfold lift at 1. cbn [snd].
    by destruct (options lib df "color"). }
  destruct (color_entry lib multiselect df) as [o6|]; [|done].
  cbn [mbind result_bind]. rewrite ui_bind_snd.
  by destruct (select_filter _ _ df "availability" _).2 as [o7|].
Qed.

Lemma select_filter_Ok df column label o :
  (select_filter lib selectbox df column label).2 = Ok o →
  (is_Some o ↔ has_column df column = true).
Proof.
  rewrite select_filter_snd. destruct (has_column df column).
  - destruct (options lib df column); simpl; [|done]. intros [= <-].
    by split; eauto.
  - intros [= <-]. split; [by intros [? [=]]|done].
Qed.

Lemma price_range_entry_Ok df o :
  price_range_entry lib slider df = Ok o →
  (is_Some o ↔ has_column df "price_amount" = true).
Proof.
  unfold price_range_entry. destruct (has_column df "price_amount").
  - intros (b & _ & H)%bind_Ok.
    destruct (slider_accepts _ _ _ _); [|done]. injection H as <-.
    by split; eauto.
  - intros [= <-]. split; [by intros [? [=]]|done].
Qed.

Lemma color_entry_Ok df o :
  color_entry lib multiselect df = Ok o →
  (is_Some o ↔ has_column df "color" = true).
Proof.
  unfold color_entry. destruct (has_column df "color").
  - intros (b & _ & [= <-])%bind_Ok. by split; eauto.
  - intros [= <-]. split; [by intros [? [=]]|done].
Qed.

Lemma create_filters_entries df filters :
  (create_filters lib selectbox multiselect slider df).2 = Ok filters →
  (is_Some (brand filters) ↔ has_column df "brand_name" = true)
  ∧ (is_Some (category_main filters) ↔ has_column df "category_main" = true)
  ∧ (is_Some (category_sub filters) ↔ has_column df "category_sub" = true)
  ∧ (is_Some (price_range filters) ↔ has_column df "price_amount" = true)
  ∧ (is_Some (price_point filters) ↔ has_column df "price_point" = true)
  ∧ (is_Some (color filters) ↔ has_column df "color" = true)
  ∧ (is_Some (availability filters) ↔ has_column df "availability" = true).
Proof.
  rewrite create_filters_snd. intros H.
  apply bind_Ok in H as (o1 & H1%select_filter_Ok & H).
  apply bind_Ok in H as (o2 & H2%select_filter_Ok & H).
  apply bind_Ok in H as (o3 & H3%select_filter_Ok & H).
  apply bind_Ok in H as (o4 & H4%price_range_entry_Ok & H).
  apply bind_Ok in H as (o5 & H5%select_filter_Ok & H).
  apply bind_Ok in H as (o6 & H6%color_entry_Ok & H).
  apply bind_Ok in H as (o7 & H7%select_filter_Ok & H).
  injection H as <-. simpl. done.
Qed.

(** The filter set names columns of the table only. *)
Lemma create_filters_runs df filters :
  numeric_prices df →
  (create_filters lib selectbox multiselect slider df).2 = Ok filters →
  runs df filters.
Proof.
  intros Hnum (Hb & Hcm & Hcs & _ & Hpp & Hcol & Hav)%create_filters_entries.
  repeat split;
    try (intros (v & Hv & _); first [apply Hb|apply Hcm|apply Hcs|apply Hpp
                                     |apply Hcol|apply Hav]; by eauto).
  by intros _ _.
Qed.

(** X5. The filter set built by [create_filters] has an entry exactly for
    the columns the table has, whatever the user selects. *)
Theorem create_filters_keys df filters :
  (create_filters lib selectbox multiselect slider df).2 = Ok filters →
  (is_Some (brand filters) ↔ has_column df "brand_name" = true)
  ∧ (is_Some (category_main filters) ↔ has_column df "category_main" = true)
  ∧ (is_Some (category_sub filters) ↔ has_column df "category_sub" = true)
  ∧ (is_Some (price_range filters) ↔ has_column df "price_amount" = true)
  ∧ (is_Some (price_point filters) ↔ has_column df "price_point" = true)
  ∧ (is_Some (color filters) ↔ has_column df "color" = true)
  ∧ (is_Some (availability filters) ↔ has_column df "availability" = true).
Proof. apply create_filters_entries. Qed.

(** X6. The engine raises nothing on a cleaned table with the filter set
    that [create_filters] built from that table, whatever the user
    selects. *)
Theorem create_filters_then_apply df filters :
  numeric_prices df →
  (create_filters lib selectbox multiselect slider df).2 = Ok filters →
  ∃ df', apply_filters df filters = Ok df'.
Proof.
  intros Hnum Hf. eexists. apply apply_filters_runs.
  by apply create_filters_runs.
Qed.

End Widgets.

Lemma create_filters_keys_witness :
  is_Some (brand all_filters)
  ↔ has_column missing_price_table "brand_name" = true.
Proof.
  refine (proj1 (create_filters_keys exact_library initial_selectbox
                   initial_multiselect initial_slider missing_price_table
                   all_filters _)).
  vm_compute. reflexivity.
Defined.

Lemma create_filters_then_apply_witness :
  ∃ df', apply_filters missing_price_table all_filters = Ok df'.
Proof.
  refine (create_filters_then_apply exact_library initial_selectbox
            initial_multiselect initial_slider missing_price_table
            all_filters _ _).
  - unfold numeric_prices. simpl. by repeat constructor.
  - vm_compute. reflexivity.
Defined.

(** ** Filters on absent columns *)








Section First_pass.
Variable lib : library.

Lemma initial_select_filter df column label o :
  (select_filter lib initial_selectbox df column label).2 = Ok o → is_all o.
Proof.
  rewrite select_filter_snd. destruct (has_column df column) eqn:Hc.
  - destruct (options_cases lib df column Hc) as [[opts ->]|[_ ->]]; [|done].
    simpl. intros [= <-]. by right.
  - intros [= <-]. by left.
Qed.

Lemma initial_filters_spec df filters :
  numeric_prices df →
  (initial_filters lib df).2 = Ok filters →
  unconstrained df filters
  ∧ (has_column df "color" = true → color filters = Some [All]).
Proof.
  intros Hnum. unfold initial_filters. rewrite create_filters_snd. intros H.
  apply bind_Ok in H as (o1 & H1%initial_select_filter & H).
  apply bind_Ok in H as (o2 & H2%initial_select_filter & H).
  apply bind_Ok in H as (o3 & H3%initial_select_filter & H).
  apply bind_Ok in H as (o4 & H4 & H).
  apply bind_Ok in H as (o5 & H5%initial_select_filter & H).
  apply bind_Ok in H as (o6 & H6 & H).
  apply bind_Ok in H as (o7 & H7%initial_select_filter & H).
  injection H as <-. simpl.
  assert (Hrange : ∀ bounds, o4 = Some bounds → spans_prices df bounds).
  { intros bounds ->. unfold price_range_entry in H4.
    destruct (has_column df "price_amount") eqn:Hc; [|done].
    destruct (price_bounds_cases df Hc Hnum)
      as [[_ Hb]|(lo & hi & _ & _ & Hb & Hspan & _)];
      rewrite Hb in H4; simpl in H4; [done|].
    rewrite slider_accepts_floats in H4.
    destruct (bool_decide (lo < hi)%Qc); [|done].
    unfold initial_slider in H4. by injection H4 as <-. }
  unfold color_entry in H6. split.
  - split; [done|]. split; [|done].
    destruct (has_column df "color"); [|injection H6 as <-; by left].
    apply bind_Ok in H6 as (colors & _ & [= <-]).
    right. exists [All]. split; [done|]. left.
  - intros Hc. rewrite Hc in H6.
    by apply bind_Ok in H6 as (colors & _ & [= <-]).
Qed.

(** X7. Before any interaction the filter set over a cleaned table is
    unconstrained: every single choice is "All", the colours selected are
    ["All"], and the slider is set on bounds that enclose every price of the
    table. *)
Theorem initial_filters_unconstrained df filters :
  numeric_prices df →
  (initial_filters lib df).2 = Ok filters →
  unconstrained df filters
  ∧ (has_column df "color" = true → color filters = Some [All]).
Proof. intros Hnum Hf. by apply initial_filters_spec. Qed.

(** What an unconstrained filter set keeps. *)
Lemma unconstrained_rows df filters :
  numeric_prices df → unconstrained df filters →
  apply_filters df filters
  = Ok (if has_column df "price_amount"
        then match price_range filters with
             | Some _ => restrict (λ r, ¬ price_missing r) df
             | None => df
             end
        else df).
Proof.
  intros Hnum (Hno & Hcol & Hspan).
  rewrite apply_filters_applicable by (by apply no_single_choice_applicable).
  f_equal.
  destruct (has_column df "price_amount") eqn:Hc;
    [destruct (price_range filters) as [[lo hi]|] eqn:Hb|].
  - apply restrict_iff_rows. intros r Hr.
    rewrite no_single_choice_passes, Hb, Hc by done. simpl.
    specialize (Hspan (lo, hi) eq_refl).
    unfold spans_prices in Hspan. rewrite Forall_forall in Hspan.
    unfold numeric_prices in Hnum. rewrite Forall_forall in Hnum.
    specialize (Hspan r Hr). specialize (Hnum r Hr).
    unfold price_within, price_missing.
    destruct (at_col "price_amount" r) as [s|y|]; [done| |tauto].
    split; [done|]. intros _. by apply Hspan.
  - apply restrict_True. intros r _.
    by rewrite no_single_choice_passes, Hb by done.
  - apply restrict_True. intros r _.
    rewrite no_single_choice_passes, Hc by done.
    by destruct (price_range filters) as [[??]|].
Qed.

(** X8. On the first render pass over a cleaned table the rows shown are
    exactly the rows with a price when the table has a [price_amount]
    column, and all the rows when it has none. *)
Theorem first_pass_rows df filters :
  numeric_prices df →
  (initial_filters lib df).2 = Ok filters →
  apply_filters df filters
  = Ok (if has_column df "price_amount"
        then restrict (λ r, ¬ price_missing r) df else df).
Proof.
  intros Hnum Hf.
  destruct (initial_filters_spec df filters Hnum Hf) as [Hun _].
  rewrite (unconstrained_rows _ _ Hnum Hun).
  apply (create_filters_entries lib initial_selectbox initial_multiselect
           initial_slider) in Hf as (_ & _ & _ & Hr & _).
  destruct (has_column df "price_amount"); [|done].
  by destruct (proj2 Hr eq_refl) as [b ->].
Qed.

End First_pass.

Lemma initial_filters_unconstrained_witness :
  unconstrained missing_price_table all_filters
  ∧ (has_column missing_price_table "color" = true →
     color all_filters = Some [All]).
Proof.
  refine (initial_filters_unconstrained exact_library missing_price_table
            all_filters _ _).
  - unfold numeric_prices. simpl. by repeat constructor.
  - vm_compute. reflexivity.
Defined.

Lemma first_pass_rows_witness :
  apply_filters missing_price_table all_filters
  = Ok (restrict (λ r, ¬ price_missing r) missing_price_table).
Proof.
  refine (first_pass_rows exact_library missing_price_table all_filters _ _).
  - unfold numeric_prices. simpl. by repeat constructor.
  - vm_compute. reflexivity.
Defined.

Lemma all_missing_numeric df :
  Forall price_missing (rows df) → numeric_prices df.
Proof.
  unfold numeric_prices. intros Hmiss.
  eapply Forall_impl; [exact Hmiss|]. intros r Hr.
  unfold price_missing in Hr. by rewrite Hr.
Qed.

Section Failing_widgets.
Variable lib : library.
Variable selectbox : string → list cell → cell.
Variable multiselect : string → list cell → list cell → list cell.
Variable slider : string → Qc → Qc → Qc * Qc → Qc → Qc * Qc.

(** A select box is built unless its column mixes strings and numbers. *)
Lemma select_filter_cases df column label :
  (∃ o, (select_filter lib selectbox df column label).2 = Ok o)
  ∨ (has_column df column = true ∧ mixed_column df column
     ∧ (select_filter lib selectbox df column label).2
       = Raise (sort_error lib df column)).
Proof.
  rewrite select_filter_snd. destruct (has_column df column) eqn:Hc.
  - destruct (options_cases lib df column Hc) as [[opts ->]|[Hmix ->]];
      simpl; by eauto.
  - by eauto.
Qed.

Lemma select_filter_mixed df column label :
  has_column df column = true → mixed_column df column →
  (select_filter lib selectbox df column label).2
  = Raise (sort_error lib df column).
Proof.
  intros Hc Hmix. rewrite select_filter_snd, Hc.
  by rewrite (options_mixed _ _ _ Hc Hmix).
Qed.

Lemma color_entry_cases df :
  (∃ o, color_entry lib multiselect df = Ok o)
  ∨ (has_column df "color" = true ∧ mixed_column df "color"
     ∧ color_entry lib multiselect df = Raise (sort_error lib df "color")).
Proof.
  unfold color_entry. destruct (has_column df "color") eqn:Hc; [|by eauto].
  destruct (options_cases lib df "color" Hc) as [[opts ->]|[Hmix ->]];
    simpl; by eauto.
Qed.

(** X9. Over a cleaned table whose [price_amount] column holds fewer than
    two different prices (one price only, or none: every price missing),
    the slider rejects the bounds it is given, integers with a float step
    or two equal bounds, and [create_filters] raises its exception,
    whatever the user selects, once the select boxes before the slider are
    built. *)
Theorem create_filters_few_prices df :
  numeric_prices df →
  has_column df "price_amount" = true →
  ¬ two_prices df →
  (∀ c, c ∈ ["brand_name"; "category_main"; "category_sub"] →
        ¬ mixed_column df c) →
  ∃ b, price_bounds df = Ok b
    ∧ (Forall price_missing (rows df) → b = (PyInt 0, PyInt 1000))
    ∧ (create_filters lib selectbox multiselect slider df).2
      = Raise (StreamlitAPIException (slider_message lib b.1 b.2 price_step)).
Proof.
  intros Hnum Hc Hfew Hclean.
  destruct (price_bounds_few_prices df Hc Hnum Hfew) as (b & Hb & Hrej).
  exists b. split; [done|]. split.
  { intros Hmiss.
    destruct (price_bounds_cases df Hc Hnum)
      as [[_ Hb']|(lo & hi & r1 & _ & _ & _ & Hr1 & Hp1 & _)].
    - congruence.
    - rewrite Forall_forall in Hmiss. specialize (Hmiss r1 Hr1).
      unfold price_missing in Hmiss. congruence. }
  rewrite create_filters_snd.
  destruct (select_filter_cases df "brand_name" "Brand")
    as [[o1 ->]|(_ & Hmix & _)];
    [|exfalso; apply (Hclean "brand_name"); [|done];
      repeat first [apply list_elem_of_here | apply list_elem_of_further]].
  destruct (select_filter_cases df "category_main" "Main Category")
    as [[o2 ->]|(_ & Hmix & _)];
    [|exfalso; apply (Hclean "category_main"); [|done];
      repeat first [apply list_elem_of_here | apply list_elem_of_further]].
  destruct (select_filter_cases df "category_sub" "Sub Category")
    as [[o3 ->]|(_ & Hmix & _)];
    [|exfalso; apply (Hclean "category_sub"); [|done];
      repeat first [apply list_elem_of_here | apply list_elem_of_further]].
  cbn [mbind result_bind]. unfold price_range_entry.
  rewrite Hc, Hb. cbn [mbind result_bind]. by rewrite Hrej.
Qed.

Ltac raised c :=
  exists c; split;
  [unfold categorical_cols;
   repeat first [apply list_elem_of_here | apply list_elem_of_further]
  |split; [eassumption|split; [eassumption|reflexivity]]].

(** X10. Over a cleaned table whose price slider is built (no
    [price_amount] column, or two different prices), a categorical column
    that holds both text and numbers (numbers with "Unknown" in place of
    the missing ones, say) makes [create_filters] raise the [TypeError] of
    [sorted], whatever the user selects: the one that [sorted] raises on
    the distinct values of a column of the table that mixes text and
    numbers. *)
Theorem create_filters_mixed_column df column :
  numeric_prices df →
  column ∈ categorical_cols →
  has_column df column = true →
  mixed_column df column →
  (has_column df "price_amount" = true → two_prices df) →
  ∃ c, c ∈ categorical_cols ∧ has_column df c = true ∧ mixed_column df c
    ∧ (create_filters lib selectbox multiselect slider df).2
      = Raise (sort_error lib df c).
Proof.
  intros Hnum Hin Hc Hmix Hprices. rewrite create_filters_snd.
  assert (Hprice : ∃ o, price_range_entry lib slider df = Ok o).
  { unfold price_range_entry.
    destruct (has_column df "price_amount") eqn:Hp; [|by eauto].
    destruct (price_bounds_two_prices df Hp Hnum (Hprices eq_refl))
      as (lo & hi & -> & Hlt & _). simpl.
    rewrite slider_accepts_floats, bool_decide_eq_true_2 by done.
    by eauto. }
  destruct Hprice as [o4 H4].
  destruct (select_filter_cases df "brand_name" "Brand")
    as [[o1 H1]|(Hc' & Hm' & ->)]; [rewrite H1|by raised "brand_name"].
  destruct (select_filter_cases df "category_main" "Main Category")
    as [[o2 H2]|(Hc' & Hm' & ->)]; [rewrite H2|by raised "category_main"].
  destruct (select_filter_cases df "category_sub" "Sub Category")
    as [[o3 H3]|(Hc' & Hm' & ->)]; [rewrite H3|by raised "category_sub"].
  cbn [mbind result_bind]. rewrite H4.
  destruct (select_filter_cases df "price_point" "Price Point")
    as [[o5 H5]|(Hc' & Hm' & ->)]; [rewrite H5|by raised "price_point"].
  cbn [mbind result_bind].
  destruct (color_entry_cases df) as [[o6 H6]|(Hc' & Hm' & ->)];
    [rewrite H6|by raised "color"].
  destruct (select_filter_cases df "availability" "Availability")
    as [[o7 H7]|(Hc' & Hm' & ->)]; [rewrite H7|by raised "availability"].
  exfalso. unfold categorical_cols in Hin.
  repeat (apply elem_of_cons in Hin as [->|Hin]);
    [| | | | | |by apply elem_of_nil in Hin].
  - by rewrite (select_filter_mixed _ _ "Brand" Hc Hmix) in H1.
  - by rewrite (select_filter_mixed _ _ "Main Category" Hc Hmix) in H2.
  - by rewrite (select_filter_mixed _ _ "Sub Category" Hc Hmix) in H3.
  - unfold color_entry in H6.
    by rewrite Hc, (options_mixed _ _ _ Hc Hmix) in H6.
  - by rewrite (select_filter_mixed _ _ "Price Point" Hc Hmix) in H5.
  - by rewrite (select_filter_mixed _ _ "Availability" Hc Hmix) in H7.
Qed.

End Failing_widgets.

Lemma create_filters_few_prices_witness :
  ∃ msg, (initial_filters exact_library unpriced_table).2
         = Raise (StreamlitAPIException msg).
Proof.
  destruct (create_filters_few_prices exact_library initial_selectbox
              initial_multiselect initial_slider unpriced_table)
    as (b & _ & _ & Hraise).
  - apply all_missing_numeric. repeat constructor.
  - reflexivity.
  - intros (r1 & r2 & x & y & Hr1 & _ & Hx & _).
    vm_compute in Hr1.
    repeat (apply elem_of_cons in Hr1 as [->|Hr1]; [discriminate Hx|]).
    by apply elem_of_nil in Hr1.
  - intros c Hc [(r & Hr & Hs) _].
    apply list_elem_of_singleton in Hr as ->.
    repeat (apply elem_of_cons in Hc as [->|Hc]);
      [..|by apply elem_of_nil in Hc]; vm_compute in Hs; discriminate Hs.
  - eexists. exact Hraise.
Defined.

Lemma create_filters_mixed_column_witness :
  ∃ c, (initial_filters exact_library numeric_brand_table).2
       = Raise (sort_error exact_library numeric_brand_table c).
Proof.
  destruct (create_filters_mixed_column exact_library initial_selectbox
              initial_multiselect initial_slider numeric_brand_table
              "brand_name") as (c & _ & _ & _ & Hraise).
  - unfold numeric_prices. simpl. by repeat constructor.
  - apply list_elem_of_here.
  - reflexivity.
  - split.
    + exists {[ "brand_name" := Str "Unknown"; "price_amount" := num 20 ]}.
      split; [|reflexivity]. apply list_elem_of_further, list_elem_of_here.
    + exists {[ "brand_name" := num 7; "price_amount" := num 10 ]}.
      split; [|reflexivity]. apply list_elem_of_here.
  - intros _.
    exists {[ "brand_name" := num 7; "price_amount" := num 10 ]},
           {[ "brand_name" := Str "Unknown"; "price_amount" := num 20 ]},
           (Qc_of_Z 10), (Qc_of_Z 20).
    repeat split; try reflexivity.
    + apply list_elem_of_here.
    + apply list_elem_of_further, list_elem_of_here.
    + by intros [=].
  - exists c. exact Hraise.
Defined.

(** ** Loader/cleaner: what it keeps *)

Lemma lookup_fill_row present cols k (r : row) :
  fill_row present cols r !! k
  = if bool_decide (k ∈ cols) && present k
    then Some (fill_cell (at_col k r)) else r !! k.
Proof.
  unfold fill_row. revert r.
  induction cols as [|c0 cols IH]; intros r; simpl; [done|].
  rewrite IH. clear IH.
  destruct (decide (c0 = k)) as [->|Hne].
  - rewrite (bool_decide_eq_true_2 (k ∈ k :: cols)) by left. simpl.
    destruct (present k) eqn:Hp.
    + rewrite at_col_insert, decide_True by done.
      rewrite andb_true_r, fill_cell_idemp. case_bool_decide; [done|].
      by rewrite lookup_insert_eq.
    + by rewrite andb_false_r.
  - assert (at_col k (if present c0
                      then <[c0:=fill_cell (at_col c0 r)]> r else r)
            = at_col k r) as ->.
    { destruct (present c0); [|done].
      by rewrite at_col_insert, decide_False. }
    assert ((if present c0 then <[c0:=fill_cell (at_col c0 r)]> r else r) !! k
            = r !! k) as ->.
    { destruct (present c0); [|done]. by rewrite lookup_insert_ne. }
    rewrite (bool_decide_ext (k ∈ c0 :: cols) (k ∈ cols)); [done|].
    rewrite elem_of_cons. split; [by intros [->|?]|by right].
Qed.

Lemma lookup_clean_row parse present k (r : row) :
  clean_row parse present r !! k
  = if bool_decide (k ∈ categorical_cols) && present k
    then Some (fill_cell (at_col k r))
    else if bool_decide (k = "price_amount") && present k
         then Some (coerce parse (at_col k r)) else r !! k.
Proof.
  unfold clean_row. rewrite lookup_fill_row.
  destruct (decide (k ∈ categorical_cols)) as [Hk|Hk].
  - rewrite (bool_decide_eq_true_2 _ Hk). simpl.
    assert (Hne : k ≠ "price_amount")
      by (intros ->; by apply price_not_categorical).
    rewrite (bool_decide_eq_false_2 _ Hne). simpl.
    destruct (present k); simpl.
    + do 2 f_equal. destruct (present "price_amount"); [|done].
      by rewrite at_col_insert, decide_False.
    + destruct (present "price_amount"); [|done].
      by rewrite lookup_insert_ne.
  - rewrite (bool_decide_eq_false_2 _ Hk). simpl.
    destruct (decide (k = "price_amount")) as [->|Hne].
    + rewrite (bool_decide_eq_true_2 ("price_amount" = "price_amount")) by done.
      simpl. destruct (present "price_amount"); [|done].
      by rewrite lookup_insert_eq.
    + rewrite (bool_decide_eq_false_2 _ Hne). simpl.
      destruct (present "price_amount"); [|done].
      by rewrite lookup_insert_ne.
Qed.

Lemma coerce_idemp parse c : coerce parse (coerce parse c) = coerce parse c.
Proof. destruct c as [s|x|]; simpl; [|done..]. by destruct (parse s). Qed.

Lemma coerce_not_str parse c : is_str c = false → coerce parse c = c.
Proof. by destruct c. Qed.

Lemma fill_cell_not_na c : isna c = false → fill_cell c = c.
Proof. by destruct c. Qed.

Lemma col_dtype_set_dtype cols rs c d c' :
  col_dtype (mkDF (set_dtype c d cols) rs) c'
  = if decide (c = c') then Some d else col_dtype (mkDF cols rs) c'.
Proof.
  unfold col_dtype; simpl.
  induction cols as [|[c0 d0] cols IH]; simpl.
  - case_bool_decide; case_decide; by simplify_eq.
  - case_bool_decide as H0; simpl.
    + subst c0. case_bool_decide; case_decide; by simplify_eq.
    + case_bool_decide as H1; simpl.
      * subst c0. by rewrite decide_False by done.
      * exact IH.
Qed.

Lemma set_dtype_same cols rs c d :
  col_dtype (mkDF cols rs) c = Some d → set_dtype c d cols = cols.
Proof.
  unfold col_dtype; simpl.
  induction cols as [|[c0 d0] cols IH]; simpl; [done|].
  case_bool_decide as H0; simpl.
  - intros [= ->]. by subst.
  - intros H. by rewrite IH.
Qed.

Lemma col_dtype_setitem df c s c' :
  col_dtype (setitem df c s) c'
  = if decide (c = c') then Some (s_dtype s) else col_dtype df c'.
Proof.
  unfold setitem. rewrite col_dtype_set_dtype. case_decide; [done|].
  by destruct df.
Qed.

Lemma fill_missing_dtype cols df df' c :
  fill_missing cols df = Ok df' → c ∉ cols →
  col_dtype df' c = col_dtype df c.
Proof.
  revert df. induction cols as [|c0 cols IH]; intros df; simpl.
  - by intros [= <-].
  - intros H [Hne Hc]%not_elem_of_cons.
    apply bind_Ok in H as (df1 & H1 & H). rewrite (IH _ H Hc).
    destruct (has_column df c0); [|by injection H1 as <-].
    apply bind_Ok in H1 as (s & _ & [= <-]).
    by rewrite col_dtype_setitem, decide_False.
Qed.

(** A column already clean is written back as it is. *)
Lemma setitem_same df c d (g : cell → cell) :
  col_dtype df c = Some d →
  Forall (λ r : row, ∃ v, r !! c = Some v ∧ g v = v) (rows df) →
  setitem df c (mkSeries d (g <$> (at_col c <$> rows df))) = df.
Proof.
  intros Hd Hrows. destruct df as [cols rs]. unfold setitem; simpl in *.
  f_equal; [exact (set_dtype_same cols rs c d Hd)|]. clear Hd.
  rewrite <-list_fmap_compose, zip_with_fmap_r, zip_with_diag.
  induction Hrows as [|r rs' (v & Hv & Hg) _ IH]; [done|].
  rewrite fmap_cons, IH. f_equal. unfold compose, at_col. rewrite Hv. simpl.
  rewrite Hg. by apply insert_id.
Qed.

Lemma existsb_isna_clean (rs : list row) c :
  Forall (λ r : row, ∃ v, r !! c = Some v ∧ isna v = false) rs →
  existsb isna (at_col c <$> rs) = false.
Proof.
  induction 1 as [|r rs' (v & Hv & Hna) _ IH]; [done|].
  rewrite fmap_cons. simpl. unfold at_col at 1. rewrite Hv. simpl.
  by rewrite Hna, IH.
Qed.

Lemma fill_missing_cleaned cols df :
  (∀ c, c ∈ cols → has_column df c = true →
     Forall (λ r : row, ∃ v, r !! c = Some v ∧ isna v = false) (rows df)) →
  fill_missing cols df = Ok df.
Proof.
  induction cols as [|c cols IH]; intros Hclean; simpl; [done|].
  destruct (has_column df c) eqn:Hc.
  - destruct (getitem_has_column _ _ Hc) as [d Hd]. rewrite Hd. simpl.
    assert (Hdt : col_dtype df c = Some d).
    { unfold getitem in Hd. destruct (col_dtype df c); by simplify_eq. }
    pose proof (Hclean c (list_elem_of_here _ _) Hc) as Hrows.
    unfold fillna; simpl. rewrite (existsb_isna_clean _ _ Hrows).
    replace (match d with float64 => float64 | object => object end)
      with d by (by destruct d).
    rewrite (setitem_same df c d (λ c, if isna c then Str "Unknown" else c));
      [apply IH; intros c' ?; apply Hclean; by right|done|].
    eapply Forall_impl; [exact Hrows|]. intros r (v & Hv & Hna).
    exists v. by rewrite Hna.
  - simpl. apply IH. intros c' ?. apply Hclean. by right.
Qed.

Section Loader_more.
Context {upload : Type}.
Variable read_csv : upload → result DataFrame.
Variable parse_float : string → option Qc.

Lemma load_body_cleaned u raw df :
  read_csv u = Ok raw →
  load_body read_csv parse_float u = Ok df → cleaned df.
Proof.
  intros Hraw Hdf.
  destruct (load_body_spec read_csv parse_float u raw Hraw)
    as (df0 & Hdf0 & Hlab & Hrows).
  rewrite Hdf in Hdf0. injection Hdf0 as <-.
  split.
  - intros Hp. rewrite (has_column_labels _ _ _ Hlab) in Hp. split.
    + unfold load_body in Hdf. rewrite Hraw in Hdf.
      cbn -[fill_missing] in Hdf. rewrite Hp in Hdf.
      destruct (getitem_has_column _ _ Hp) as [d Hd]. rewrite Hd in Hdf.
      cbn -[fill_missing] in Hdf.
      rewrite (fill_missing_dtype _ _ _ _ Hdf price_not_categorical).
      by rewrite col_dtype_setitem, decide_True.
    + rewrite Hrows. apply Forall_fmap, Forall_forall. intros r _. simpl.
      rewrite lookup_clean_row, Hp.
      rewrite (bool_decide_eq_false_2 ("price_amount" ∈ categorical_cols))
        by apply price_not_categorical.
      simpl. eexists. split; [done|]. apply coerce_not_string.
  - intros c Hc Hp. rewrite (has_column_labels _ _ _ Hlab) in Hp.
    rewrite Hrows. apply Forall_fmap, Forall_forall. intros r _. simpl.
    rewrite lookup_clean_row, Hp, (bool_decide_eq_true_2 _ Hc). simpl.
    eexists. split; [done|]. apply fill_cell_not_missing.
Qed.

End Loader_more.

Lemma load_body_fixed {upload : Type} (read_csv : upload → result DataFrame)
    parse_float u df :
  cleaned df → read_csv u = Ok df →
  load_body read_csv parse_float u = Ok df.
Proof.
  intros [Hprice Hcat] Hu. unfold load_body. rewrite Hu.
  cbn -[fill_missing].
  destruct (has_column df "price_amount") eqn:Hp.
  - destruct (Hprice eq_refl) as [Hdt Hrows].
    rewrite (getitem_dtype _ _ _ Hdt). cbn -[fill_missing].
    unfold to_numeric; cbn -[fill_missing].
    rewrite (setitem_same df "price_amount" float64
               (λ c, match c with
                     | Str x => from_option Num NaN (parse_float x)
                     | _ => c
                     end));
      [by apply fill_missing_cleaned|done|].
    eapply Forall_impl; [exact Hrows|]. intros r (v & Hv & Hs).
    exists v. split; [done|]. by destruct v.
  - cbn -[fill_missing]. by apply fill_missing_cleaned.
Qed.

(** X11. Loading is idempotent: the table the loader returns for an upload
    is returned unchanged, labels, dtypes and rows, when it is itself what
    an upload parses to. *)
Theorem loader_idempotent {upload upload' : Type}
    (read_csv : upload → result DataFrame)
    (read_csv' : upload' → result DataFrame) parse_float u raw df u' :
  read_csv u = Ok raw →
  load_and_process_data read_csv parse_float u = ([], Ok (Some df)) →
  read_csv' u' = Ok df →
  load_and_process_data read_csv' parse_float u' = ([], Ok (Some df)).
Proof.
  intros Hraw Hload Hu'. unfold load_and_process_data in *.
  destruct (load_body read_csv parse_float u) as [df0|] eqn:Hdf; [|done].
  injection Hload as ->.
  by rewrite (load_body_fixed read_csv' parse_float u' df
                (load_body_cleaned _ _ _ _ _ Hraw Hdf) Hu').
Qed.

Section Loader_keeps.
Context {upload : Type}.
Variable read_csv : upload → result DataFrame.
Variable parse_float : string → option Qc.

(** X12. The loader keeps the rows in number and order, the column labels
    in order, and every entry of a column other than [price_amount] and
    the six categorical columns; in [price_amount], when present, a number
    or a missing entry stays, a string becomes the number it parses to, or
    missing. *)
Theorem loader_keeps_other_columns u raw :
  read_csv u = Ok raw →
  ∃ df,
    load_and_process_data read_csv parse_float u = ([], Ok (Some df))
    ∧ len df = len raw
    ∧ (columns df).*1 = (columns raw).*1
    ∧ Forall2 (λ (r0 r : row), ∀ c, c ≠ "price_amount" →
                 c ∉ categorical_cols → r !! c = r0 !! c)
        (rows raw) (rows df)
    ∧ (has_column raw "price_amount" = true →
       Forall2 (λ (r0 r : row),
                  at_col "price_amount" r
                  = match at_col "price_amount" r0 with
                    | Str s => from_option Num NaN (parse_float s)
                    | v => v
                    end) (rows raw) (rows df)).
Proof.
  intros Hraw.
  destruct (load_body_spec read_csv parse_float u raw Hraw)
    as (df & Hdf & Hlab & Hrows).
  exists df. unfold load_and_process_data. rewrite Hdf.
  split; [done|]. split; [by unfold len; rewrite Hrows, length_fmap|].
  split; [done|]. rewrite Hrows. split.
  - apply Forall2_fmap_r, Forall_Forall2_diag, Forall_forall.
    intros r _ c Hp Hc. rewrite lookup_clean_row.
    by rewrite (bool_decide_eq_false_2 (c ∈ categorical_cols)),
               (bool_decide_eq_false_2 (c = "price_amount")) by done.
  - intros Hp. apply Forall2_fmap_r, Forall_Forall2_diag, Forall_forall.
    intros r _. unfold compose. cbv beta.
    change (at_col "price_amount" (clean_row parse_float (has_column raw) r))
      with (default NaN
              (clean_row parse_float (has_column raw) r !! "price_amount")).
    rewrite lookup_clean_row, Hp.
    rewrite (bool_decide_eq_false_2 ("price_amount" ∈ categorical_cols))
      by apply price_not_categorical.
    rewrite (bool_decide_eq_true_2 ("price_amount" = "price_amount")) by done.
    simpl. by destruct (at_col "price_amount" r).
Qed.

End Loader_keeps.

Lemma loader_idempotent_witness :
  load_and_process_data (λ _ : unit, Ok missing_price_table) parse_twelve ()
  = ([], Ok (Some missing_price_table)).
Proof.
  refine (loader_idempotent (λ _ : unit, Ok missing_price_table)
            (λ _ : unit, Ok missing_price_table) parse_twelve ()
            missing_price_table missing_price_table () eq_refl _ eq_refl).
  vm_compute. reflexivity.
Defined.

Lemma loader_keeps_other_columns_witness :
  ∃ df,
    load_and_process_data (λ _ : unit, Ok raw_table) parse_twelve ()
    = ([], Ok (Some df))
    ∧ len df = 2
    ∧ at_col "name" <$> rows df = [Str "shirt"; Str "dress"].
Proof.
  destruct (loader_keeps_other_columns (λ _ : unit, Ok raw_table)
              parse_twelve () raw_table eq_refl)
    as (df & Hload & Hlen & _).
  exists df. split; [exact Hload|]. split; [exact Hlen|].
  injection Hload as <-. vm_compute. reflexivity.
Defined.

(** ** Scalar summary: bounds and failures *)

Lemma ui_bind_fst_elem {A B} (m : ui A) (k : A → ui B) e :
  e ∈ (x ← m; k x).1 → e ∈ m.1 ∨ ∃ a, m.2 = Ok a ∧ e ∈ (k a).1.
Proof.
  unfold mbind, ui_bind. destruct (m.2) as [a|]; simpl; [|by left].
  intros [?|?]%elem_of_app; [by left|right; by eauto].
Qed.

Lemma ui_bind_pair {A B} ev (a : A) (k : A → ui B) :
  (x ← (ev, Ok a); k x) = (ev ++ (k a).1, (k a).2).
Proof. done. Qed.

Lemma length_remove_dups `{EqDecision A} (l : list A) :
  length (remove_dups l) ≤ length l.
Proof.
  induction l as [|x l IH]; simpl; [done|]. case_decide; simpl; lia.
Qed.

Lemma nunique_le s : nunique s ≤ length (s_values s).
Proof.
  unfold nunique. etrans; [apply length_remove_dups|]. apply length_filter.
Qed.

Lemma length_select {A} (mask : list bool) (l : list A) :
  length (select mask l) ≤ length l.
Proof.
  revert l. induction mask as [|b mask IH]; intros [|x l]; simpl; try lia.
  specialize (IH l). destruct b; simpl; lia.
Qed.

(** X13. In the summary every count shown is at most the number of rows:
    "Total Products" is that number, and neither "Unique Brands" nor
    "In Stock" exceeds it. *)
Theorem summary_counts_bounded lib df label n :
  Metric label (MCount n) ∈ (create_overview_metrics lib df).1 →
  n ≤ len df ∧ (label = "Total Products" → n = len df).
Proof.
  unfold create_overview_metrics. intros H.
  apply ui_bind_fst_elem in H as [H|(_ & _ & H)].
  { apply list_elem_of_singleton in H as [= -> ->]. done. }
  apply ui_bind_fst_elem in H as [H|(_ & _ & H)].
  { destruct (has_column df "brand_name") eqn:Hb;
      [|by apply elem_of_nil in H].
    destruct (getitem_has_column _ _ Hb) as [d Hd]. rewrite Hd in H.
    cbn -[nunique] in H. apply list_elem_of_singleton in H as [= -> ->].
    split; [|done]. etrans; [apply nunique_le|].
    simpl. by rewrite length_fmap. }
  apply ui_bind_fst_elem in H as [H|(_ & _ & H)].
  { destruct (has_column df "price_amount"); [|by apply elem_of_nil in H].
    apply ui_bind_fst_elem in H as [H|(col & _ & H)];
      [by apply elem_of_nil in H|].
    apply ui_bind_fst_elem in H as [H|(avg & _ & H)];
      [by apply elem_of_nil in H|].
    apply list_elem_of_singleton in H. by destruct avg. }
  destruct (has_column df "availability"); [|by apply elem_of_nil in H].
  apply ui_bind_fst_elem in H as [H|(col & _ & H)];
    [by apply elem_of_nil in H|].
  apply ui_bind_fst_elem in H as [H|(mask & _ & H)];
    [by apply elem_of_nil in H|].
  apply list_elem_of_singleton in H as [= -> ->].
  split; [|done]. apply length_select.
Qed.

Lemma summary_counts_bounded_witness :
  1 ≤ len names_table ∧ ("In Stock" = "Total Products" → 1 = len names_table).
Proof.
  apply (summary_counts_bounded exact_library names_table "In Stock" 1).
  vm_compute. apply list_elem_of_further, list_elem_of_here.
Defined.

Lemma mean_numeric fm d l :
  Forall (λ c, is_str c = false) l → ∃ avg, mean fm (mkSeries d l) = Ok avg.
Proof.
  intros Hl. unfold mean; simpl.
  destruct (numbers_numeric _ Hl) as (xs & -> & _). by eauto.
Qed.

(** X14. Over a table whose [availability] column is a column of numbers
    (and whose prices, if any, are clean), the summary raises the
    [AttributeError] of the [.str] accessor, after it has shown the total. *)
Theorem summary_numeric_availability lib df :
  col_dtype df "availability" = Some float64 →
  (has_column df "price_amount" = true → numeric_prices df) →
  (create_overview_metrics lib df).2
  = Raise (AttributeError "Can only use .str accessor with string values!")
  ∧ Metric "Total Products" (MCount (len df))
    ∈ (create_overview_metrics lib df).1.
Proof.
  intros Hav Hnum.
  assert (Ha : has_column df "availability" = true)
    by (apply col_dtype_is_Some; eauto).
  unfold create_overview_metrics. rewrite Ha, (getitem_dtype _ _ _ Hav).
  destruct (has_column df "brand_name") eqn:Hb;
    [destruct (getitem_has_column _ _ Hb) as [d ->]|];
    (destruct (has_column df "price_amount") eqn:Hp;
     [destruct (getitem_has_column _ _ Hp) as [d' ->];
      destruct (mean_numeric (float_mean lib) d'
                  (at_col "price_amount" <$> rows df)) as [avg Havg];
      [by apply numeric_prices_values, Hnum|];
      cbn -[mean]; rewrite Havg|]);
    cbn; (split; [done|left]).
Qed.

Lemma summary_numeric_availability_witness :
  (create_overview_metrics exact_library numeric_availability_table).2
  = Raise (AttributeError "Can only use .str accessor with string values!").
Proof.
  refine (proj1 (summary_numeric_availability exact_library
                   numeric_availability_table eq_refl _)).
  intros H. discriminate H.
Defined.

(** X15. Over a table without rows (what the filters may leave) the summary
    shows a total of 0, 0 brands, "N/A" as mean price and 0 in stock, each
    for the columns the table has, and raises nothing when [availability]
    is a text column. *)
Theorem summary_of_no_rows lib df :
  rows df = [] →
  (has_column df "availability" = true →
   col_dtype df "availability" = Some object) →
  create_overview_metrics lib df
  = ([Metric "Total Products" (MCount 0)]
     ++ (if has_column df "brand_name"
         then [Metric "Unique Brands" (MCount 0)] else [])
     ++ (if has_column df "price_amount"
         then [Metric "Average Price" (MText "N/A")] else [])
     ++ (if has_column df "availability"
         then [Metric "In Stock" (MCount 0)] else []),
     Ok ()).
Proof.
  intros Hrows Havail. unfold create_overview_metrics, len. rewrite Hrows.
  destruct (has_column df "brand_name") eqn:Hb;
    [destruct (getitem_has_column _ _ Hb) as [d ->]|];
    (destruct (has_column df "price_amount") eqn:Hp;
     [destruct (getitem_has_column _ _ Hp) as [d' ->]|]);
    (destruct (has_column df "availability") eqn:Ha;
     [rewrite (getitem_dtype _ _ _ (Havail eq_refl))|]);
    rewrite ?Hrows; reflexivity.
Qed.

Lemma summary_of_no_rows_witness :
  create_overview_metrics exact_library
    (mkDF (columns missing_price_table) [])
  = ([Metric "Total Products" (MCount 0); Metric "Unique Brands" (MCount 0);
      Metric "Average Price" (MText "N/A"); Metric "In Stock" (MCount 0)],
     Ok ()).
Proof.
  refine (summary_of_no_rows exact_library
            (mkDF (columns missing_price_table) []) eq_refl _).
  intros _. reflexivity.
Defined.

(** ** Main application: an empty result *)

(** X16. When the filters leave no row, [main] does not draw the charts:
    its trace is the same whatever [create_visualizations] would do, and
    once the summary is shown it holds the warning that no data is
    available. *)
Theorem main_skips_charts_without_rows lib {upload : Type}
    (read_csv : upload → result DataFrame) parse_float
    selectbox multiselect slider create_data_table
    (u : upload) df ev filters filtered_df :
  load_and_process_data read_csv parse_float u = ([], Ok (Some df)) →
  create_filters lib selectbox multiselect slider df = (ev, Ok filters) →
  apply_filters df filters = Ok filtered_df →
  len filtered_df = 0 →
  (∀ charts charts',
     main lib read_csv parse_float selectbox multiselect slider charts
       create_data_table (Some u)
     = main lib read_csv parse_float selectbox multiselect slider charts'
         create_data_table (Some u))
  ∧ ((create_overview_metrics lib filtered_df).2 = Ok () →
     ∀ charts,
       StWarning "No data available with current filters. Please adjust your filters."
       ∈ (main lib read_csv parse_float selectbox multiselect slider charts
            create_data_table (Some u)).1).
Proof.
  intros Hload Hf Happly Hlen.
  assert (Hnorm : ∀ charts,
    main lib read_csv parse_float selectbox multiselect slider charts
      create_data_table (Some u)
    = ([Markdown "<h1>👗 Fashion Product Analytics Dashboard</h1>";
        StSuccess ("Successfully loaded " ++ pretty (len df)
                   ++ " products!")%string]
       ++ ev
       ++ ((if bool_decide (0 ≠ len df) then
              emit (StInfo ("Showing " ++ pretty 0
                            ++ " products after applying filters")%string)
            else mret ());;
           emit (StHeader "📈 Overview");;
           create_overview_metrics lib filtered_df;;
           emit (StHeader "📊 Analytics");;
           emit (StWarning "No data available with current filters. Please adjust your filters.");;
           create_data_table filtered_df).1,
       ((if bool_decide (0 ≠ len df) then
           emit (StInfo ("Showing " ++ pretty 0
                         ++ " products after applying filters")%string)
         else mret ());;
        emit (StHeader "📈 Overview");;
        create_overview_metrics lib filtered_df;;
        emit (StHeader "📊 Analytics");;
        emit (StWarning "No data available with current filters. Please adjust your filters.");;
        create_data_table filtered_df).2)).
  { intros charts. unfold main.
    change (emit (Markdown "<h1>👗 Fashion Product Analytics Dashboard</h1>"))
      with ([Markdown "<h1>👗 Fashion Product Analytics Dashboard</h1>"],
            Ok ()).
    rewrite ui_bind_pair, Hload, ui_bind_pair. cbv beta iota.
    change (emit (StSuccess ("Successfully loaded " ++ pretty (len df)
                             ++ " products!")%string))
      with ([StSuccess ("Successfully loaded " ++ pretty (len df)
                        ++ " products!")%string], Ok ()).
    rewrite ui_bind_pair, Hf, ui_bind_pair. unfold lift.
    rewrite Happly, ui_bind_pair, Hlen.
    rewrite (bool_decide_eq_false_2 (0 < 0)) by lia.
    reflexivity. }
  split; [intros charts charts'; by rewrite !Hnorm|].
  intros Hsum charts. rewrite Hnorm.
  destruct (create_overview_metrics lib filtered_df) as [evs [[]|]] eqn:Hs;
    [|done].
  cbn [fst]. rewrite !elem_of_app. do 2 right.
  destruct (bool_decide (0 ≠ len df)); cbn;
    repeat (rewrite elem_of_app || rewrite elem_of_cons); tauto.
Qed.

Lemma main_skips_charts_without_rows_witness :
  main exact_library (λ _ : unit, Ok scenario_table) parse_twelve
    (λ _ _, Str "C") initial_multiselect initial_slider
    (λ _, emit (StSubheader "charts")) (λ _, emit (StSubheader "table"))
    (Some ())
  = main exact_library (λ _ : unit, Ok scenario_table) parse_twelve
      (λ _ _, Str "C") initial_multiselect initial_slider
      (λ _, mret ()) (λ _, emit (StSubheader "table")) (Some ()).
Proof.
  refine (proj1 (main_skips_charts_without_rows exact_library
                   (λ _ : unit, Ok scenario_table) parse_twelve
                   (λ _ _, Str "C") initial_multiselect initial_slider
                   (λ _, emit (StSubheader "table")) () scenario_table
                   [SidebarHeader "🔍 Filters"; Widget "Brand";
                    Widget "Price Range ($)"]
                   brand_c_filters (mkDF (columns scenario_table) [])
                   _ _ _ eq_refl) _ _);
    vm_compute; reflexivity.
Defined.

(** ** Frequency tables *)

Global Instance by_count_total : Total by_count.
Proof. intros p q. unfold by_count. lia. Qed.

Global Instance by_count_trans : Transitive by_count.
Proof. intros p q r. unfold by_count. lia. Qed.

Lemma unique_NoDup s : NoDup (unique s).
Proof.
  unfold unique. rewrite reverse_Permutation. apply NoDup_remove_dups.
Qed.

Lemma length_filter_fmap {A B} (f : A → B) (P : B → Prop)
    `{!∀ y, Decision (P y)} (l : list A) :
  length (filter P (f <$> l)) = length (filter (λ x, P (f x)) l).
Proof.
  induction l as [|x l IH]; [done|].
  rewrite fmap_cons, !filter_cons. case_decide; simpl; by rewrite IH.
Qed.

Lemma isna_false c : isna c = false ↔ c ≠ NaN.
Proof. destruct c; simpl; split; intros ?; congruence. Qed.

Section Group_sizes.
Context {A : Type}.

(** Counting the groups of the present keys counts the entries whose key
    is not missing. *)
Lemma sum_group_sizes_present (f : A → cell) (ks : list cell) (l : list A) :
  NoDup ks → (∀ k, k ∈ ks → k ≠ NaN) →
  (∀ x, x ∈ l → f x ≠ NaN → f x ∈ ks) →
  sum_list ((λ k, length (filter (λ x, f x = k) l)) <$> ks)
  = length (filter (λ x, f x ≠ NaN) l).
Proof.
  intros Hnd Hks Hl.
  rewrite <-(sum_group_sizes f ks (filter (λ x, f x ≠ NaN) l)); [|done|].
  - f_equal. apply list_fmap_ext. intros i k Hk%list_elem_of_lookup_2.
    f_equal. rewrite list_filter_filter. apply list_filter_iff.
    intros x. split; [|tauto]. intros Hx. split; [done|]. rewrite Hx.
    by apply Hks.
  - intros x [Hx Hin]%list_elem_of_filter. by apply Hl.
Qed.
End Group_sizes.

Lemma elem_of_filter_eq_pos (v : cell) (l : list cell) :
  v ∈ l ↔ 0 < length (filter (λ c, c = v) l).
Proof.
  induction l as [|c l IH].
  - split; [by intros ?%elem_of_nil | simpl; lia].
  - rewrite filter_cons, elem_of_cons. case_decide; simpl.
    + split; [lia | by left; subst].
    + rewrite <-IH. split; [by intros [->|?] | by right].
Qed.

(** What [value_counts] holds. *)
Lemma value_counts_spec s :
  NoDup (value_counts s).*1
  ∧ (∀ v n, (v, n) ∈ value_counts s
       ↔ v ≠ NaN ∧ 0 < n ∧ n = length (filter (λ c, c = v) (s_values s)))
  ∧ StronglySorted by_count (value_counts s)
  ∧ sum_list (value_counts s).*2
    = length (filter (λ c, c ≠ NaN) (s_values s)).
Proof.
  unfold value_counts. cbv zeta.
  set (present := filter (λ c, isna c = false) (s_values s)).
  set (cnt := λ v : cell, length (filter (λ c, c = v) present)).
  assert (Hcnt : ∀ v, v ≠ NaN →
            cnt v = length (filter (λ c, c = v) (s_values s))).
  { intros v Hv. unfold cnt, present. rewrite list_filter_filter.
    f_equal. apply list_filter_iff. intros c. split; [tauto|].
    intros ->. split; [done|]. by apply isna_false. }
  assert (Hin : ∀ v, v ∈ present ↔ v ≠ NaN ∧ v ∈ s_values s).
  { intros v. unfold present. rewrite list_elem_of_filter.
    rewrite isna_false. tauto. }
  assert (Hpos : ∀ v, v ∈ s_values s ↔
            0 < length (filter (λ c, c = v) (s_values s))).
  { intros v. apply elem_of_filter_eq_pos. }
  split; [|split; [|split]].
  - rewrite merge_sort_Permutation, <-list_fmap_compose.
    rewrite (list_fmap_ext _ id) by done. rewrite list_fmap_id.
    apply unique_NoDup.
  - intros v n. rewrite merge_sort_Permutation, list_elem_of_fmap.
    split.
    + intros (v' & [= -> ->] & Hv'). apply list_elem_of_unique in Hv'.
      simpl in Hv'. apply Hin in Hv' as [Hna Hv'].
      fold (cnt v'). rewrite Hcnt by done. split; [done|].
      split; [by apply Hpos | done].
    + intros (Hna & Hn & ->). exists v. fold (cnt v).
      rewrite Hcnt by done. split; [done|].
      apply list_elem_of_unique. simpl. apply Hin. split; [done|].
      by apply Hpos.
  - apply (StronglySorted_merge_sort _).
  - rewrite merge_sort_Permutation, <-list_fmap_compose.
    rewrite (list_fmap_ext _ cnt) by done.
    transitivity (length (filter (λ c : cell, c ≠ NaN) present)).
    + apply (sum_group_sizes_present id).
      * apply unique_NoDup.
      * intros k Hk%list_elem_of_unique. simpl in Hk. by apply Hin in Hk as [? _].
      * intros x Hx _. by apply list_elem_of_unique.
    + unfold present. rewrite list_filter_filter. f_equal.
      apply list_filter_iff. intros c.
      rewrite isna_false. tauto.
Qed.

(** The frequency table of a column of a frame. *)
Lemma value_counts_frequency_table df column d :
  frequency_table column df
    (value_counts (mkSeries d (at_col column <$> rows df))).
Proof.
  destruct (value_counts_spec (mkSeries d (at_col column <$> rows df)))
    as (Hnd & Hin & Hsorted & Hsum). simpl in Hin, Hsum.
  unfold frequency_table, occurrences. split; [done|].
  split; [|split; [done|]].
  - intros v n. rewrite Hin. by rewrite length_filter_fmap.
  - by rewrite Hsum, length_filter_fmap.
Qed.

(** The first ten entries of a frequency table. *)
Lemma take_frequency_table column df l :
  frequency_table column df l → top_ten column df (take 10 l).
Proof.
  intros (Hnd & Hin & Hsorted & _). unfold top_ten.
  assert (Hsub : take 10 l ⊆ l) by apply subseteq_take.
  split; [rewrite length_take; lia|].
  split; [|split; [|split]].
  - rewrite fmap_take. eapply sublist_NoDup; [exact Hnd|apply sublist_take].
  - intros v n Hv. apply Hin. by apply Hsub.
  - rewrite <-(take_drop 10 l) in Hsorted.
    by apply StronglySorted_app_1_l in Hsorted.
  - intros v Hna Hocc Hout.
    assert (Hl : (v, occurrences column v df) ∈ l) by (by apply Hin).
    rewrite <-(take_drop 10 l) in Hl. apply elem_of_app in Hl as [Hl|Hl].
    { exfalso. apply Hout. apply list_elem_of_fmap. by exists (v, occurrences column v df). }
    split.
    + rewrite length_take. destruct (decide (10 ≤ length l)); [lia|].
      rewrite drop_ge in Hl by lia. by apply elem_of_nil in Hl.
    + intros p Hp. rewrite <-(take_drop 10 l) in Hsorted.
      by apply (StronglySorted_app_1_elem_of _ _ _ _ _ Hsorted Hp Hl).
Qed.

Lemma forallb_fmap {A B} (f : B → bool) (g : A → B) (l : list A) :
  forallb f (g <$> l) = forallb (λ x, f (g x)) l.
Proof. induction l as [|x l IH]; [done|]. csimpl. by rewrite IH. Qed.

(** X17. The frequency tables of the category, availability and price
    point charts: each is shown exactly under the guard of its chart and
    never raises; it has one entry for each value of the column that is
    not missing, with the number of rows holding it, counts decreasing,
    and the counts add up to the number of rows whose value is present. *)
Theorem frequency_views :
  shown_when (λ df, has_column df "category_main")
    category_counts (frequency_table "category_main")
  ∧ shown_when (λ df, has_column df "availability")
      availability_counts (frequency_table "availability")
  ∧ shown_when
      (λ df, has_column df "price_amount"
             && negb (forallb (λ r, isna (at_col "price_amount" r)) (rows df))
             && has_column df "price_point")
      price_point_counts (frequency_table "price_point").
Proof.
  split; [|split]; intros df.
  - unfold category_counts.
    destruct (has_column df "category_main") eqn:Hc; [|done].
    destruct (getitem_has_column _ _ Hc) as [d ->]. simpl.
    eexists. split; [done|]. apply value_counts_frequency_table.
  - unfold availability_counts.
    destruct (has_column df "availability") eqn:Hc; [|done].
    destruct (getitem_has_column _ _ Hc) as [d ->]. simpl.
    eexists. split; [done|]. apply value_counts_frequency_table.
  - unfold price_point_counts.
    destruct (has_column df "price_amount") eqn:Hp; [|done].
    destruct (getitem_has_column _ _ Hp) as [d ->]. simpl.
    unfold isna_all; simpl. rewrite forallb_fmap.
    destruct (forallb _ (rows df)); [done|]. simpl.
    destruct (has_column df "price_point") eqn:Hc; [|done].
    destruct (getitem_has_column _ _ Hc) as [d' ->]. simpl.
    eexists. split; [done|]. apply value_counts_frequency_table.
Qed.

(** X18. The top-ten tables of the brand, colour and sub-category charts:
    each is shown exactly under the guard of its chart and never raises;
    it holds at most ten values, each with the number of rows holding it,
    counts decreasing, and a value of the column that is left out occurs
    no more often than any value shown. *)
Theorem top_ten_views :
  shown_when (λ df, has_column df "brand_name")
    brand_counts (top_ten "brand_name")
  ∧ shown_when (λ df, has_column df "color")
      color_counts (top_ten "color")
  ∧ shown_when
      (λ df, has_column df "category_main" && has_column df "category_sub")
      sub_category_counts (top_ten "category_sub").
Proof.
  split; [|split]; intros df.
  - unfold brand_counts.
    destruct (has_column df "brand_name") eqn:Hc; [|done].
    destruct (getitem_has_column _ _ Hc) as [d ->]. simpl.
    eexists. split; [done|].
    apply take_frequency_table, value_counts_frequency_table.
  - unfold color_counts.
    destruct (has_column df "color") eqn:Hc; [|done].
    destruct (getitem_has_column _ _ Hc) as [d ->]. simpl.
    eexists. split; [done|].
    apply take_frequency_table, value_counts_frequency_table.
  - unfold sub_category_counts.
    destruct (has_column df "category_main"); [|done]. simpl.
    destruct (has_column df "category_sub") eqn:Hc; [|done].
    destruct (getitem_has_column _ _ Hc) as [d ->]. simpl.
    eexists. split; [done|].
    apply take_frequency_table, value_counts_frequency_table.
Qed.

Lemma frequency_views_witness :
  ∃ l, category_counts category_table = Ok (Some l)
    ∧ frequency_table "category_main" category_table l
    ∧ l = [(Str "Tops", 3); (Str "Shoes", 1)].
Proof.
  destruct frequency_views as [Hview _].
  destruct (Hview category_table) as (l & Hl & Htable).
  exists l. split; [exact Hl|]. split; [exact Htable|].
  injection Hl as <-. vm_compute. reflexivity.
Defined.

Lemma top_ten_views_witness :
  ∃ l, brand_counts scenario_table = Ok (Some l)
    ∧ top_ten "brand_name" scenario_table l
    ∧ l = [(Str "A", 2); (Str "B", 1)].
Proof.
  destruct top_ten_views as [Hview _].
  destruct (Hview scenario_table) as (l & Hl & Htable).
  exists l. split; [exact Hl|]. split; [exact Htable|].
  injection Hl as <-. vm_compute. reflexivity.
Defined.

(** ** Grouped means *)

Global Instance by_mean_total : Total by_mean.
Proof.
  intros [k1 [s1|x1|]] [k2 [s2|x2|]]; unfold by_mean; simpl; try tauto.
  destruct (Qclt_le_dec x1 x2) as [?%Qclt_le_weak|?]; tauto.
Qed.

Global Instance by_mean_trans : Transitive by_mean.
Proof.
  intros [k1 [s1|x1|]] [k2 [s2|x2|]] [k3 [s3|x3|]]; unfold by_mean; simpl;
    try tauto.
  intros ??. by eapply Qcle_trans.
Qed.

Lemma mapM_Ok {A B} (f : A → result B) (g : A → B) (l : list A) :
  (∀ x, x ∈ l → f x = Ok (g x)) → mapM f l = Ok (g <$> l).
Proof.
  induction l as [|x l IH]; intros Hl; [done|].
  cbn [mapM]. rewrite Hl by left. simpl.
  rewrite IH by (intros ??; apply Hl; by right). done.
Qed.

(** The rows selected by an equality mask on a column. *)
Lemma getitem_mask_series_eq df column d v :
  v ≠ NaN →
  getitem_mask df (series_eq (mkSeries d (at_col column <$> rows df)) v)
  = restrict (λ r, at_col column r = v) df.
Proof.
  intros Hv. unfold getitem_mask, series_eq, restrict; simpl. f_equal.
  rewrite select_fmap_fmap. apply list_filter_iff. intros r.
  unfold cell_eq. destruct (at_col column r) eqn:Hr; simpl;
    rewrite ?bool_decide_eq_true; split; congruence.
Qed.

Lemma mean_dtype fm d d' l :
  mean fm (mkSeries d l) = mean fm (mkSeries d' l).
Proof. done. Qed.

Lemma occurrences_pos column v df :
  0 < occurrences column v df ↔ v ∈ at_col column <$> rows df.
Proof.
  unfold occurrences.
  by rewrite elem_of_filter_eq_pos, length_filter_fmap.
Qed.

(** What [groupby(key)['price_amount'].mean()] holds on clean prices. *)
Lemma groupby_mean_price lib df key :
  has_column df key = true →
  has_column df "price_amount" = true →
  numeric_prices df →
  ∃ l, groupby_mean lib df key "price_amount" = Ok l
    ∧ NoDup l.*1
    ∧ ∀ v avg, (v, avg) ∈ l
        ↔ v ≠ NaN ∧ 0 < occurrences key v df
          ∧ group_mean lib key v df = Ok avg.
Proof.
  intros Hk Hp Hnum.
  assert (Havg : ∀ v, ∃ avg, group_mean lib key v df = Ok avg).
  { intros v. apply mean_numeric. apply Forall_fmap.
    exact (numeric_prices_restrict (λ r, at_col key r = v) df Hnum). }
  set (avg_of := λ v, match group_mean lib key v df with
                      | Ok avg => avg | Raise _ => NaN end).
  assert (Hof : ∀ v, group_mean lib key v df = Ok (avg_of v)).
  { intros v. unfold avg_of. by destruct (Havg v) as [avg ->]. }
  set (keys := merge_sort label_le
     (remove_dups (filter (λ c, isna c = false) (at_col key <$> rows df)))).
  assert (Hkeys : ∀ v, v ∈ keys ↔ v ≠ NaN ∧ 0 < occurrences key v df).
  { intros v. unfold keys.
    rewrite merge_sort_Permutation, elem_of_remove_dups.
    rewrite list_elem_of_filter, isna_false, occurrences_pos. done. }
  exists ((λ v, (v, avg_of v)) <$> keys). split; [|split].
  - unfold groupby_mean.
    destruct (getitem_has_column _ _ Hk) as [d ->].
    destruct (getitem_has_column _ _ Hp) as [d' ->]. simpl.
    apply mapM_Ok. intros v [Hv _]%Hkeys.
    rewrite getitem_mask_series_eq by done.
    destruct (getitem_has_column (restrict (λ r, at_col key r = v) df)
                "price_amount" Hp) as [d'' ->]. simpl.
    change (rows (restrict (λ r, at_col key r = v) df))
      with (filter (λ r, at_col key r = v) (rows df)).
    rewrite (mean_dtype _ d'' float64). fold (group_mean lib key v df).
    by rewrite Hof.
  - rewrite <-list_fmap_compose, (list_fmap_ext _ id) by done.
    rewrite list_fmap_id. unfold keys. rewrite merge_sort_Permutation.
    apply NoDup_remove_dups.
  - intros v avg. rewrite list_elem_of_fmap. split.
    + intros (v' & [= -> ->] & Hv'). apply Hkeys in Hv' as [??].
      by rewrite Hof.
    + intros (Hv & Hocc & Hm). exists v. rewrite Hof in Hm.
      injection Hm as <-. split; [done|]. by apply Hkeys.
Qed.

(** The first ten entries after [sort_values(ascending=False)]. *)
Lemma take_sorted_means lib column df l :
  NoDup l.*1 →
  (∀ v avg, (v, avg) ∈ l
     ↔ v ≠ NaN ∧ 0 < occurrences column v df
       ∧ group_mean lib column v df = Ok avg) →
  top_ten_means lib column df (take 10 (merge_sort by_mean l)).
Proof.
  intros Hnd Hin. set (sl := merge_sort by_mean l).
  assert (Hsorted : StronglySorted by_mean sl)
    by apply (StronglySorted_merge_sort _).
  assert (Hperm : sl ≡ₚ l) by apply merge_sort_Permutation.
  assert (Hsub : take 10 sl ⊆ sl) by apply subseteq_take.
  unfold top_ten_means.
  split; [rewrite length_take; lia|].
  split; [|split; [|split]].
  - rewrite fmap_take. eapply sublist_NoDup; [|apply sublist_take].
    by rewrite Hperm.
  - intros v avg Hv%Hsub. rewrite Hperm in Hv. by apply Hin.
  - rewrite <-(take_drop 10 sl) in Hsorted.
    by apply StronglySorted_app_1_l in Hsorted.
  - intros v avg Hna Hocc Hout Hm.
    assert (Hl : (v, avg) ∈ sl) by (rewrite Hperm; by apply Hin).
    rewrite <-(take_drop 10 sl) in Hl. apply elem_of_app in Hl as [Hl|Hl].
    { exfalso. apply Hout. apply list_elem_of_fmap. by exists (v, avg). }
    split.
    + rewrite length_take. destruct (decide (10 ≤ length sl)); [lia|].
      rewrite drop_ge in Hl by lia. by apply elem_of_nil in Hl.
    + intros p Hp. rewrite <-(take_drop 10 sl) in Hsorted.
      by apply (StronglySorted_app_1_elem_of _ _ _ _ _ Hsorted Hp Hl).
Qed.

(** X19. The average-price tables of the brand and colour charts, over
    clean prices, whatever the float64 arithmetic of the library's mean of
    a group: each is shown exactly under the guard of its chart and does
    not raise; it holds at most ten values of the column, each with the
    mean that the library computes from the prices of its rows, the means
    so computed decreasing with missing means last, and a value that is
    left out has no higher computed mean than a value shown. *)
Theorem top_ten_mean_views lib df :
  numeric_prices df →
  (if has_column df "brand_name" && has_column df "price_amount"
   then ∃ l, brand_avg_price lib df = Ok (Some l)
             ∧ top_ten_means lib "brand_name" df l
   else brand_avg_price lib df = Ok None)
  ∧ (if has_column df "color" && has_column df "price_amount"
     then ∃ l, color_price lib df = Ok (Some l)
               ∧ top_ten_means lib "color" df l
     else color_price lib df = Ok None).
Proof.
  intros Hnum. split.
  - unfold brand_avg_price.
    destruct (has_column df "brand_name") eqn:Hc; [|done].
    destruct (has_column df "price_amount") eqn:Hp; [|done]. simpl.
    destruct (groupby_mean_price lib df "brand_name" Hc Hp Hnum)
      as (l & -> & Hnd & Hin). simpl.
    eexists. split; [done|]. by apply take_sorted_means.
  - unfold color_price.
    destruct (has_column df "color") eqn:Hc; [|done].
    destruct (has_column df "price_amount") eqn:Hp; [|done]. simpl.
    destruct (groupby_mean_price lib df "color" Hc Hp Hnum)
      as (l & -> & Hnd & Hin). simpl.
    eexists. split; [done|]. by apply take_sorted_means.
Qed.

Lemma scenario_table_numeric : numeric_prices scenario_table.
Proof. unfold numeric_prices, scenario_table; simpl. by repeat constructor. Qed.

Lemma top_ten_mean_views_witness :
  numeric_prices scenario_table
  ∧ ∃ l, brand_avg_price exact_library scenario_table = Ok (Some l)
      ∧ top_ten_means exact_library "brand_name" scenario_table l
      ∧ l.*1 = [Str "B"; Str "A"]
      ∧ color_price exact_library scenario_table = Ok None.
Proof.
  split; [exact scenario_table_numeric|].
  destruct (top_ten_mean_views exact_library scenario_table
              scenario_table_numeric)
    as [(l & Hl & Htop) Hcolor].
  exists l. split; [exact Hl|]. split; [exact Htop|].
  split; [|exact Hcolor]. injection Hl as <-. vm_compute. reflexivity.
Defined.

(** ** Roll-ups over category and price point *)

Lemma collect_Ok {A B} (body : A → result (list B)) (h : A → list B) l :
  (∀ x, x ∈ l → body x = Ok (h x)) → collect body l = Ok (mjoin (h <$> l)).
Proof.
  induction l as [|x l IH]; intros Hl; [done|].
  cbn [collect]. rewrite Hl by left. simpl.
  rewrite IH by (intros ??; apply Hl; by right). done.
Qed.

Lemma join_present {B} (k : cell → list B) (l : list cell) :
  mjoin ((λ c, if negb (isna c) then k c else []) <$> l)
  = mjoin (k <$> filter (λ c, c ≠ NaN) l).
Proof.
  induction l as [|c l IH]; [done|].
  rewrite fmap_cons, filter_cons.
  destruct c; case_decide; try done; csimpl; by rewrite IH.
Qed.

Lemma join_singletons {A B} (g : A → B) (l : list A) :
  mjoin ((λ x, [g x]) <$> l) = g <$> l.
Proof. induction l as [|x l IH]; [done|]. csimpl. by rewrite IH. Qed.

Lemma fmap_join {A B} (f : A → B) (ls : list (list A)) :
  f <$> mjoin ls = mjoin (fmap f <$> ls).
Proof.
  induction ls as [|l ls IH]; [done|]. csimpl. by rewrite fmap_app, IH.
Qed.

Lemma sum_list_join (ls : list (list nat)) :
  sum_list (mjoin ls) = sum_list (sum_list <$> ls).
Proof.
  induction ls as [|l ls IH]; [done|]. csimpl.
  by rewrite sum_list_with_app, IH.
Qed.

Lemma unique_dtype d d' l : unique (mkSeries d l) = unique (mkSeries d' l).
Proof. done. Qed.

Lemma distinct_present_spec column df :
  NoDup (distinct_present column df)
  ∧ ∀ v, v ∈ distinct_present column df
       ↔ v ≠ NaN ∧ 0 < occurrences column v df.
Proof.
  unfold distinct_present. split.
  - apply NoDup_filter, unique_NoDup.
  - intros v. rewrite list_elem_of_filter, list_elem_of_unique. simpl.
    by rewrite occurrences_pos.
Qed.

(** What the loop nest collects when each item is computed. *)
Lemma for_category_price_point_Ok {B} df
    (item : cell → cell → DataFrame → result B)
    (close : cell → DataFrame → list B) (g : cell → cell → B) :
  has_column df "category_main" = true →
  has_column df "price_point" = true →
  (∀ c p, c ≠ NaN → p ≠ NaN → item c p (category_data df c) = Ok (g c p)) →
  for_category_price_point df item close
  = Ok (mjoin ((λ c, (g c <$> distinct_present "price_point"
                                (category_data df c))
                     ++ close c (category_data df c))
                 <$> distinct_present "category_main" df)).
Proof.
  intros Hc Hp Hitem. unfold for_category_price_point.
  destruct (getitem_has_column _ _ Hc) as [d Hget]. rewrite Hget. simpl.
  rewrite (unique_dtype d object). unfold distinct_present at 2.
  rewrite <-join_present. apply collect_Ok. intros c _.
  destruct (decide (c = NaN)) as [->|Hna]; [done|].
  replace (negb (isna c)) with true by (by destruct c).
  rewrite getitem_mask_series_eq by done. fold (category_data df c).
  destruct (getitem_has_column (category_data df c) "price_point" Hp)
    as [d' ->]. simpl.
  rewrite (unique_dtype d' object).
  rewrite (collect_Ok _ (λ p, if negb (isna p) then [g c p] else [])).
  - simpl. do 2 f_equal. unfold distinct_present.
    by rewrite join_present, join_singletons.
  - intros p _. destruct p; simpl; [| |done]; by rewrite Hitem.
Qed.

(** Without closing items, one item for each visited pair. *)
Lemma for_category_price_point_pairs {B} df
    (item : cell → cell → DataFrame → result B) (g : cell → cell → B) :
  has_column df "category_main" = true →
  has_column df "price_point" = true →
  (∀ c p, c ≠ NaN → p ≠ NaN → item c p (category_data df c) = Ok (g c p)) →
  for_category_price_point df item (λ _ _, [])
  = Ok ((λ cp, g cp.1 cp.2) <$> present_pairs df).
Proof.
  intros Hc Hp Hitem.
  rewrite (for_category_price_point_Ok df item _ g) by done. f_equal.
  unfold present_pairs. rewrite fmap_join, <-list_fmap_compose.
  f_equal. apply list_fmap_ext. intros _ c _. simpl.
  by rewrite app_nil_r, <-list_fmap_compose.
Qed.

Lemma count_price_point_category df c p :
  has_column df "price_point" = true → p ≠ NaN →
  count_price_point (category_data df c) p = Ok (pair_count c p df).
Proof.
  intros Hp Hna. unfold count_price_point.
  destruct (getitem_has_column (category_data df c) "price_point" Hp)
    as [d ->]. simpl.
  rewrite getitem_mask_series_eq by done. f_equal.
  unfold len, pair_count, category_data, restrict; simpl.
  rewrite list_filter_filter. f_equal. apply list_filter_iff.
  intros r. tauto.
Qed.

Lemma pair_count_pos c p df :
  0 < pair_count c p df
  ↔ 0 < occurrences "category_main" c df
    ∧ 0 < occurrences "price_point" p (category_data df c).
Proof.
  unfold pair_count, occurrences, category_data, restrict; simpl.
  rewrite list_filter_filter.
  rewrite (list_filter_iff
             (λ r, at_col "price_point" r = p ∧ at_col "category_main" r = c)
             (λ r, at_col "category_main" r = c ∧ at_col "price_point" r = p))
    by (intros r; tauto).
  split; [|tauto]. intros H. split; [|done].
  eapply Nat.lt_le_trans; [exact H|]. clear.
  induction (rows df) as [|r l IH]; [done|].
  rewrite !filter_cons. repeat case_decide; simpl; try lia; tauto.
Qed.

Lemma present_pairs_spec df :
  NoDup (present_pairs df)
  ∧ ∀ c p, (c, p) ∈ present_pairs df
      ↔ c ≠ NaN ∧ p ≠ NaN ∧ 0 < pair_count c p df.
Proof.
  unfold present_pairs.
  destruct (distinct_present_spec "category_main" df) as [Hnd Hin].
  split.
  - clear Hin.
    induction Hnd as [|c cs Hc Hnd IH]; csimpl; [constructor|].
    apply NoDup_app. split; [|split; [|done]].
    + apply (NoDup_fmap_2 _).
      apply (distinct_present_spec "price_point" (category_data df c)).
    + intros [c' p] [p' [[= -> ->] _]]%list_elem_of_fmap.
      intros (l & Hl & Hin)%list_elem_of_join.
      apply list_elem_of_fmap in Hin as (c'' & -> & Hc'').
      apply list_elem_of_fmap in Hl as (p'' & [= -> ->] & _). done.
  - intros c p. rewrite list_elem_of_join. split.
    + intros (l & Hl & Hc%list_elem_of_fmap). destruct Hc as (c' & -> & Hc').
      apply list_elem_of_fmap in Hl as (p' & [= -> ->] & Hp').
      apply Hin in Hc' as [Hc1 Hc2].
      apply distinct_present_spec in Hp' as [Hp1 Hp2].
      split; [done|]. split; [done|]. by apply pair_count_pos.
    + intros (Hc & Hp & [Hc' Hp']%pair_count_pos).
      exists (pair c <$> distinct_present "price_point" (category_data df c)).
      split.
      * apply list_elem_of_fmap. exists p. split; [done|].
        by apply distinct_present_spec.
      * apply list_elem_of_fmap. exists c. split; [done|]. by apply Hin.
Qed.

(** The rows of one category over its price points. *)
Lemma sum_pair_counts_category df c :
  sum_list ((λ p, pair_count c p df)
              <$> distinct_present "price_point" (category_data df c))
  = length (filter (λ r, at_col "price_point" r ≠ NaN)
              (rows (category_data df c))).
Proof.
  rewrite <-(sum_group_sizes_present (at_col "price_point")
               (distinct_present "price_point" (category_data df c))).
  - f_equal. apply list_fmap_ext. intros _ p _.
    unfold pair_count, category_data, restrict; simpl.
    rewrite list_filter_filter. f_equal. apply list_filter_iff.
    intros r; tauto.
  - apply distinct_present_spec.
  - intros p Hp. by apply distinct_present_spec in Hp as [? _].
  - intros r Hr Hna. apply distinct_present_spec. split; [done|].
    apply occurrences_pos. apply list_elem_of_fmap. by exists r.
Qed.

(** All visited pairs together count the rows with both keys. *)
Lemma sum_pair_counts df :
  sum_list ((λ cp, pair_count cp.1 cp.2 df) <$> present_pairs df)
  = length (filter (λ r, at_col "category_main" r ≠ NaN
                         ∧ at_col "price_point" r ≠ NaN) (rows df)).
Proof.
  unfold present_pairs.
  rewrite fmap_join, sum_list_join, <-!list_fmap_compose.
  rewrite (list_fmap_ext _
    (λ c, length (filter (λ r, at_col "category_main" r = c)
                    (filter (λ r, at_col "price_point" r ≠ NaN) (rows df))))).
  - rewrite (sum_group_sizes_present (at_col "category_main")).
    + rewrite list_filter_filter. done.
    + apply distinct_present_spec.
    + intros c Hc. by apply distinct_present_spec in Hc as [? _].
    + intros r [_ Hr]%list_elem_of_filter Hna.
      apply distinct_present_spec. split; [done|].
      apply occurrences_pos. apply list_elem_of_fmap. by exists r.
  - intros _ c _. unfold compose. rewrite <-list_fmap_compose.
    etrans; [apply (sum_pair_counts_category df c)|].
    unfold category_data, restrict; simpl.
    rewrite !list_filter_filter. f_equal. apply list_filter_iff.
    intros r; tauto.
Qed.

(** The total of the cross-tabulation of a frame. *)
Lemma category_price_data_total df :
  has_column df "category_main" = true →
  has_column df "price_point" = true →
  ∃ ct, category_price_data df = Ok (Some ct)
    ∧ ct_total ct
      = length (filter (λ r, at_col "category_main" r ≠ NaN
                             ∧ at_col "price_point" r ≠ NaN) (rows df)).
Proof.
  intros Ha Hb. unfold category_price_data. rewrite Ha, Hb. simpl.
  destruct (getitem_has_column _ _ Ha) as [da ->].
  destruct (getitem_has_column _ _ Hb) as [db ->]. simpl.
  eexists. split; [done|]. rewrite ct_total_crosstab. simpl.
  rewrite zip_with_fmap_l, zip_with_fmap_r, zip_with_diag.
  rewrite length_filter_fmap. f_equal. apply list_filter_iff.
  intros r. simpl. by rewrite !isna_false.
Qed.

Section Rollup_properties.
Variable format_float : Qc → string.

(** X20. The treemap rows over a table with both columns: one row for each
    pair of a category and a price point that occurs with neither missing,
    no pair twice, each with the number of rows of that pair; the counts
    add up to the number of rows with both values present, which is also
    the total of the cross-tabulation of the same table. *)
Theorem treemap_counts df :
  has_column df "category_main" = true →
  has_column df "price_point" = true →
  ∃ l, treemap_data format_float df = Ok l
    ∧ NoDup ((λ t, (tm_category t, tm_price_point t)) <$> l)
    ∧ (∀ c p n,
         (c, p, n) ∈ (λ t, (tm_category t, tm_price_point t, tm_count t)) <$> l
         ↔ c ≠ NaN ∧ p ≠ NaN ∧ 0 < n ∧ n = pair_count c p df)
    ∧ sum_list (tm_count <$> l)
      = length (filter (λ r, at_col "category_main" r ≠ NaN
                             ∧ at_col "price_point" r ≠ NaN) (rows df))
    ∧ ∃ ct, category_price_data df = Ok (Some ct)
        ∧ ct_total ct = sum_list (tm_count <$> l).
Proof.
  intros Hc Hp. unfold treemap_data.
  erewrite (for_category_price_point_pairs df _
    (λ c p, mkTreemap c p (pair_count c p df) _)); [|done..|]; last first.
  { intros c p _ Hna. by rewrite count_price_point_category. }
  destruct (present_pairs_spec df) as [Hnd Hin].
  eexists. split; [done|].
  rewrite <-!list_fmap_compose.
  split; [|split; [|split]].
  - rewrite (list_fmap_ext _ id), list_fmap_id; [done|]. by intros _ [??] _.
  - intros c p n. rewrite list_elem_of_fmap. split.
    + intros ([c' p'] & [= -> -> ->] & Hcp%Hin). simpl. tauto.
    + intros (Hc' & Hp' & Hn & ->). exists (c, p). split; [done|].
      by apply Hin.
  - rewrite <-sum_pair_counts. done.
  - destruct (category_price_data_total df Hc Hp) as (ct & Hct & Htotal).
    exists ct. split; [done|]. by rewrite Htotal, <-sum_pair_counts.
Qed.

End Rollup_properties.

Lemma filter_join {A} (P : A → Prop) `{!∀ x, Decision (P x)}
    (ls : list (list A)) :
  filter P (mjoin ls) = mjoin (filter P <$> ls).
Proof.
  induction ls as [|l ls IH]; [done|]. csimpl. by rewrite filter_app, IH.
Qed.

Lemma sum_list_only {K} `{EqDecision K} (y : K) (n : nat) (ks : list K) :
  NoDup ks → y ∈ ks →
  sum_list ((λ k, if decide (y = k) then n else 0) <$> ks) = n.
Proof.
  induction 1 as [|k ks Hk Hnd IH]; csimpl; [by intros ?%elem_of_nil|].
  intros [->|Hy]%elem_of_cons.
  - rewrite decide_True by done.
    rewrite (list_fmap_ext _ (λ _, 0)).
    + rewrite sum_list_fmap_const. lia.
    + intros _ k' Hk'%list_elem_of_lookup_2. rewrite decide_False; [done|].
      by intros <-.
  - rewrite decide_False by (intros <-; done). by rewrite IH.
Qed.

(** The rows of a category, by presence of the price point. *)
Lemma occurrences_split c df :
  length (filter (λ r, at_col "price_point" r ≠ NaN)
            (rows (category_data df c)))
    + pair_count c NaN df
  = occurrences "category_main" c df.
Proof.
  unfold pair_count, occurrences, category_data, restrict; simpl.
  induction (rows df) as [|r l IH]; [done|].
  rewrite !filter_cons.
  destruct (decide (at_col "category_main" r = c)) as [Hc|Hc].
  - rewrite filter_cons.
    destruct (decide (at_col "price_point" r = NaN)) as [Hp|Hp].
    + rewrite decide_False by tauto. rewrite decide_True by done.
      simpl. lia.
    + rewrite decide_True by done. rewrite decide_False by tauto.
      simpl. lia.
  - rewrite decide_False by tauto. done.
Qed.

Section Rollup_more.
Variable lib : library.
Variable format_float : Qc → string.

Lemma treemap_data_pairs df :
  has_column df "category_main" = true →
  has_column df "price_point" = true →
  (λ t, (tm_category t, tm_price_point t, tm_count t))
    <$> default [] (match treemap_data format_float df with
                    | Ok l => Some l | Raise _ => None end)
  = (λ cp, (cp.1, cp.2, pair_count cp.1 cp.2 df)) <$> present_pairs df
  ∧ ∃ l, treemap_data format_float df = Ok l.
Proof.
  intros Hc Hp. unfold treemap_data.
  erewrite (for_category_price_point_pairs df _
    (λ c p, mkTreemap c p (pair_count c p df) _)); [|done..|]; last first.
  { intros c p _ Hna. by rewrite count_price_point_category. }
  simpl. rewrite <-list_fmap_compose. split; [done|]. by eexists.
Qed.

(** X21. The sunburst nodes over a table with both columns: every category
    other than the empty label has its node, valued with the number of
    rows of the category, and the node exceeds the sum of the nodes below
    it by the number of rows of the category whose price point is missing;
    on a table without missing price points the node is the sum of the
    nodes below it. *)
Theorem sunburst_rollup df :
  has_column df "category_main" = true →
  has_column df "price_point" = true →
  ∃ l, sunburst_data format_float df = Ok l
    ∧ ∀ c, c ≠ NaN → c ≠ Str "" → 0 < occurrences "category_main" c df →
        mkSunburst c c (Str "") (occurrences "category_main" c df) ∈ l
        ∧ sum_list (values <$> filter (λ n, parents n = c) l)
            + pair_count c NaN df
          = occurrences "category_main" c df
        ∧ (Forall (λ r, at_col "price_point" r ≠ NaN) (rows df) →
           sum_list (values <$> filter (λ n, parents n = c) l)
           = occurrences "category_main" c df).
Proof.
  intros Hc Hp. unfold sunburst_data.
  erewrite (for_category_price_point_Ok df _ _
    (λ c p, mkSunburst _ p c (pair_count c p df))); [|done..|]; last first.
  { intros c p _ Hna. by rewrite count_price_point_category. }
  eexists. split; [done|]. intros c Hna Hroot Hocc.
  destruct (distinct_present_spec "category_main" df) as [Hnd Hin].
  assert (Hcin : c ∈ distinct_present "category_main" df) by (by apply Hin).
  assert (Hsum :
    sum_list (values <$> filter (λ n, parents n = c)
      (mjoin ((λ c0, ((λ p, mkSunburst
                        (Str (format format_float c0 ++ "-"
                              ++ format format_float p))
                        p c0 (pair_count c0 p df))
                        <$> distinct_present "price_point"
                              (category_data df c0))
                     ++ [mkSunburst c0 c0 (Str "")
                           (len (category_data df c0))])
                <$> distinct_present "category_main" df)))
    = length (filter (λ r, at_col "price_point" r ≠ NaN)
                (rows (category_data df c)))).
  { rewrite filter_join, fmap_join, sum_list_join, <-!list_fmap_compose.
    rewrite (list_fmap_ext _
      (λ c0, if decide (c = c0)
             then sum_list ((λ p, pair_count c p df)
                    <$> distinct_present "price_point" (category_data df c))
             else 0)).
    - rewrite sum_list_only by done. apply sum_pair_counts_category.
    - intros _ c0 _. unfold compose. rewrite filter_app, fmap_app,
        sum_list_with_app.
      rewrite filter_cons, filter_nil. simpl.
      rewrite decide_False by (intros Heq; by rewrite <-Heq in Hroot).
      simpl. rewrite Nat.add_0_r.
      destruct (decide (c = c0)) as [<-|Hne].
      + induction (distinct_present "price_point" (category_data df c))
          as [|p ps IH]; [done|].
        rewrite !fmap_cons, filter_cons. simpl.
        rewrite decide_True by done. csimpl. by rewrite IH.
      + induction (distinct_present "price_point" (category_data df c0))
          as [|p ps IH]; [done|].
        rewrite !fmap_cons, filter_cons. simpl.
        by rewrite decide_False by (by intros <-). }
  split; [|split].
  - apply list_elem_of_join. eexists. split; [|apply list_elem_of_fmap].
    2:{ exists c. split; [reflexivity|exact Hcin]. }
    apply elem_of_app. right. apply list_elem_of_singleton. done.
  - rewrite Hsum. apply occurrences_split.
  - intros Hall. rewrite Hsum, <-(occurrences_split c df).
    assert (pair_count c NaN df = 0) as ->; [|lia].
    unfold pair_count. clear -Hall.
    induction Hall as [|r l Hr _ IH]; [done|].
    rewrite filter_cons. rewrite decide_False by tauto. done.
Qed.

(** X22. The bubble rows over a table with both columns and clean prices,
    whatever the float64 arithmetic of the library's mean: they are
    computed without an exception, they hold the same pairs with the same
    counts as the treemap rows, in the same order, each count is the number
    of rows of the pair, and the average price of a row is the mean that
    the library computes from the prices of the rows of the pair, or 0 when
    the table has no price column. *)
Theorem bubble_joint df :
  has_column df "category_main" = true →
  has_column df "price_point" = true →
  (has_column df "price_amount" = true → numeric_prices df) →
  ∃ bs ts, bubble_data lib df = Ok bs
    ∧ treemap_data format_float df = Ok ts
    ∧ (λ b, (b_category b, b_price_point b, b_count b)) <$> bs
      = (λ t, (tm_category t, tm_price_point t, tm_count t)) <$> ts
    ∧ Forall (λ b,
        b_count b = pair_count (b_category b) (b_price_point b) df
        ∧ if has_column df "price_amount"
          then pair_mean lib (b_category b) (b_price_point b) df
               = Ok (b_avg_price b)
          else b_avg_price b = num 0) bs.
Proof.
  intros Hc Hp Hnum.
  destruct (treemap_data_pairs df Hc Hp) as [Htm [ts Hts]].
  rewrite Hts in Htm. simpl in Htm.
  set (avg := λ c p,
         if has_column df "price_amount"
         then match pair_mean lib c p df with Ok m => m | Raise _ => NaN end
         else num 0).
  assert (Hbs : bubble_data lib df
    = Ok ((λ cp, mkBubble cp.1 cp.2 (pair_count cp.1 cp.2 df)
                   (avg cp.1 cp.2)) <$> present_pairs df)).
  { unfold bubble_data.
    apply (for_category_price_point_pairs df _
             (λ c p, mkBubble c p (pair_count c p df) (avg c p))); [done..|].
    intros c p _ Hna. rewrite count_price_point_category by done. simpl.
    unfold avg. destruct (has_column df "price_amount") eqn:Hprice; [|done].
    destruct (getitem_has_column (category_data df c) "price_point" Hp)
      as [d ->]. simpl.
    rewrite getitem_mask_series_eq by done.
    destruct (getitem_has_column
                (restrict (λ r, at_col "price_point" r = p)
                   (category_data df c)) "price_amount" Hprice) as [d' ->].
    simpl. rewrite (mean_dtype _ d' float64).
    unfold category_data, restrict; simpl. rewrite list_filter_filter.
    rewrite (list_filter_iff
      (λ r, at_col "price_point" r = p ∧ at_col "category_main" r = c)
      (λ r, at_col "category_main" r = c ∧ at_col "price_point" r = p))
      by (intros r; tauto).
    fold (pair_mean lib c p df).
    destruct (mean_numeric (float_mean lib) float64
      (at_col "price_amount"
         <$> filter (λ r, at_col "category_main" r = c
                          ∧ at_col "price_point" r = p) (rows df)))
      as [m Hm].
    { apply Forall_fmap.
      exact (numeric_prices_restrict _ df (Hnum eq_refl)). }
    fold (pair_mean lib c p df) in Hm. by rewrite Hm. }
  eexists _, ts. split; [exact Hbs|]. split; [exact Hts|]. split.
  - by rewrite Htm, <-list_fmap_compose.
  - apply Forall_fmap, Forall_forall. intros [c p] _. simpl.
    split; [done|]. unfold avg.
    destruct (has_column df "price_amount") eqn:Hprice; [|done].
    destruct (mean_numeric (float_mean lib) float64
      (at_col "price_amount"
         <$> filter (λ r, at_col "category_main" r = c
                          ∧ at_col "price_point" r = p) (rows df)))
      as [m Hm].
    { apply Forall_fmap.
      exact (numeric_prices_restrict _ df (Hnum eq_refl)). }
    fold (pair_mean lib c p df) in Hm. by rewrite Hm.
Qed.

End Rollup_more.

Lemma joint_table_numeric : numeric_prices joint_table.
Proof. unfold numeric_prices, joint_table; simpl. by repeat constructor. Qed.

Lemma treemap_counts_witness :
  ∃ l, treemap_data (λ _, "x") category_table = Ok l
    ∧ (λ t, (tm_category t, tm_price_point t, tm_count t)) <$> l
      = [(Str "Tops", Str "Low", 2); (Str "Tops", Str "High", 1)]
    ∧ tm_label <$> l
      = ["Tops<br>Low<br>(2 items)"; "Tops<br>High<br>(1 items)"]
    ∧ sum_list (tm_count <$> l) = 3.
Proof.
  destruct (treemap_counts (λ _, "x") category_table eq_refl eq_refl)
    as (l & Hl & _ & _ & Hsum & _).
  exists l. split; [exact Hl|]. rewrite Hsum. injection Hl as <-.
  split; [vm_compute; reflexivity|]. split; vm_compute; reflexivity.
Defined.

Lemma bubble_joint_witness :
  ∃ bs, bubble_data exact_library joint_table = Ok bs
    ∧ (λ b, (b_category b, b_price_point b, b_count b)) <$> bs
      = [(Str "Tops", Str "Low", 2); (Str "Tops", Str "High", 1)]
    ∧ Forall (λ b, pair_mean exact_library (b_category b) (b_price_point b)
                     joint_table
                   = Ok (b_avg_price b)) bs.
Proof.
  destruct (bubble_joint exact_library (λ _, "x") joint_table eq_refl eq_refl
              (λ _, joint_table_numeric))
    as (bs & ts & Hbs & _ & _ & Hall).
  exists bs. split; [exact Hbs|]. split.
  - injection Hbs as <-. vm_compute. reflexivity.
  - eapply Forall_impl; [exact Hall|]. intros b [_ Hb]. exact Hb.
Defined.

Lemma sunburst_rollup_witness :
  ∃ l, sunburst_data (λ _, "x") joint_table = Ok l
    ∧ values <$> l = [2; 1; 3; 1]
    ∧ sum_list (values <$> filter (λ n, parents n = Str "Shoes") l)
        + pair_count (Str "Shoes") NaN joint_table = 1.
Proof.
  destruct (sunburst_rollup (λ _, "x") joint_table eq_refl eq_refl)
    as (l & Hl & Hroll).
  exists l. split; [exact Hl|].
  destruct (Hroll (Str "Shoes")) as (_ & Hsum & _); [done|done| |].
  { vm_compute. lia. }
  split; [|rewrite Hsum; vm_compute; reflexivity].
  clear Hroll Hsum. vm_compute in Hl. injection Hl as <-.
  vm_compute. reflexivity.
Defined.

